(** * Egyptian national-id extraction: a shallow embedding of the OCR
      post-processing code and its verification.

    The Python sources embedded here are [process_logic.py] (the engine
    imported by the web application), [process.py] (its stand-alone
    copy), [test2photos.py] (the name heuristic) and [app.py] (the batch
    route).  Python [str] values are sequences of Unicode code points, so
    a string is a list of code points; the [re] module is embedded as a
    small backtracking matcher whose atoms are the ones the patterns of
    the program use; Python [float] values are IEEE 754 binary64 numbers,
    with the arithmetic of the standard library's [SpecFloat]. *)

From Stdlib Require Import NArith ZArith List Bool Lia String Ascii DecimalString.
From Stdlib.Floats Require Import SpecFloat.
From Stdlib.Strings Require Import Byte.
From stdpp Require Import gmap list.
Import ListNotations.

Local Open Scope nat_scope.

(** ** Code points and strings *)

(** A Python character is a Unicode code point. *)
Abbreviation char := N.

(** A Python [str]. *)
Abbreviation pystr := (list char).

(** An ASCII literal of the source, as a Python [str]. *)
Definition py (s : string) : pystr :=
  List.map N_of_ascii (list_ascii_of_string s).

Definition char_eqb (a b : char) : bool := N.eqb a b.

Fixpoint pystr_eqb (a b : pystr) : bool :=
  match a, b with
  | [], [] => true
  | x :: a', y :: b' => char_eqb x y && pystr_eqb a' b'
  | _, _ => false
  end.

(** ** The Unicode character database (version 14.0, as shipped with
       CPython 3.11), restricted to the properties the program reads
       through [\d], [\w], [\b], [\s], [str.isdigit], [str.split] and
       [str.strip].  Each table lists inclusive code-point ranges. *)

(** Code points for which [str.isdecimal] holds (general category Nd). *)
Definition decimal_ranges : list (N * N) :=
  [(48,57); (1632,1641); (1776,1785); (1984,1993); (2406,2415); (2534,2543); (2662,2671);
   (2790,2799); (2918,2927); (3046,3055); (3174,3183); (3302,3311); (3430,3439); (3558,3567);
   (3664,3673); (3792,3801); (3872,3881); (4160,4169); (4240,4249); (6112,6121); (6160,6169);
   (6470,6479); (6608,6617); (6784,6793); (6800,6809); (6992,7001); (7088,7097); (7232,7241);
   (7248,7257); (42528,42537); (43216,43225); (43264,43273); (43472,43481); (43504,43513);
   (43600,43609); (44016,44025); (65296,65305); (66720,66729); (68912,68921); (69734,69743);
   (69872,69881); (69942,69951); (70096,70105); (70384,70393); (70736,70745); (70864,70873);
   (71248,71257); (71360,71369); (71472,71481); (71904,71913); (72016,72025); (72784,72793);
   (73040,73049); (73120,73129); (92768,92777); (92864,92873); (93008,93017); (120782,120831);
   (123200,123209); (123632,123641); (125264,125273); (130032,130041)]%N.

(** Code points for which [str.isdigit] holds and [str.isdecimal] does not (superscripts, circled digits and the like). *)
Definition digit_ranges : list (N * N) :=
  [(178,179); (185,185); (4969,4977); (6618,6618); (8304,8304); (8308,8313); (8320,8329);
   (9312,9320); (9332,9340); (9352,9360); (9450,9450); (9461,9469); (9471,9471); (10102,10110);
   (10112,10120); (10122,10130); (68160,68163); (69216,69224); (69714,69722); (127232,127242)]%N.

(** Code points for which [str.isnumeric] holds and neither [str.isdigit] nor [str.isalpha] does (fractions, Roman numerals, ...). *)
Definition numeric_ranges : list (N * N) :=
  [(188,190); (2548,2553); (2930,2935); (3056,3058); (3192,3198); (3416,3422); (3440,3448);
   (3882,3891); (4978,4988); (5870,5872); (6128,6137); (8528,8578); (8581,8585); (9321,9331);
   (9341,9351); (9361,9371); (9451,9460); (9470,9470); (10111,10111); (10121,10121);
   (10131,10131); (11517,11517); (12295,12295); (12321,12329); (12344,12346); (12690,12693);
   (12832,12841); (12872,12879); (12881,12895); (12928,12937); (12977,12991); (42726,42735);
   (43056,43061); (65799,65843); (65856,65912); (65930,65931); (66273,66299); (66336,66339);
   (66369,66369); (66378,66378); (66513,66517); (67672,67679); (67705,67711); (67751,67759);
   (67835,67839); (67862,67867); (68028,68029); (68032,68047); (68050,68095); (68164,68168);
   (68221,68222); (68253,68255); (68331,68335); (68440,68447); (68472,68479); (68521,68527);
   (68858,68863); (69225,69246); (69405,69414); (69457,69460); (69573,69579); (69723,69733);
   (70113,70132); (71482,71483); (71914,71922); (72794,72812); (73664,73684); (74752,74862);
   (93019,93025); (93824,93846); (119520,119539); (119648,119672); (125127,125135);
   (126065,126123); (126125,126127); (126129,126132); (126209,126253); (126255,126269);
   (127243,127244)]%N.

(** Code points for which [str.isalpha] holds (general categories Lu, Ll, Lt, Lm, Lo). *)
Definition alpha_ranges : list (N * N) :=
  [(65,90); (97,122); (170,170); (181,181); (186,186); (192,214); (216,246); (248,705);
   (710,721); (736,740); (748,748); (750,750); (880,884); (886,887); (890,893); (895,895);
   (902,902); (904,906); (908,908); (910,929); (931,1013); (1015,1153); (1162,1327);
   (1329,1366); (1369,1369); (1376,1416); (1488,1514); (1519,1522); (1568,1610); (1646,1647);
   (1649,1747); (1749,1749); (1765,1766); (1774,1775); (1786,1788); (1791,1791); (1808,1808);
   (1810,1839); (1869,1957); (1969,1969); (1994,2026); (2036,2037); (2042,2042); (2048,2069);
   (2074,2074); (2084,2084); (2088,2088); (2112,2136); (2144,2154); (2160,2183); (2185,2190);
   (2208,2249); (2308,2361); (2365,2365); (2384,2384); (2392,2401); (2417,2432); (2437,2444);
   (2447,2448); (2451,2472); (2474,2480); (2482,2482); (2486,2489); (2493,2493); (2510,2510);
   (2524,2525); (2527,2529); (2544,2545); (2556,2556); (2565,2570); (2575,2576); (2579,2600);
   (2602,2608); (2610,2611); (2613,2614); (2616,2617); (2649,2652); (2654,2654); (2674,2676);
   (2693,2701); (2703,2705); (2707,2728); (2730,2736); (2738,2739); (2741,2745); (2749,2749);
   (2768,2768); (2784,2785); (2809,2809); (2821,2828); (2831,2832); (2835,2856); (2858,2864);
   (2866,2867); (2869,2873); (2877,2877); (2908,2909); (2911,2913); (2929,2929); (2947,2947);
   (2949,2954); (2958,2960); (2962,2965); (2969,2970); (2972,2972); (2974,2975); (2979,2980);
   (2984,2986); (2990,3001); (3024,3024); (3077,3084); (3086,3088); (3090,3112); (3114,3129);
   (3133,3133); (3160,3162); (3165,3165); (3168,3169); (3200,3200); (3205,3212); (3214,3216);
   (3218,3240); (3242,3251); (3253,3257); (3261,3261); (3293,3294); (3296,3297); (3313,3314);
   (3332,3340); (3342,3344); (3346,3386); (3389,3389); (3406,3406); (3412,3414); (3423,3425);
   (3450,3455); (3461,3478); (3482,3505); (3507,3515); (3517,3517); (3520,3526); (3585,3632);
   (3634,3635); (3648,3654); (3713,3714); (3716,3716); (3718,3722); (3724,3747); (3749,3749);
   (3751,3760); (3762,3763); (3773,3773); (3776,3780); (3782,3782); (3804,3807); (3840,3840);
   (3904,3911); (3913,3948); (3976,3980); (4096,4138); (4159,4159); (4176,4181); (4186,4189);
   (4193,4193); (4197,4198); (4206,4208); (4213,4225); (4238,4238); (4256,4293); (4295,4295);
   (4301,4301); (4304,4346); (4348,4680); (4682,4685); (4688,4694); (4696,4696); (4698,4701);
   (4704,4744); (4746,4749); (4752,4784); (4786,4789); (4792,4798); (4800,4800); (4802,4805);
   (4808,4822); (4824,4880); (4882,4885); (4888,4954); (4992,5007); (5024,5109); (5112,5117);
   (5121,5740); (5743,5759); (5761,5786); (5792,5866); (5873,5880); (5888,5905); (5919,5937);
   (5952,5969); (5984,5996); (5998,6000); (6016,6067); (6103,6103); (6108,6108); (6176,6264);
   (6272,6276); (6279,6312); (6314,6314); (6320,6389); (6400,6430); (6480,6509); (6512,6516);
   (6528,6571); (6576,6601); (6656,6678); (6688,6740); (6823,6823); (6917,6963); (6981,6988);
   (7043,7072); (7086,7087); (7098,7141); (7168,7203); (7245,7247); (7258,7293); (7296,7304);
   (7312,7354); (7357,7359); (7401,7404); (7406,7411); (7413,7414); (7418,7418); (7424,7615);
   (7680,7957); (7960,7965); (7968,8005); (8008,8013); (8016,8023); (8025,8025); (8027,8027);
   (8029,8029); (8031,8061); (8064,8116); (8118,8124); (8126,8126); (8130,8132); (8134,8140);
   (8144,8147); (8150,8155); (8160,8172); (8178,8180); (8182,8188); (8305,8305); (8319,8319);
   (8336,8348); (8450,8450); (8455,8455); (8458,8467); (8469,8469); (8473,8477); (8484,8484);
   (8486,8486); (8488,8488); (8490,8493); (8495,8505); (8508,8511); (8517,8521); (8526,8526);
   (8579,8580); (11264,11492); (11499,11502); (11506,11507); (11520,11557); (11559,11559);
   (11565,11565); (11568,11623); (11631,11631); (11648,11670); (11680,11686); (11688,11694);
   (11696,11702); (11704,11710); (11712,11718); (11720,11726); (11728,11734); (11736,11742);
   (11823,11823); (12293,12294); (12337,12341); (12347,12348); (12353,12438); (12445,12447);
   (12449,12538); (12540,12543); (12549,12591); (12593,12686); (12704,12735); (12784,12799);
   (13312,19903); (19968,42124); (42192,42237); (42240,42508); (42512,42527); (42538,42539);
   (42560,42606); (42623,42653); (42656,42725); (42775,42783); (42786,42888); (42891,42954);
   (42960,42961); (42963,42963); (42965,42969); (42994,43009); (43011,43013); (43015,43018);
   (43020,43042); (43072,43123); (43138,43187); (43250,43255); (43259,43259); (43261,43262);
   (43274,43301); (43312,43334); (43360,43388); (43396,43442); (43471,43471); (43488,43492);
   (43494,43503); (43514,43518); (43520,43560); (43584,43586); (43588,43595); (43616,43638);
   (43642,43642); (43646,43695); (43697,43697); (43701,43702); (43705,43709); (43712,43712);
   (43714,43714); (43739,43741); (43744,43754); (43762,43764); (43777,43782); (43785,43790);
   (43793,43798); (43808,43814); (43816,43822); (43824,43866); (43868,43881); (43888,44002);
   (44032,55203); (55216,55238); (55243,55291); (63744,64109); (64112,64217); (64256,64262);
   (64275,64279); (64285,64285); (64287,64296); (64298,64310); (64312,64316); (64318,64318);
   (64320,64321); (64323,64324); (64326,64433); (64467,64829); (64848,64911); (64914,64967);
   (65008,65019); (65136,65140); (65142,65276); (65313,65338); (65345,65370); (65382,65470);
   (65474,65479); (65482,65487); (65490,65495); (65498,65500); (65536,65547); (65549,65574);
   (65576,65594); (65596,65597); (65599,65613); (65616,65629); (65664,65786); (66176,66204);
   (66208,66256); (66304,66335); (66349,66368); (66370,66377); (66384,66421); (66432,66461);
   (66464,66499); (66504,66511); (66560,66717); (66736,66771); (66776,66811); (66816,66855);
   (66864,66915); (66928,66938); (66940,66954); (66956,66962); (66964,66965); (66967,66977);
   (66979,66993); (66995,67001); (67003,67004); (67072,67382); (67392,67413); (67424,67431);
   (67456,67461); (67463,67504); (67506,67514); (67584,67589); (67592,67592); (67594,67637);
   (67639,67640); (67644,67644); (67647,67669); (67680,67702); (67712,67742); (67808,67826);
   (67828,67829); (67840,67861); (67872,67897); (67968,68023); (68030,68031); (68096,68096);
   (68112,68115); (68117,68119); (68121,68149); (68192,68220); (68224,68252); (68288,68295);
   (68297,68324); (68352,68405); (68416,68437); (68448,68466); (68480,68497); (68608,68680);
   (68736,68786); (68800,68850); (68864,68899); (69248,69289); (69296,69297); (69376,69404);
   (69415,69415); (69424,69445); (69488,69505); (69552,69572); (69600,69622); (69635,69687);
   (69745,69746); (69749,69749); (69763,69807); (69840,69864); (69891,69926); (69956,69956);
   (69959,69959); (69968,70002); (70006,70006); (70019,70066); (70081,70084); (70106,70106);
   (70108,70108); (70144,70161); (70163,70187); (70272,70278); (70280,70280); (70282,70285);
   (70287,70301); (70303,70312); (70320,70366); (70405,70412); (70415,70416); (70419,70440);
   (70442,70448); (70450,70451); (70453,70457); (70461,70461); (70480,70480); (70493,70497);
   (70656,70708); (70727,70730); (70751,70753); (70784,70831); (70852,70853); (70855,70855);
   (71040,71086); (71128,71131); (71168,71215); (71236,71236); (71296,71338); (71352,71352);
   (71424,71450); (71488,71494); (71680,71723); (71840,71903); (71935,71942); (71945,71945);
   (71948,71955); (71957,71958); (71960,71983); (71999,71999); (72001,72001); (72096,72103);
   (72106,72144); (72161,72161); (72163,72163); (72192,72192); (72203,72242); (72250,72250);
   (72272,72272); (72284,72329); (72349,72349); (72368,72440); (72704,72712); (72714,72750);
   (72768,72768); (72818,72847); (72960,72966); (72968,72969); (72971,73008); (73030,73030);
   (73056,73061); (73063,73064); (73066,73097); (73112,73112); (73440,73458); (73648,73648);
   (73728,74649); (74880,75075); (77712,77808); (77824,78894); (82944,83526); (92160,92728);
   (92736,92766); (92784,92862); (92880,92909); (92928,92975); (92992,92995); (93027,93047);
   (93053,93071); (93760,93823); (93952,94026); (94032,94032); (94099,94111); (94176,94177);
   (94179,94179); (94208,100343); (100352,101589); (101632,101640); (110576,110579);
   (110581,110587); (110589,110590); (110592,110882); (110928,110930); (110948,110951);
   (110960,111355); (113664,113770); (113776,113788); (113792,113800); (113808,113817);
   (119808,119892); (119894,119964); (119966,119967); (119970,119970); (119973,119974);
   (119977,119980); (119982,119993); (119995,119995); (119997,120003); (120005,120069);
   (120071,120074); (120077,120084); (120086,120092); (120094,120121); (120123,120126);
   (120128,120132); (120134,120134); (120138,120144); (120146,120485); (120488,120512);
   (120514,120538); (120540,120570); (120572,120596); (120598,120628); (120630,120654);
   (120656,120686); (120688,120712); (120714,120744); (120746,120770); (120772,120779);
   (122624,122654); (123136,123180); (123191,123197); (123214,123214); (123536,123565);
   (123584,123627); (124896,124902); (124904,124907); (124909,124910); (124912,124926);
   (124928,125124); (125184,125251); (125259,125259); (126464,126467); (126469,126495);
   (126497,126498); (126500,126500); (126503,126503); (126505,126514); (126516,126519);
   (126521,126521); (126523,126523); (126530,126530); (126535,126535); (126537,126537);
   (126539,126539); (126541,126543); (126545,126546); (126548,126548); (126551,126551);
   (126553,126553); (126555,126555); (126557,126557); (126559,126559); (126561,126562);
   (126564,126564); (126567,126570); (126572,126578); (126580,126583); (126585,126588);
   (126590,126590); (126592,126601); (126603,126619); (126625,126627); (126629,126633);
   (126635,126651); (131072,173791); (173824,177976); (177984,178205); (178208,183969);
   (183984,191456); (194560,195101); (196608,201546)]%N.

(** Code points for which [str.isspace] holds. *)
Definition space_ranges : list (N * N) :=
  [(9,13); (28,32); (133,133); (160,160); (5760,5760); (8192,8202); (8232,8233); (8239,8239);
   (8287,8287); (12288,12288)]%N.

Definition in_ranges (t : list (N * N)) (c : char) : bool :=
  existsb (fun r => (fst r <=? c)%N && (c <=? snd r)%N) t.

(** [str.isdecimal]; also the class [\d] of a [str] pattern. *)
Definition is_decimal (c : char) : bool := in_ranges decimal_ranges c.

(** [str.isdigit]. *)
Definition is_digit (c : char) : bool :=
  is_decimal c || in_ranges digit_ranges c.

(** [str.isalpha]. *)
Definition is_alpha (c : char) : bool := in_ranges alpha_ranges c.

(** [str.isalnum], as CPython computes it: alphabetic, decimal, digit or
    numeric. *)
Definition is_alnum (c : char) : bool :=
  is_alpha c || is_decimal c || is_digit c || in_ranges numeric_ranges c.

(** The class [\w] of a [str] pattern: alphanumeric or the underscore. *)
Definition is_word (c : char) : bool := is_alnum c || char_eqb c 95%N.

(** [str.isspace]; also the class [\s] of a [str] pattern. *)
Definition is_space (c : char) : bool := in_ranges space_ranges c.

(** The Western digits [0-9]. *)
Definition is_western (c : char) : bool := (48 <=? c)%N && (c <=? 57)%N.

(** The tables are looked up by evaluation only. *)
Arguments in_ranges : simpl never.
Arguments is_decimal : simpl never.
Arguments is_digit : simpl never.
Arguments is_alpha : simpl never.
Arguments is_alnum : simpl never.
Arguments is_word : simpl never.
Arguments is_space : simpl never.

(** ** String operations of the Python runtime used by the program *)

(** [s.startswith(p)] *)
Fixpoint startswith (s p : pystr) : bool :=
  match p, s with
  | [], _ => true
  | x :: p', y :: s' => char_eqb x y && startswith s' p'
  | _ :: _, [] => false
  end.

(** [s.startswith(('2', '3'))] *)
Definition startswith_2_or_3 (s : pystr) : bool :=
  startswith s (py "2") || startswith s (py "3").

(** [sub in s] *)
Fixpoint contains (s sub : pystr) : bool :=
  startswith s sub ||
  match s with
  | [] => false
  | _ :: s' => contains s' sub
  end.

(** [s.replace(old, new)] for a non-empty [old]: every non-overlapping
    occurrence, scanning from the left.  [skip] counts the characters of
    an occurrence still to be dropped. *)
Fixpoint replace_go (old new : pystr) (skip : nat) (s : pystr) : pystr :=
  match s with
  | [] => []
  | c :: s' =>
      match skip with
      | S k => replace_go old new k s'
      | O =>
          if startswith s old
          then new ++ replace_go old new (length old - 1) s'
          else c :: replace_go old new 0 s'
      end
  end.

Definition replace (s old new : pystr) : pystr := replace_go old new 0 s.

(** [s.split(sep)] for a one-character separator. *)
Fixpoint split_on (sep : char) (s : pystr) : list pystr :=
  match s with
  | [] => [[]]
  | c :: s' =>
      if char_eqb c sep then [] :: split_on sep s'
      else match split_on sep s' with
           | [] => [[c]]
           | l :: ls => (c :: l) :: ls
           end
  end.

(** [s.lstrip()], [s.rstrip()] and [s.strip()]. *)
Fixpoint lstrip (s : pystr) : pystr :=
  match s with
  | [] => []
  | c :: s' => if is_space c then lstrip s' else s
  end.

Definition rstrip (s : pystr) : pystr := rev (lstrip (rev s)).

Definition strip (s : pystr) : pystr := rstrip (lstrip s).

(** [s.split()]: the maximal runs of non-whitespace characters.  [cur]
    is the token being read. *)
Fixpoint split_ws_go (cur : pystr) (s : pystr) : list pystr :=
  match s with
  | [] => match cur with [] => [] | _ => [cur] end
  | c :: s' =>
      if is_space c
      then match cur with
           | [] => split_ws_go [] s'
           | _ => cur :: split_ws_go [] s'
           end
      else split_ws_go (cur ++ [c]) s'
  end.

Definition split_ws (s : pystr) : list pystr := split_ws_go [] s.

(** ** The [re] module

    The atoms and operators that occur in the patterns of the program.
    Quantifiers are greedy, as in Python. *)
Inductive regex : Type :=
| Chr (c : char)                       (* a literal character *)
| Cls (p : char -> bool)               (* a character class: \d, \s, [..] *)
| Bnd                                  (* \b *)
| Seq (r1 r2 : regex)                  (* r1 r2 *)
| Opt (r : regex)                      (* r? *)
| Rep (r : regex) (lo hi : nat)        (* r{lo,hi} *)
| Plus (r : regex).                    (* r+ *)

(** A continuation receives the character before the cursor and the
    rest of the input, and yields the input left after the whole match,
    or [None] to make the matcher backtrack. *)
Definition cont : Type := option char -> pystr -> option pystr.

Definition matcher : Type := option char -> pystr -> cont -> option pystr.

Definition word_opt (o : option char) : bool :=
  match o with
  | Some c => is_word c
  | None => false
  end.

(** [\b]: exactly one of the two neighbours of the cursor is a word
    character; the ends of the string count as non-word. *)
Definition at_boundary (prev : option char) (s : pystr) : bool :=
  xorb (word_opt prev) (word_opt (head s)).

(** [r{lo,hi}]: one more iteration is tried first; stopping is allowed
    once [lo] iterations are done. *)
Fixpoint rep (m : matcher) (lo hi : nat) (prev : option char) (s : pystr)
    (k : cont) : option pystr :=
  match hi with
  | O => k prev s
  | S hi' =>
      match m prev s (fun p' s' => rep m (Nat.pred lo) hi' p' s' k) with
      | Some out => Some out
      | None => match lo with O => k prev s | S _ => None end
      end
  end.

(** [r+]: at least one iteration, then as many as possible.  An
    iteration of the patterns used here consumes a character, so
    [length s + 1] rounds of fuel are never exhausted. *)
Fixpoint plus (m : matcher) (fuel : nat) (prev : option char) (s : pystr)
    (k : cont) : option pystr :=
  match fuel with
  | O => None
  | S fuel' =>
      m prev s (fun p' s' =>
        match plus m fuel' p' s' k with
        | Some out => Some out
        | None => k p' s'
        end)
  end.

Fixpoint mt (r : regex) : matcher :=
  fun prev s k =>
  match r with
  | Chr c =>
      match s with
      | x :: s' => if char_eqb x c then k (Some x) s' else None
      | [] => None
      end
  | Cls p =>
      match s with
      | x :: s' => if p x then k (Some x) s' else None
      | [] => None
      end
  | Bnd => if at_boundary prev s then k prev s else None
  | Seq r1 r2 => mt r1 prev s (fun p' s' => mt r2 p' s' k)
  | Opt r1 =>
      match mt r1 prev s k with
      | Some out => Some out
      | None => k prev s
      end
  | Rep r1 lo hi => rep (mt r1) lo hi prev s k
  | Plus r1 => plus (mt r1) (S (length s)) prev s k
  end.

(** The length of the match of [r] that starts at the cursor, if any:
    the first one in backtracking order. *)
Definition match_at (r : regex) (prev : option char) (s : pystr) : option nat :=
  match mt r prev s (fun _ rest => Some rest) with
  | Some rest => Some (length s - length rest)
  | None => None
  end.

(** [re.search(r, s)]: the text of the leftmost match.  In the two
    patterns searched by the program the only group spans the whole
    match, so this text is also [group(1)]. *)
Fixpoint re_search_from (r : regex) (prev : option char) (s : pystr)
    : option pystr :=
  match match_at r prev s with
  | Some n => Some (firstn n s)
  | None =>
      match s with
      | [] => None
      | c :: s' => re_search_from r (Some c) s'
      end
  end.

Definition re_search (r : regex) (s : pystr) : option pystr :=
  re_search_from r None s.

(** [re.fullmatch(r, s)], as a truth value. *)
Definition re_fullmatch (r : regex) (s : pystr) : bool :=
  match mt r None s (fun _ rest => match rest with [] => Some [] | _ => None end) with
  | Some _ => true
  | None => false
  end.

(** [re.findall(r, s)] for a pattern without groups: the texts of the
    non-overlapping matches, scanning from the left.  [skip] counts the
    characters of the current match still to be passed over.  The
    patterns scanned by the program consume at least one character, so a
    match of length zero is not told apart from no match. *)
Fixpoint re_findall_go (r : regex) (skip : nat) (prev : option char)
    (s : pystr) : list pystr :=
  match s with
  | [] => []
  | c :: s' =>
      match skip with
      | S k => re_findall_go r k (Some c) s'
      | O =>
          match match_at r prev s with
          | Some (S k) => firstn (S k) s :: re_findall_go r k (Some c) s'
          | _ => re_findall_go r 0 (Some c) s'
          end
      end
  end.

Definition re_findall (r : regex) (s : pystr) : list pystr :=
  re_findall_go r 0 None s.

(** [re.sub(r, repl, s)] for a literal replacement, with the same
    scanning discipline.  [\b] inside a later match still sees the
    characters of the original string. *)
Fixpoint re_sub_go (r : regex) (repl : pystr) (skip : nat)
    (prev : option char) (s : pystr) : pystr :=
  match s with
  | [] => []
  | c :: s' =>
      match skip with
      | S k => re_sub_go r repl k (Some c) s'
      | O =>
          match match_at r prev s with
          | Some (S k) => repl ++ re_sub_go r repl k (Some c) s'
          | _ => c :: re_sub_go r repl 0 (Some c) s'
          end
      end
  end.

Definition re_sub (r : regex) (repl : pystr) (s : pystr) : pystr :=
  re_sub_go r repl 0 None s.

(** The patterns of the program. *)

Definition is_2_or_3 (c : char) : bool := char_eqb c 50%N || char_eqb c 51%N.

(** [\b\d{4}/\d{1,2}(/\d{1,2})?\b] *)
Definition re_date : regex :=
  Seq Bnd (Seq (Rep (Cls is_decimal) 4 4) (Seq (Chr 47%N)
    (Seq (Rep (Cls is_decimal) 1 2)
      (Seq (Opt (Seq (Chr 47%N) (Rep (Cls is_decimal) 1 2))) Bnd)))).

(** [[23]\d{13}] *)
Definition re_id : regex := Seq (Cls is_2_or_3) (Rep (Cls is_decimal) 13 13).

(** [\b([23]\d{13})\b] *)
Definition re_standalone_id : regex := Seq Bnd (Seq re_id Bnd).

(** [\d+] *)
Definition re_digits : regex := Plus (Cls is_decimal).

(** ** The collaborators of the program: files, the OCR service, the
       imaging library and floating-point arithmetic *)

Abbreviation bytes := (list byte).

(** The files on disk, by path. *)
Abbreviation filesystem := (gmap pystr bytes).

(** What a run can change: the files, and the contents sent so far to
    the text-detection endpoint of the OCR service (latest first). *)
Record state : Type := {
  files : filesystem;
  probes : list bytes
}.

Definition write_file (path : pystr) (content : bytes) (st : state) : state :=
  {| files := <[path := content]> (files st); probes := probes st |}.

Definition remove_file (path : pystr) (st : state) : state :=
  {| files := delete path (files st); probes := probes st |}.

Definition record_probe (content : bytes) (st : state) : state :=
  {| files := files st; probes := content :: probes st |}.

Record vertex : Type := { vertex_x : Z; vertex_y : Z }.

Record annotation : Type := {
  description : pystr;
  bounding_poly : list vertex
}.

Record response : Type := {
  error_message : pystr;
  text_annotations : list annotation
}.

(** The OCR client.  A call that raises is [None]. *)
Record vision_client : Type := {
  text_detection : bytes -> option response;
  document_text_detection : bytes -> option response
}.

(** A Python [float]: a binary64 number.  [binary64 m e] is the number
    [m * 2 ^ e]; products and quotients are rounded to the nearest
    binary64 number, ties to even. *)
Abbreviation float := spec_float.

Definition binary64 (m : positive) (e : Z) : float := S754_finite false m e.

Definition fmul : float -> float -> float := SFmul 53 1024.
Definition fdiv : float -> float -> float := SFdiv 53 1024.

(** The numbers [0], [45] and [180] as floats, and the floats that the
    literals [3.14159] of process_logic.py and [3.141592653589793], the
    value of [np.pi], denote. *)
Definition float_0 : float := S754_zero false.
Definition float_45 : float := binary64 0x16800000000000 (-47).
Definition float_180 : float := binary64 0x16800000000000 (-45).
Definition float_3_14159 : float := binary64 0x1921f9f01b866e (-51).
Definition float_pi : float := binary64 0x1921fb54442d18 (-51).

(** Library behaviour the program depends on but does not define.
    [pil_rotate content degrees] is the picture decoded from [content]
    by [PILImage.open], converted to RGB and rotated with [expand=True],
    or [None] when the imaging library raises, as it does on bytes that
    are not an image.  [pil_save path img] is what [img.save(path)]
    stores at [path], or [None] when it raises (a name whose extension
    names no format, a directory that does not exist), in which case
    nothing is written.  [math_atan2 dy dx] and [np_arctan2 dy dx] are
    the floats [math.atan2(dy, dx)] and [np.arctan2(dy, dx)] on two
    integers. *)
Record runtime : Type := {
  pil_rotate : bytes -> Z -> option bytes;
  pil_save : pystr -> bytes -> option bytes;
  math_atan2 : Z -> Z -> float;
  np_arctan2 : Z -> Z -> float
}.

(** [abs(angle) > 45] and [angle > 0]; an [int] is compared with a
    [float] by its exact value. *)
Definition exceeds_45 (angle : float) : bool := SFltb float_45 (SFabs angle).
Definition is_positive (angle : float) : bool := SFltb float_0 angle.

(** The result of a call that may raise. *)
Inductive outcome (A : Type) : Type :=
| Returns (a : A)
| Raises.
Arguments Returns {A} a.
Arguments Raises {A}.

(** ** process_logic.py *)
Module ProcessLogic.

(** The dictionary [numeral_map]: Eastern Arabic-Indic digits, then
    Extended Arabic-Indic (Persian) digits. *)
Definition numeral_map : list (char * char) :=
  [(1632, 48); (1633, 49); (1634, 50); (1635, 51); (1636, 52);
   (1637, 53); (1638, 54); (1639, 55); (1640, 56); (1641, 57);
   (1776, 48); (1777, 49); (1778, 50); (1779, 51); (1780, 52);
   (1781, 53); (1782, 54); (1783, 55); (1784, 56); (1785, 57)]%N.

(** [str.maketrans(numeral_map)] *)
Definition translation_table : gmap char char := list_to_map numeral_map.

(** One step of [text.translate(table)]. *)
Definition translate_char (table : gmap char char) (c : char) : char :=
  match table !! c with
  | Some d => d
  | None => c
  end.

Definition normalize_digits (text : pystr) : pystr :=
  match text with
  | [] => []
  | _ => List.map (translate_char translation_table) text
  end.

(** Strategy A: [re.search(r'\b([23]\d{13})\b', cleaned_text)]. *)
Definition strategy_A (cleaned_text : pystr) : option pystr :=
  re_search re_standalone_id cleaned_text.

(** The loop of strategy B over [range(len(all_numbers) - 1)]. *)
Fixpoint adjacent_sevens (all_numbers : list pystr) : option pystr :=
  match all_numbers with
  | a :: ((b :: _) as rest) =>
      if (length a =? 7) && (length b =? 7) && startswith_2_or_3 (a ++ b)
      then Some (a ++ b)
      else adjacent_sevens rest
  | _ => None
  end.

Definition strategy_B (cleaned_text : pystr) : option pystr :=
  adjacent_sevens (re_findall re_digits cleaned_text).

(** The loop of strategy C over [all_numbers_original]. *)
Fixpoint embedded_id (all_numbers_original : list pystr) : option pystr :=
  match all_numbers_original with
  | [] => None
  | num_seq :: rest =>
      if 14 <? length num_seq
      then match re_search re_id num_seq with
           | Some m => Some m
           | None => embedded_id rest
           end
      else embedded_id rest
  end.

Definition strategy_C (processed_text : pystr) : option pystr :=
  embedded_id (re_findall re_digits processed_text).

(** [re.sub(r'\b\d{4}/\d{1,2}(/\d{1,2})?\b', '', processed_text)] *)
Definition strip_dates (processed_text : pystr) : pystr :=
  re_sub re_date [] processed_text.

Definition extract_national_id (text : pystr) : option pystr :=
  match text with
  | [] => None
  | _ =>
      let processed_text := normalize_digits text in
      let cleaned_text := strip_dates processed_text in
      match strategy_A cleaned_text with
      | Some m => Some m
      | None =>
          match strategy_B cleaned_text with
          | Some national_id => Some national_id
          | None => strategy_C processed_text
          end
      end
  end.



(** [(180 / 3.14159) * radians], in floating point. *)
Definition degrees (radians : float) : float :=
  fmul (fdiv float_180 float_3_14159) radians.

(** The body of the [try] block; every exception inside it makes the
    function return [image_path]. *)
Definition detect_rotation_and_correct_image (rt : runtime)
    (client : vision_client) (image_path : pystr) (st : state)
    : pystr * state :=
  match files st !! image_path with
  | None => (image_path, st)
  | Some content =>
      match content with
      | [] => (image_path, st)
      | _ :: _ =>
          let st := record_probe content st in
          match text_detection client content with
          | None => (image_path, st)
          | Some response =>
              match text_annotations response with
              | [] => (image_path, st)
              | first :: _ =>
                  match bounding_poly first with
                  | [] => (image_path, st)
                  | [_] => (image_path, st)
                  | v0 :: v1 :: _ =>
                      let dy := (vertex_y v1 - vertex_y v0)%Z in
                      let dx := (vertex_x v1 - vertex_x v0)%Z in
                      let angle := degrees (math_atan2 rt dy dx) in
                      if exceeds_45 angle then
                        match pil_rotate rt content
                                (if is_positive angle then 270 else 90)%Z with
                        | None => (image_path, st)
                        | Some img =>
                            let corrected_path :=
                              replace
                                (replace image_path (py ".jpg") (py "_corrected.jpg"))
                                (py ".png") (py "_corrected.png") in
                            match pil_save rt corrected_path img with
                            | None => (image_path, st)
                            | Some stored =>
                                (corrected_path,
                                 write_file corrected_path stored st)
                            end
                        end
                      else (image_path, st)
                  end
              end
          end
      end
  end.

(** [os.path.exists(corrected_path)] followed by [os.remove]. *)
Definition cleanup (corrected_path image_path : pystr) (st : state) : state :=
  if negb (pystr_eqb corrected_path image_path)
  then match files st !! corrected_path with
       | Some _ => remove_file corrected_path st
       | None => st
       end
  else st.

Definition detect_text_from_image (rt : runtime) (client : vision_client)
    (image_path : pystr) (st : state) : outcome (option pystr) * state :=
  let '(corrected_path, st) :=
    detect_rotation_and_correct_image rt client image_path st in
  match files st !! corrected_path with
  | None => (Returns None, st)
  | Some content =>
      match content with
      | [] => (Returns None, st)
      | _ :: _ =>
          match document_text_detection client content with
          | None => (Raises, st)
          | Some response =>
              match error_message response with
              | _ :: _ => (Returns None, st)
              | [] =>
                  let text :=
                    match text_annotations response with
                    | first :: _ => Some (description first)
                    | [] => None
                    end in
                  (Returns text, cleanup corrected_path image_path st)
              end
          end
      end
  end.

End ProcessLogic.

(** ** process.py: the stand-alone copy of the engine.  Its extraction
       function also reports on standard output which strategy fired;
       that output is returned next to the result. *)
Module Process.

Definition numeral_map : list (char * char) :=
  [(1632, 48); (1633, 49); (1634, 50); (1635, 51); (1636, 52);
   (1637, 53); (1638, 54); (1639, 55); (1640, 56); (1641, 57);
   (1776, 48); (1777, 49); (1778, 50); (1779, 51); (1780, 52);
   (1781, 53); (1782, 54); (1783, 55); (1784, 56); (1785, 57)]%N.

Definition translation_table : gmap char char := list_to_map numeral_map.

Definition translate_char (table : gmap char char) (c : char) : char :=
  match table !! c with
  | Some d => d
  | None => c
  end.

Definition normalize_digits (text : pystr) : pystr :=
  match text with
  | [] => []
  | _ => List.map (translate_char translation_table) text
  end.

(** The three messages; the first code points are the emoji of the
    source. *)
Definition msg_strategy_1 : pystr :=
  9989%N :: py " Strategy 1 Success: Found a contiguous 14-digit ID.".
Definition msg_strategy_2 : pystr :=
  9989%N :: py " Strategy 2 Success: Found two adjacent 7-digit groups.".
Definition msg_strategy_3 : pystr :=
  9888%N :: 65039%N :: py " Strategy 3 (Smarter Fallback) Success: Found embedded ID.".

(** Strategy 2 of this file. *)
Fixpoint adjacent_sevens (all_numbers : list pystr) : option pystr :=
  match all_numbers with
  | a :: ((b :: _) as rest) =>
      if (length a =? 7) && (length b =? 7) && startswith_2_or_3 (a ++ b)
      then Some (a ++ b)
      else adjacent_sevens rest
  | _ => None
  end.

(** Strategy 3 of this file. *)
Fixpoint embedded_id (all_numbers_original : list pystr) : option pystr :=
  match all_numbers_original with
  | [] => None
  | num_seq :: rest =>
      if 14 <? length num_seq
      then match re_search re_id num_seq with
           | Some m => Some m
           | None => embedded_id rest
           end
      else embedded_id rest
  end.

(** The lines printed, and the value returned. *)
Definition extract_national_id (text : pystr) : list pystr * option pystr :=
  match text with
  | [] => ([], None)
  | _ =>
      let processed_text := normalize_digits text in
      let cleaned_text := re_sub re_date [] processed_text in
      match re_search re_standalone_id cleaned_text with
      | Some m => ([msg_strategy_1], Some m)
      | None =>
          let all_numbers := re_findall re_digits cleaned_text in
          match adjacent_sevens all_numbers with
          | Some national_id => ([msg_strategy_2], Some national_id)
          | None =>
              let all_numbers_original := re_findall re_digits processed_text in
              match embedded_id all_numbers_original with
              | Some m => ([msg_strategy_3], Some m)
              | None => ([], None)
              end
          end
      end
  end.

(** [radians * 180 / np.pi], in floating point. *)
Definition degrees (radians : float) : float :=
  fdiv (fmul radians float_180) float_pi.

(** This copy has no test for empty content, computes the angle with
    numpy and renames [.jpg] only. *)
Definition detect_rotation_and_correct_image (rt : runtime)
    (client : vision_client) (image_path : pystr) (st : state)
    : pystr * state :=
  match files st !! image_path with
  | None => (image_path, st)
  | Some content =>
      let st := record_probe content st in
      match text_detection client content with
      | None => (image_path, st)
      | Some response =>
          match text_annotations response with
          | [] => (image_path, st)
          | first :: _ =>
              match bounding_poly first with
              | [] => (image_path, st)
              | [_] => (image_path, st)
              | v0 :: v1 :: _ =>
                  let dy := (vertex_y v1 - vertex_y v0)%Z in
                  let dx := (vertex_x v1 - vertex_x v0)%Z in
                  let angle := degrees (np_arctan2 rt dy dx) in
                  if exceeds_45 angle then
                    match pil_rotate rt content
                            (if is_positive angle then 270 else 90)%Z with
                    | None => (image_path, st)
                    | Some img =>
                        let corrected_path :=
                          replace image_path (py ".jpg") (py "_corrected.jpg") in
                        match pil_save rt corrected_path img with
                        | None => (image_path, st)
                        | Some stored =>
                            (corrected_path,
                             write_file corrected_path stored st)
                        end
                    end
                  else (image_path, st)
              end
          end
      end
  end.

Definition cleanup (corrected_path image_path : pystr) (st : state) : state :=
  if negb (pystr_eqb corrected_path image_path)
  then match files st !! corrected_path with
       | Some _ => remove_file corrected_path st
       | None => st
       end
  else st.

Definition detect_text_from_image (rt : runtime) (client : vision_client)
    (image_path : pystr) (st : state) : outcome (option pystr) * state :=
  let '(corrected_path, st) :=
    detect_rotation_and_correct_image rt client image_path st in
  match files st !! corrected_path with
  | None => (Returns None, st)
  | Some content =>
      match document_text_detection client content with
      | None => (Raises, st)
      | Some response =>
          match error_message response with
          | _ :: _ => (Returns None, st)
          | [] =>
              let text :=
                match text_annotations response with
                | first :: _ => Some (description first)
                | [] => None
                end in
              (Returns text, cleanup corrected_path image_path st)
          end
      end
  end.

End Process.

(** ** test2photos.py: the name heuristic *)
Module Test2Photos.

(** The printed title of the card, the anchor of the search. *)
Definition header_phrase : pystr :=
  [1576; 1591; 1575; 1602; 1577; 32; 1578; 1581; 1602; 1610; 1602; 32;
   1575; 1604; 1588; 1582; 1589; 1610; 1577]%N.

(** [next(i for i, line in enumerate(lines) if header in line)], with
    [None] for [StopIteration]. *)
Fixpoint find_header (i : nat) (lines : list pystr) : option nat :=
  match lines with
  | [] => None
  | line :: rest =>
      if contains line header_phrase then Some i else find_header (S i) rest
  end.

(** The class [[\u0600-\u06FF\s]] of the source. *)
Definition is_arabic_or_space (c : char) : bool :=
  ((1536 <=? c)%N && (c <=? 1791)%N) || is_space c.

(** The pattern [[\u0600-\u06FF\s]+]. *)
Definition re_arabic_line : regex := Plus (Cls is_arabic_or_space).

Definition is_valid_name (name_candidate : pystr) : bool :=
  (2 <=? length (split_ws name_candidate))
  && (length (split_ws name_candidate) <=? 4)
  && re_fullmatch re_arabic_line name_candidate
  && negb (existsb is_digit name_candidate).

(** The loop [for i in range(1, 3)], over the offsets still to visit. *)
Fixpoint first_valid_after (lines : list pystr) (header_index : nat)
    (offsets : list nat) : option pystr :=
  match offsets with
  | [] => None
  | i :: rest =>
      match nth_error lines (header_index + i) with
      | Some line =>
          let name_candidate := strip line in
          if is_valid_name name_candidate then Some name_candidate
          else first_valid_after lines header_index rest
      | None => first_valid_after lines header_index rest
      end
  end.

Definition extract_full_name (text : pystr) : option pystr :=
  match text with
  | [] => None
  | _ =>
      let lines := split_on 10%N text in
      match find_header 0 lines with
      | Some header_index => first_valid_after lines header_index [1; 2]
      | None => None
      end
  end.

(** The dictionary built by [str.maketrans] from the two strings of the
    source: the twenty glyphs, and the digits [01234567890123456789]. *)
Definition arabic_to_western_map : gmap char char :=
  list_to_map
    (zip [1632; 1633; 1634; 1635; 1636; 1637; 1638; 1639; 1640; 1641;
          1776; 1777; 1778; 1779; 1780; 1781; 1782; 1783; 1784; 1785]%N
         (py "01234567890123456789")).

(** [line.translate(arabic_to_western_map)] *)
Definition translate (table : gmap char char) (line : pystr) : pystr :=
  List.map (fun c => match table !! c with Some d => d | None => c end) line.

(** The loop [for line in text.split('\n')] of the line-by-line
    extractor of this file. *)
Fixpoint first_id_line (lines : list pystr) : option pystr :=
  match lines with
  | [] => None
  | line :: rest =>
      let normalized_line := translate arabic_to_western_map line in
      let digits_in_line := List.concat (re_findall re_digits normalized_line) in
      if (length digits_in_line =? 14) && startswith_2_or_3 digits_in_line
      then Some digits_in_line
      else first_id_line rest
  end.

Definition extract_national_id (text : pystr) : option pystr :=
  match text with
  | [] => None
  | _ => first_id_line (split_on 10%N text)
  end.

End Test2Photos.

(** ** app.py: the batch route *)
Module App.

(** A cell of the [back link] column: a string, or any other value (an
    empty cell is read as a float). *)
Inductive cell : Type :=
| CellStr (s : pystr)
| CellOther.

(** A row of the sheet: [str(row['id'])], [str(row['nationality_id'])]
    and [row['back link']]. *)
Record excel_row : Type := {
  row_id : pystr;
  row_nationality_id : pystr;
  row_back_link : cell
}.

(** What [pd.read_excel] finds. *)
Inductive excel_file : Type :=
| ExcelMissing                          (* no file at the path *)
| ExcelUnreadable                       (* reading raises *)
| ExcelWithoutColumns                   (* a required column is absent *)
| ExcelTable (rows : list excel_row).

(** The exception that stops the copy of the body into the open file:
    a [RequestException] raised by [iter_content], or an [IOError]
    raised by [f.write]. *)
Inductive stream_failure : Type :=
| RequestFailure (e : pystr)
| WriteFailure (e : pystr).

(** What [requests.get], [raise_for_status] and the copy of the body
    yield: a [RequestException] raised before any header is read, with
    its text; or the lower-cased content type together with the whole
    body, or with the bytes copied before the exception that stopped the
    transfer. *)
Inductive http_result : Type :=
| HttpError (e : pystr)
| HttpOk (content_type : pystr) (body : bytes)
| HttpBroken (content_type : pystr) (copied : bytes) (failure : stream_failure).

(** The surroundings of the route.  [save_error path] is the text of the
    [IOError] raised by [open(path, 'wb')] when [path] cannot be opened
    for writing, in which case no file is created;
    [vision] is what [setup_vision_client] returns. *)
Record site : Type := {
  excel : excel_file;
  vision : option vision_client;
  http_get : pystr -> http_result;
  save_error : pystr -> option pystr;
  path_sep : char;
  rt : runtime
}.

Definition DOWNLOAD_FOLDER : pystr := py "static/downloaded_images".

(** [url.lower() == 'null']: the only characters that lower-case to
    [n], [u] and [l] are these letters and their capitals. *)
Definition lower_is_null (url : pystr) : bool :=
  match url with
  | [a; b; c; d] =>
      (char_eqb a 78 || char_eqb a 110)%N && (char_eqb b 85 || char_eqb b 117)%N
      && (char_eqb c 76 || char_eqb c 108)%N && (char_eqb d 76 || char_eqb d 108)%N
  | _ => false
  end.

Definition is_empty (s : pystr) : bool :=
  match s with [] => true | _ => false end.

Definition download_image (w : site) (url : cell) (output_path : pystr)
    (st : state) : (bool * pystr) * state :=
  match url with
  | CellOther => ((false, py "Invalid or empty URL"), st)
  | CellStr url =>
      if is_empty (strip url) || lower_is_null url
      then ((false, py "Invalid or empty URL"), st)
      else
        match http_get w url with
        | HttpError e => ((false, py "Download error: " ++ e), st)
        | HttpOk content_type body =>
            if negb (startswith content_type (py "image/"))
            then ((false, py "URL is not an image (Content-Type: "
                            ++ content_type ++ py ")"), st)
            else
              match save_error w output_path with
              | Some e => ((false, py "File save error: " ++ e), st)
              | None => ((true, py "Success"), write_file output_path body st)
              end
        | HttpBroken content_type copied failure =>
            if negb (startswith content_type (py "image/"))
            then ((false, py "URL is not an image (Content-Type: "
                            ++ content_type ++ py ")"), st)
            else
              match save_error w output_path with
              | Some e => ((false, py "File save error: " ++ e), st)
              | None =>
                  ((false,
                    match failure with
                    | RequestFailure e => py "Download error: " ++ e
                    | WriteFailure e => py "File save error: " ++ e
                    end),
                   write_file output_path copied st)
              end
        end
  end.

(** An entry of [results]. *)
Record verification : Type := {
  excel_row_id : pystr;
  excel_nationality_id : pystr;
  extracted_id : option pystr;
  is_match : bool;
  image_path : option pystr
}.

(** [str(n)] for a natural number. *)
Definition str_of_nat (n : nat) : pystr :=
  py (NilZero.string_of_uint (Nat.to_uint n)).

(** [extracted_id == excel_nationality_id] *)
Definition same_id (extracted : option pystr) (expected : pystr) : bool :=
  match extracted with
  | Some s => pystr_eqb s expected
  | None => false
  end.

(** The body of the loop over [df.iterrows()], for the row at position
    [index]. *)
Definition process_row (w : site) (client : vision_client) (index : nat)
    (row : excel_row) (st : state) : outcome verification * state :=
  let local_filename := py "row_" ++ str_of_nat (index + 2) ++ py ".jpg" in
  let local_filepath := DOWNLOAD_FOLDER ++ [path_sep w] ++ local_filename in
  let '((success, message), st) :=
    download_image w (row_back_link row) local_filepath st in
  if success then
    match ProcessLogic.detect_text_from_image (rt w) client local_filepath st with
    | (Raises, st) => (Raises, st)
    | (Returns original_text, st) =>
        let extracted :=
          match original_text with
          | Some (c :: t) => ProcessLogic.extract_national_id (c :: t)
          | _ => Some (py "Extraction Failed")
          end in
        (Returns {| excel_row_id := row_id row;
                    excel_nationality_id := row_nationality_id row;
                    extracted_id := extracted;
                    is_match := same_id extracted (row_nationality_id row);
                    image_path := Some local_filename |}, st)
    end
  else
    (Returns {| excel_row_id := row_id row;
                excel_nationality_id := row_nationality_id row;
                extracted_id := Some (py "Download Failed: " ++ message);
                is_match := false;
                image_path := None |}, st).

(** The loop: [results] grows by one entry per row, in order; an
    exception that escapes the body ends the request. *)
Fixpoint process_rows (w : site) (client : vision_client) (index : nat)
    (rows : list excel_row) (st : state)
    : outcome (list verification) * state :=
  match rows with
  | [] => (Returns [], st)
  | row :: rest =>
      match process_row w client index row st with
      | (Raises, st) => (Raises, st)
      | (Returns v, st) =>
          match process_rows w client (S index) rest st with
          | (Raises, st) => (Raises, st)
          | (Returns vs, st) => (Returns (v :: vs), st)
          end
      end
  end.

(** The route: the [results] handed to the template, [None] when an
    error page is rendered instead. *)
Definition process_from_excel_links (w : site) (st : state)
    : outcome (option (list verification)) * state :=
  match excel w with
  | ExcelMissing | ExcelUnreadable | ExcelWithoutColumns => (Returns None, st)
  | ExcelTable df_full =>
      let df := firstn 10 df_full in
      match vision w with
      | None => (Returns None, st)
      | Some vision_client =>
          match process_rows w vision_client 0 df st with
          | (Raises, st) => (Raises, st)
          | (Returns results, st) => (Returns (Some results), st)
          end
      end
  end.

End App.

(** * Vocabulary of the properties *)

(** ** Positions in a string *)

(** The character before the cursor once [consumed] has been read. *)
Definition after (prev : option char) (consumed : pystr) : option char :=
  fold_left (fun _ c => Some c) consumed prev.

(** The character before position [i] of [s], where [prev] precedes [s]. *)
Definition char_before (prev : option char) (s : pystr) (i : nat) : option char :=
  match i with
  | O => prev
  | S j => s !! j
  end.

(** The number of leading characters of [s] that satisfy [p]. *)
Fixpoint leading (p : char -> bool) (s : pystr) : nat :=
  match s with
  | [] => 0
  | c :: s' => if p c then S (leading p s') else 0
  end.

(** ** Identity numbers *)

(** A 2 or a 3 followed by thirteen decimal digits, at the cursor. *)
Definition id_here (s : pystr) : bool :=
  match s with
  | [] => false
  | c :: s' =>
      is_2_or_3 c && (13 <=? length s') && forallb is_decimal (take 13 s')
  end.

(** No character, or one that [blocked] rejects. *)
Definition clear_of (blocked : char -> bool) (o : option char) : bool :=
  match o with
  | None => true
  | Some c => negb (blocked c)
  end.

(** An identity number at position [i] of [s] whose two neighbours, if
    any, are not [blocked]. *)
Definition standalone_at (blocked : char -> bool) (s : pystr) (i : nat) : bool :=
  id_here (drop i s)
  && clear_of blocked (char_before None s i)
  && clear_of blocked (s !! (i + 14)).

(** ** The digit normalizer *)

Definition is_arabic_indic (c : char) : bool := (1632 <=? c)%N && (c <=? 1641)%N.
Definition is_extended_arabic_indic (c : char) : bool :=
  (1776 <=? c)%N && (c <=? 1785)%N.

(** The glyph-to-digit map as the specification words it: each glyph of
    the two numeral systems goes to the Western digit of the same value,
    anything else stays. *)
Definition western_of (c : char) : char :=
  if is_arabic_indic c then (c - 1632 + 48)%N
  else if is_extended_arabic_indic c then (c - 1776 + 48)%N
  else c.

(** A character that is not a decimal digit, or is one of the three
    numeral systems the normalizer knows. *)
Definition known_numeral (c : char) : bool :=
  implb (is_decimal c)
        (is_western c || is_arabic_indic c || is_extended_arabic_indic c).

(** The head of [m] is the Western digit 2 or 3. *)
Definition starts_2_or_3 (m : pystr) : bool :=
  match m with
  | c :: _ => is_2_or_3 c
  | [] => false
  end.

(** An input on which the three strategies find an identity number made
    of digits of another script: a Western 2 and thirteen Devanagari
    ones. *)
Definition devanagari_id : pystr := 50%N :: repeat 2407%N 13.

(** What a strategy may return: fourteen decimal digits, the first one a
    Western 2 or 3, all of them characters of the text searched. *)
Definition id_from (s m : pystr) : Prop :=
  length m = 14 /\ starts_2_or_3 m = true /\ forallb is_decimal m = true
  /\ forall c, In c m -> In c s.

(** The running example of the specification, and an identity number
    glued to a letter. *)
Definition issued_text : pystr := py "Issued 2019/05/12 ID 29901011234567".
Definition issued_id : pystr := py "29901011234567".
Definition letter_bounded_text : pystr := py "x29901011234567".

(** ** Worlds used as concrete inputs *)

Definition no_files : state := {| files := ∅; probes := [] |}.

(** A picture the imaging library decodes: one white pixel, in PNG
    encoding (the library recognises the encoding from the content, not
    from the name of the file). *)
Definition card_image : bytes :=
  [x89; x50; x4e; x47; x0d; x0a; x1a; x0a;
   x00; x00; x00; x0d; x49; x48; x44; x52; x00; x00; x00; x01; x00; x00;
   x00; x01; x08; x02; x00; x00; x00; x90; x77; x53; xde;
   x00; x00; x00; x0c; x49; x44; x41; x54; x78; xda; x63; xf8; xff; xff;
   x3f; x00; x05; xfe; x02; xfe; x33; x12; x95; x14;
   x00; x00; x00; x00; x49; x45; x4e; x44; xae; x42; x60; x82].

Definition is_card_image (content : bytes) : bool :=
  (length content =? length card_image)
  && forallb (fun '(x, y) => Byte.eqb x y) (combine content card_image).

(** A photograph [card.jpg] lying on its side: the probe reports a first
    text region whose top edge runs from (0, 0) to (0, 10), for which
    [atan2] is a quarter turn; the full OCR call then reports a service
    error. *)
Definition card_path : pystr := py "card.jpg".
Definition card_corrected_path : pystr := py "card_corrected.jpg".

Definition card_on_disk : state :=
  {| files := {[ card_path := card_image ]}; probes := [] |}.

Definition sideways_region : annotation :=
  {| description := py "ID";
     bounding_poly := [ {| vertex_x := 0; vertex_y := 0 |};
                        {| vertex_x := 0; vertex_y := 10 |} ] |}.

Definition failing_ocr : vision_client :=
  {| text_detection := fun _ =>
       Some {| error_message := []; text_annotations := [sideways_region] |};
     document_text_detection := fun _ =>
       Some {| error_message := py "quota exceeded"; text_annotations := [] |} |}.

(** The floats nearest to pi/2 and pi/4: the values of [atan2(d, 0)] and
    of [atan2(d, d)] for a positive [d]. *)
Definition half_pi : float := binary64 0x1921fb54442d18 (-52).
Definition quarter_pi : float := binary64 0x1921fb54442d18 (-53).

(** An imaging library that decodes [card_image] only, keeps the
    picture as it is and stores it under any name; [atan2] is given on
    the upward vertical and is zero elsewhere. *)
Definition quarter_turn : runtime :=
  {| pil_rotate := fun content _ =>
       if is_card_image content then Some content else None;
     pil_save := fun _ img => Some img;
     math_atan2 := fun dy dx =>
       if ((dx =? 0) && (0 <? dy))%Z then half_pi else float_0;
     np_arctan2 := fun dy dx =>
       if ((dx =? 0) && (0 <? dy))%Z then half_pi else float_0 |}.

(** ** The batch *)

(** Where the image of the row at position [i] is stored. *)
Definition local_filename (i : nat) : pystr :=
  py "row_" ++ App.str_of_nat (i + 2) ++ py ".jpg".

Definition local_filepath (w : App.site) (i : nat) : pystr :=
  App.DOWNLOAD_FOLDER ++ [App.path_sep w] ++ local_filename i.

(** The verdict of [download_image] for the row at position [i]; it does
    not depend on the files present. *)
Definition acquisition (w : App.site) (i : nat) (row : App.excel_row)
    : bool * pystr :=
  fst (App.download_image w (App.row_back_link row) (local_filepath w i) no_files).

(** A sheet of eleven rows without links, and a site that serves it. *)
Definition blank_row : App.excel_row :=
  {| App.row_id := py "7";
     App.row_nationality_id := issued_id;
     App.row_back_link := App.CellOther |}.

Definition eleven_rows : list App.excel_row := repeat blank_row 11.

Definition eleven_rows_site : App.site :=
  {| App.excel := App.ExcelTable eleven_rows;
     App.vision := Some failing_ocr;
     App.http_get := fun _ => App.HttpError (py "unreachable");
     App.save_error := fun _ => None;
     App.path_sep := 47%N;
     App.rt := quarter_turn |}.

(** An OCR client whose full-text call does not raise. *)
Definition answers (client : vision_client) : Prop :=
  forall content, document_text_detection client content <> None.

(** ** Digit runs *)

(** [run] is a maximal run of decimal digits of [pre ++ run ++ post]:
    it is not empty, all its characters are decimal digits, and neither
    the character before it nor the one after it is one. *)
Definition maximal_digit_run (pre run post : pystr) : Prop :=
  run <> []
  /\ forallb is_decimal run = true
  /\ clear_of is_decimal (after None pre) = true
  /\ clear_of is_decimal (head post) = true.

(** An identity number starts at position [i] of [run] and at no earlier
    position. *)
Definition first_id_at (run : pystr) (i : nat) : Prop :=
  id_here (drop i run) = true
  /\ forall j, j < i -> id_here (drop j run) = false.

(** A date fused onto a sixteen-digit run. *)
Definition long_run_text : pystr := py "a 1234567890123456 b".
Definition long_run_id : pystr := py "23456789012345".

(** ** Names *)

(** The Arabic block of Unicode: U+0600 up to, and not including,
    U+0700. *)
Definition in_arabic_block (c : char) : bool :=
  (1536 <=? c)%N && (c <? 1792)%N.

(** A candidate the specification accepts: two to four
    whitespace-separated tokens, only characters of the Arabic block or
    whitespace, and no digit. *)
Definition acceptable_name (candidate : pystr) : bool :=
  (2 <=? length (split_ws candidate))
  && (length (split_ws candidate) <=? 4)
  && forallb (fun c => in_arabic_block c || is_space c) candidate
  && negb (existsb is_digit candidate).

Definition lacks_header (line : pystr) : bool :=
  negb (contains line Test2Photos.header_phrase).

(** A two-word name, the card title followed by it, and the same with an
    Arabic-Indic digit appended to the name. *)
Definition sample_name : pystr :=
  [1605; 1581; 1605; 1583; 32; 1593; 1604; 1610]%N.

Definition card_text : pystr :=
  Test2Photos.header_phrase ++ [10%N] ++ sample_name.

Definition card_text_with_digit : pystr :=
  Test2Photos.header_phrase ++ [10%N] ++ sample_name ++ [32; 1633]%N.

(** The card title followed by a name in Latin letters. *)
Definition latin_card_text : pystr :=
  Test2Photos.header_phrase ++ [10%N] ++ py "John Smith".

(** ** Date tokens *)

(** One or two decimal digits at the cursor, and no third one. *)
Definition field_len (t : pystr) : option nat :=
  match t with
  | a :: t1 =>
      if is_decimal a then
        match t1 with
        | b :: t2 =>
            if is_decimal b then
              match t2 with
              | c :: _ => if is_decimal c then None else Some 2
              | [] => Some 2
              end
            else Some 1
        | [] => Some 1
        end
      else None
  | [] => None
  end.

(** A slash and a field at the cursor, followed by no word character:
    the length of the field. *)
Definition day_len (t : pystr) : option nat :=
  match t with
  | sl :: u =>
      if char_eqb sl 47%N then
        match field_len u with
        | Some r2 =>
            if clear_of is_word (head (drop r2 u)) then Some r2 else None
        | None => None
        end
      else None
  | [] => None
  end.

(** The length of the longest date token that starts at the cursor. *)
Definition date_len (prev : option char) (s : pystr) : option nat :=
  match s with
  | y1 :: y2 :: y3 :: y4 :: sl :: t =>
      if at_boundary prev s && is_decimal y1 && is_decimal y2 && is_decimal y3
         && is_decimal y4 && char_eqb sl 47%N
      then
        match field_len t with
        | Some r1 =>
            match day_len (drop r1 t) with
            | Some r2 => Some (6 + r1 + r2)
            | None =>
                if clear_of is_word (head (drop r1 t)) then Some (5 + r1)
                else None
            end
        | None => None
        end
      else None
  | _ => None
  end.

(** A continuation that fails whenever the cursor stands between a word
    character and a decimal digit. *)
Definition fails_before_digit (k : cont) : Prop :=
  forall p c s,
    word_opt p = true -> is_decimal c = true -> k p (c :: s) = None.

(** The month, or the month, a slash and the day, each of one or two
    decimal digits: the six ways to spell them. *)
Definition month_day (rest : pystr) : bool :=
  match rest with
  | [m1] => is_decimal m1
  | [m1; m2] => is_decimal m1 && is_decimal m2
  | [m1; sl; d1] => is_decimal m1 && char_eqb sl 47%N && is_decimal d1
  | [m1; a; b; d2] =>
      is_decimal m1 && is_decimal d2
      && ((char_eqb a 47%N && is_decimal b) || (is_decimal a && char_eqb b 47%N))
  | [m1; m2; sl; d1; d2] =>
      is_decimal m1 && is_decimal m2 && char_eqb sl 47%N && is_decimal d1
      && is_decimal d2
  | _ => false
  end.

(** A text of the form YYYY/MM or YYYY/MM/DD: four decimal digits, a
    slash, one or two digits, and optionally a slash and one or two
    digits. *)
Definition date_text (t : pystr) : bool :=
  match t with
  | y1 :: y2 :: y3 :: y4 :: sl :: rest =>
      is_decimal y1 && is_decimal y2 && is_decimal y3 && is_decimal y4
      && char_eqb sl 47%N && month_day rest
  | _ => false
  end.

(** The [n] characters at the cursor are a date text with a word
    boundary before and after. *)
Definition token_here (prev : option char) (s : pystr) (n : nat) : bool :=
  (n <=? length s) && date_text (take n s) && at_boundary prev s
  && at_boundary (after prev (take n s)) (drop n s).

(** The [n] characters from position [p] of [s] are a whole-token date. *)
Definition date_token_at (s : pystr) (p n : nat) : bool :=
  token_here (char_before None s p) (drop p s) n.

(** Position [i] of [s] lies inside a whole-token date. *)
Definition in_date_token (s : pystr) (i : nat) : bool :=
  existsb (fun p =>
    existsb (fun n => date_token_at s p n && (i <? p + n)) (seq 6 5))
    (seq 0 (S i)).

(** The characters of [s], numbered from [i], at the positions [keep]
    accepts. *)
Fixpoint keep_from (keep : nat -> bool) (i : nat) (s : pystr) : pystr :=
  match s with
  | [] => []
  | c :: s' =>
      if keep i then c :: keep_from keep (S i) s'
      else keep_from keep (S i) s'
  end.

(** The optional day and the closing boundary, after the month. *)
Definition re_date_tail : regex :=
  Seq (Opt (Seq (Chr 47%N) (Rep (Cls is_decimal) 1 2))) Bnd.

(** The longest date token that starts at position [p] of [s]. *)
Definition date_len_at (s : pystr) (p : nat) : option nat :=
  date_len (char_before None s p) (drop p s).

(** What the scan knows at position [p] with [k] characters of the
    current token still to drop: every token that starts earlier ends by
    [p + k], and when [k] is positive one of them ends exactly there. *)
Definition scan_inv (s : pystr) (p k : nat) : Prop :=
  (forall a n, a < p -> date_token_at s a n = true -> a + n <= p + k)
  /\ (0 < k ->
      exists a n, a < p /\ date_token_at s a n = true /\ a + n = p + k).

(** ** Further vocabulary *)

(** The name [process_logic.py] gives to the rotated copy of [p], and
    the name [process.py] gives to it. *)
Definition corrected_of (p : pystr) : pystr :=
  replace (replace p (py ".jpg") (py "_corrected.jpg"))
          (py ".png") (py "_corrected.png").

Definition corrected_jpg_of (p : pystr) : pystr :=
  replace p (py ".jpg") (py "_corrected.jpg").

(** The decimal digits of a line once its numerals are normalized. *)
Definition line_digits (line : pystr) : pystr :=
  List.filter is_decimal (List.map western_of line).

(** A line whose digits are fourteen and start with 2 or 3. *)
Definition id_line (line : pystr) : bool :=
  (length (line_digits line) =? 14) && starts_2_or_3 (line_digits line).

Definition not_decimal (c : char) : bool := negb (is_decimal c).

(** [x] is a normal binary64 number with exponent at most [0], and no
    other such number is nearer to the fraction [num / den]. *)
Definition nearest_float (num den : Z) (x : float) : bool :=
  match x with
  | S754_finite false m e =>
      (e <=? 0)%Z && (2 ^ 52 <=? Z.pos m)%Z && (Z.pos m <? 2 ^ 53)%Z
      && (Z.abs (2 * Z.pos m * den - num * 2 ^ (1 - e)) <=? den)%Z
  | _ => false
  end.

(** The angle each copy computes from the first two vertices. *)
Definition logic_angle (rt : runtime) (dy dx : Z) : float :=
  ProcessLogic.degrees (math_atan2 rt dy dx).

Definition numpy_angle (rt : runtime) (dy dx : Z) : float :=
  Process.degrees (np_arctan2 rt dy dx).

(** The probe found a first text region for whose first two vertices
    [angle] is beyond 45 in absolute value, and the imaging library
    decoded the content and produced the rotated picture [img]. *)
Definition rotates (angle : Z -> Z -> float) (rt : runtime)
    (client : vision_client) (content img : bytes) : Prop :=
  exists response first v0 v1 vs more,
    text_detection client content = Some response
    /\ text_annotations response = first :: more
    /\ bounding_poly first = v0 :: v1 :: vs
    /\ exceeds_45 (angle (vertex_y v1 - vertex_y v0)%Z
                         (vertex_x v1 - vertex_x v0)%Z) = true
    /\ pil_rotate rt content
         (if is_positive (angle (vertex_y v1 - vertex_y v0)%Z
                                (vertex_x v1 - vertex_x v0)%Z)
          then 270 else 90)%Z = Some img.

(** The full OCR call answers [content] with a service error. *)
Definition service_error (client : vision_client) (content : bytes) : Prop :=
  exists response,
    document_text_detection client content = Some response
    /\ error_message response <> [].

(** An identity number written in Eastern Arabic-Indic digits. *)
Definition arabic_indic_id : pystr :=
  [1634; 1641; 1641; 1632; 1633; 1632; 1633; 1633; 1634; 1635; 1636; 1637;
   1638; 1639]%N.

(** An identity number printed as two groups of seven digits. *)
Definition split_id_text : pystr := py "No 2990101 1234567 .".

(** An OCR client that reads the running example off every image and
    whose probe finds no text region. *)
Definition reading_ocr : vision_client :=
  {| text_detection := fun _ =>
       Some {| error_message := []; text_annotations := [] |};
     document_text_detection := fun _ =>
       Some {| error_message := [];
               text_annotations :=
                 [ {| description := issued_text; bounding_poly := [] |} ] |} |}.

(** The same reader behind a probe that sees sideways text. *)
Definition sideways_reading_ocr : vision_client :=
  {| text_detection := text_detection failing_ocr;
     document_text_detection := document_text_detection reading_ocr |}.

(** An OCR client whose calls raise. *)
Definition unreachable_ocr : vision_client :=
  {| text_detection := fun _ => None;
     document_text_detection := fun _ => None |}.

(** A sheet of one record whose link serves the picture. *)
Definition linked_row : App.excel_row :=
  {| App.row_id := py "7";
     App.row_nationality_id := issued_id;
     App.row_back_link := App.CellStr (py "http://example.org/card") |}.

Definition serving_site (client : vision_client) : App.site :=
  {| App.excel := App.ExcelTable [linked_row];
     App.vision := Some client;
     App.http_get := fun _ => App.HttpOk (py "image/jpeg") card_image;
     App.save_error := fun _ => None;
     App.path_sep := 47%N;
     App.rt := quarter_turn |}.

(** Two photographs whose names the renaming does not change. *)
Definition jpeg_path : pystr := py "card.jpeg".
Definition png_path : pystr := py "card.png".

Definition jpeg_on_disk : state :=
  {| files := {[ jpeg_path := card_image ]}; probes := [] |}.

Definition png_on_disk : state :=
  {| files := {[ png_path := card_image ]}; probes := [] |}.


(** What [detect_text_from_image] of process_logic.py does after the
    corrector has returned [cp] in state [st1]. *)
Definition read_and_detect (client : vision_client) (cp p : pystr)
    (st1 : state) : outcome (option pystr) * state :=
  match files st1 !! cp with
  | None => (Returns None, st1)
  | Some [] => (Returns None, st1)
  | Some (b :: content) =>
      match document_text_detection client (b :: content) with
      | None => (Raises, st1)
      | Some response =>
          match error_message response with
          | _ :: _ => (Returns None, st1)
          | [] =>
              (Returns match text_annotations response with
                       | first :: _ => Some (description first)
                       | [] => None
                       end,
               ProcessLogic.cleanup cp p st1)
          end
      end
  end.

(** An imaging library whose rotation marks the picture it returns. *)
Definition marking_turn : runtime :=
  {| pil_rotate := fun content _ =>
       if is_card_image content then Some (x52 :: content) else None;
     pil_save := pil_save quarter_turn;
     math_atan2 := math_atan2 quarter_turn;
     np_arctan2 := np_arctan2 quarter_turn |}.

(** The entry reported for [linked_row] when its card is read. *)
Definition matched_record : App.verification :=
  {| App.excel_row_id := py "7";
     App.excel_nationality_id := issued_id;
     App.extracted_id := Some issued_id;
     App.is_match := true;
     App.image_path := Some (local_filename 0) |}.

(** What the route makes of the text read off an image agrees with
    the cell [expected]: the text is not empty and the identity number
    extracted from it is [expected], or there is no text and [expected]
    reads as the marker the route puts in its place. *)
Definition read_as (original : option pystr) (expected : pystr) : Prop :=
  match original with
  | Some (c :: t) => ProcessLogic.extract_national_id (c :: t) = Some expected
  | _ => expected = py "Extraction Failed"
  end.

(** An OCR service none of whose calls returns. *)
Definition unreachable (client : vision_client) : Prop :=
  forall content,
    text_detection client content = None
    /\ document_text_detection client content = None.

(** The link of [row] is fetched and stored as the image of position
    [i], and the image is not empty. *)
Definition serves_card (w : App.site) (i : nat) (row : App.excel_row) : Prop :=
  exists u content_type b body,
    App.row_back_link row = App.CellStr u
    /\ strip u <> [] /\ App.lower_is_null u = false
    /\ App.http_get w u = App.HttpOk content_type (b :: body)
    /\ startswith content_type (py "image/") = true
    /\ App.save_error w (local_filepath w i) = None.


(** * Verification *)

(** ** The digit normalizer *)

Lemma translation_table_lookup (c : char) :
  ProcessLogic.translation_table !! c =
  if is_arabic_indic c || is_extended_arabic_indic c
  then Some (western_of c) else None.
Proof.
  unfold ProcessLogic.translation_table, ProcessLogic.numeral_map.
  cbn [list_to_map foldr uncurry fst snd].
  repeat (rewrite lookup_insert; destruct (decide _) as [<- | ?]; [reflexivity |]).
  rewrite lookup_empty.
  unfold is_arabic_indic, is_extended_arabic_indic in *.
  destruct (N.leb_spec 1632 c), (N.leb_spec c 1641),
    (N.leb_spec 1776 c), (N.leb_spec c 1785); cbn; try reflexivity;
    exfalso; lia.
Qed.

Lemma translate_char_western (c : char) :
  ProcessLogic.translate_char ProcessLogic.translation_table c = western_of c.
Proof.
  unfold ProcessLogic.translate_char. rewrite translation_table_lookup.
  unfold western_of.
  destruct (is_arabic_indic c), (is_extended_arabic_indic c); reflexivity.
Qed.

Lemma normalize_digits_map (s : pystr) :
  ProcessLogic.normalize_digits s = List.map western_of s.
Proof.
  destruct s as [| c s]; [reflexivity |].
  unfold ProcessLogic.normalize_digits.
  apply List.map_ext. intros a. apply translate_char_western.
Qed.

Lemma western_of_mapped (c : char) :
  is_arabic_indic c || is_extended_arabic_indic c = true ->
  is_western (western_of c) = true.
Proof.
  unfold western_of, is_western, is_arabic_indic, is_extended_arabic_indic.
  destruct (N.leb_spec 1632 c), (N.leb_spec c 1641); cbn [andb orb];
    destruct (N.leb_spec 1776 c), (N.leb_spec c 1785); cbn [andb orb];
    intros; try discriminate;
    apply andb_true_intro; split; apply N.leb_le; lia.
Qed.

Lemma western_of_western (c : char) :
  is_western c = true -> western_of c = c.
Proof.
  unfold western_of, is_western, is_arabic_indic, is_extended_arabic_indic.
  intros [H1 H2]%andb_prop. apply N.leb_le in H1, H2.
  destruct (N.leb_spec 1632 c); [exfalso; lia |].
  destruct (N.leb_spec 1776 c); [exfalso; lia |]. reflexivity.
Qed.

Lemma western_of_unmapped (c : char) :
  is_arabic_indic c || is_extended_arabic_indic c = false -> western_of c = c.
Proof.
  intros [H1 H2]%orb_false_elim. unfold western_of. rewrite H1, H2. reflexivity.
Qed.

Lemma western_of_fixed (c : char) : western_of (western_of c) = western_of c.
Proof.
  destruct (is_arabic_indic c || is_extended_arabic_indic c) eqn:E.
  - apply western_of_western, western_of_mapped, E.
  - rewrite !(western_of_unmapped c E). reflexivity.
Qed.

(** C7.  [normalize_digits] is a total function that maps the empty
    string to the empty string, rewrites each glyph of the two mapped
    numeral systems to the Western digit of the same value, leaves
    every other character where it is, and is idempotent. *)
Theorem normalize_digits_idempotent :
  (forall s : pystr,
      ProcessLogic.normalize_digits (ProcessLogic.normalize_digits s)
      = ProcessLogic.normalize_digits s)
  /\ (forall s : pystr, ProcessLogic.normalize_digits s = List.map western_of s)
  /\ (forall c : char,
        is_arabic_indic c || is_extended_arabic_indic c = false
        \/ is_western (western_of c) = true)
  /\ (forall c : char,
        is_arabic_indic c || is_extended_arabic_indic c = true
        \/ western_of c = c)
  /\ ProcessLogic.normalize_digits [] = [].
Proof.
  repeat split.
  - intros s. rewrite !normalize_digits_map, List.map_map.
    apply List.map_ext. intros c. apply western_of_fixed.
  - apply normalize_digits_map.
  - intros c.
    destruct (is_arabic_indic c || is_extended_arabic_indic c) eqn:E;
      [right; apply western_of_mapped; exact E | left; reflexivity].
  - intros c. unfold western_of.
    destruct (is_arabic_indic c), (is_extended_arabic_indic c); cbn;
      (left; reflexivity) || (right; reflexivity).
Qed.

(** ** Character classes *)

Lemma is_decimal_word (c : char) : is_decimal c = true -> is_word c = true.
Proof.
  intros H. unfold is_word, is_alnum. rewrite H.
  rewrite orb_true_r. reflexivity.
Qed.

Lemma is_western_decimal (c : char) : is_western c = true -> is_decimal c = true.
Proof.
  intros H. unfold is_decimal, in_ranges, decimal_ranges.
  cbn [existsb fst snd]. unfold is_western in H. rewrite H. reflexivity.
Qed.

Lemma is_2_or_3_cases (c : char) : is_2_or_3 c = true -> c = 50%N \/ c = 51%N.
Proof.
  unfold is_2_or_3, char_eqb. intros [H | H]%orb_prop; apply N.eqb_eq in H; auto.
Qed.

Lemma is_2_or_3_western (c : char) : is_2_or_3 c = true -> is_western c = true.
Proof. intros [-> | ->]%is_2_or_3_cases; reflexivity. Qed.

Lemma is_2_or_3_word (c : char) : is_2_or_3 c = true -> is_word c = true.
Proof.
  intros H. apply is_decimal_word, is_western_decimal, is_2_or_3_western, H.
Qed.

(** ** The matcher on the patterns of the program *)

Lemma after_cons (prev : option char) (c : char) (l : pystr) :
  after prev (c :: l) = after (Some c) l.
Proof. reflexivity. Qed.

Lemma after_snoc (prev : option char) (l : pystr) (c : char) :
  after prev (l ++ [c]) = Some c.
Proof. unfold after. rewrite fold_left_app. reflexivity. Qed.

(** [p{n}] on a class: the next [n] characters, all in the class. *)
Lemma rep_cls_exact (p : char -> bool) (n : nat) (prev : option char)
    (s : pystr) (k : cont) :
  rep (mt (Cls p)) n n prev s k =
  if (n <=? length s) && forallb p (take n s)
  then k (after prev (take n s)) (drop n s)
  else None.
Proof.
  revert prev s. induction n as [| n IH]; intros prev s.
  - cbn. reflexivity.
  - cbn [rep Nat.pred]. destruct s as [| x s]; [reflexivity |].
    cbn [mt]. destruct (p x) eqn:Hx.
    + rewrite IH. cbn [length take drop firstn skipn forallb].
      rewrite Hx. cbn [andb].
      change (S n <=? S (length s)) with (n <=? length s).
      destruct ((n <=? length s) && forallb p (take n s)); [| reflexivity].
      rewrite after_cons. destruct (k _ _); reflexivity.
    + cbn [length take firstn forallb]. rewrite Hx.
      rewrite andb_false_r. reflexivity.
Qed.

(** The equations of the matcher, one per construct. *)
Lemma mt_chr c prev s k :
  mt (Chr c) prev s k =
  match s with
  | x :: s' => if char_eqb x c then k (Some x) s' else None
  | [] => None
  end.
Proof. reflexivity. Qed.

Lemma mt_cls p prev s k :
  mt (Cls p) prev s k =
  match s with
  | x :: s' => if p x then k (Some x) s' else None
  | [] => None
  end.
Proof. reflexivity. Qed.

Lemma mt_bnd prev s k :
  mt Bnd prev s k = if at_boundary prev s then k prev s else None.
Proof. reflexivity. Qed.

Lemma mt_seq r1 r2 prev s k :
  mt (Seq r1 r2) prev s k = mt r1 prev s (fun p' s' => mt r2 p' s' k).
Proof. reflexivity. Qed.

Lemma mt_opt r prev s k :
  mt (Opt r) prev s k =
  match mt r prev s k with
  | Some out => Some out
  | None => k prev s
  end.
Proof. reflexivity. Qed.

Lemma mt_rep r lo hi prev s k :
  mt (Rep r lo hi) prev s k = rep (mt r) lo hi prev s k.
Proof. reflexivity. Qed.

Lemma mt_plus r prev s k :
  mt (Plus r) prev s k = plus (mt r) (S (length s)) prev s k.
Proof. reflexivity. Qed.

Lemma mt_re_id (prev : option char) (s : pystr) (k : cont) :
  mt re_id prev s k =
  if id_here s then k (after prev (take 14 s)) (drop 14 s) else None.
Proof.
  unfold re_id. rewrite mt_seq, mt_cls. destruct s as [| c s]; [reflexivity |].
  cbn [id_here]. destruct (is_2_or_3 c); [| reflexivity].
  rewrite mt_rep, rep_cls_exact. cbn [andb].
  destruct ((13 <=? length s) && forallb is_decimal (take 13 s)); reflexivity.
Qed.

Lemma id_here_length (s : pystr) : id_here s = true -> 14 <= length s.
Proof.
  destruct s as [| c s]; [discriminate |]. cbn [id_here length].
  intros [[_ H]%andb_prop _]%andb_prop. apply Nat.leb_le in H. lia.
Qed.

Lemma match_at_re_id (prev : option char) (s : pystr) :
  match_at re_id prev s = if id_here s then Some 14 else None.
Proof.
  unfold match_at. rewrite mt_re_id. destruct (id_here s) eqn:H; [| reflexivity].
  apply id_here_length in H. rewrite length_drop. f_equal. lia.
Qed.

Lemma after_nonempty (prev : option char) (l : pystr) :
  l <> [] -> exists d, after prev l = Some d /\ In d l.
Proof.
  revert prev. induction l as [| c l IH]; intros prev H; [congruence |].
  rewrite after_cons. destruct l as [| c' l].
  - exists c. split; [reflexivity | left; reflexivity].
  - destruct (IH (Some c)) as [d [H1 H2]]; [discriminate |].
    exists d. split; [exact H1 | right; exact H2].
Qed.

Lemma id_here_decimal (s : pystr) :
  id_here s = true -> forallb is_decimal (take 14 s) = true.
Proof.
  destruct s as [| c s]; [discriminate |]. cbn [id_here].
  intros [[H1 _]%andb_prop H2]%andb_prop.
  cbn [take firstn forallb]. rewrite H2.
  rewrite (is_western_decimal c (is_2_or_3_western c H1)). reflexivity.
Qed.

Lemma id_here_after (prev : option char) (s : pystr) :
  id_here s = true ->
  exists d, after prev (take 14 s) = Some d /\ is_word d = true.
Proof.
  intros H. pose proof (id_here_length s H) as Hlen.
  pose proof (id_here_decimal s H) as Hdec.
  destruct (after_nonempty prev (take 14 s)) as [d [H1 H2]].
  - destruct s; [cbn in Hlen; lia | discriminate].
  - exists d. split; [exact H1 |]. apply is_decimal_word.
    rewrite forallb_forall in Hdec. apply Hdec, H2.
Qed.

Lemma id_here_head_word (s : pystr) :
  id_here s = true -> word_opt (head s) = true.
Proof.
  destruct s as [| c s]; [discriminate |]. cbn [id_here head word_opt].
  intros [[H _]%andb_prop _]%andb_prop. apply is_2_or_3_word, H.
Qed.

Lemma match_at_standalone (prev : option char) (s : pystr) :
  match_at re_standalone_id prev s =
  if id_here s && clear_of is_word prev && clear_of is_word (head (drop 14 s))
  then Some 14 else None.
Proof.
  unfold match_at, re_standalone_id. rewrite mt_seq, mt_bnd.
  destruct (id_here s) eqn:Hid.
  - unfold at_boundary at 1. rewrite (id_here_head_word s Hid).
    destruct (id_here_after prev s Hid) as [d [Hd Hw]].
    assert (Hp : xorb (word_opt prev) true = clear_of is_word prev).
    { destruct prev; cbn; [apply xorb_true_r | reflexivity]. }
    rewrite Hp. cbn [andb]. destruct (clear_of is_word prev); [| reflexivity].
    rewrite mt_seq, mt_re_id, Hid, mt_bnd, Hd. unfold at_boundary.
    cbn [word_opt andb]. rewrite Hw.
    assert (Hn : xorb true (word_opt (head (drop 14 s)))
                 = clear_of is_word (head (drop 14 s))).
    { destruct (head (drop 14 s)); reflexivity. }
    rewrite Hn. destruct (clear_of is_word (head (drop 14 s))); [| reflexivity].
    rewrite length_drop. apply id_here_length in Hid. f_equal. lia.
  - cbn [andb]. destruct (at_boundary prev s); [| reflexivity].
    rewrite mt_seq, mt_re_id, Hid. reflexivity.
Qed.

Lemma head_drop (s : pystr) (n : nat) : head (drop n s) = s !! n.
Proof.
  revert s. induction n as [| n IH]; intros [| c s]; try reflexivity. apply IH.
Qed.

Lemma match_at_standalone_at (s : pystr) (i : nat) :
  match_at re_standalone_id (char_before None s i) (drop i s) =
  if standalone_at is_word s i then Some 14 else None.
Proof.
  rewrite match_at_standalone. unfold standalone_at.
  rewrite head_drop, lookup_drop. reflexivity.
Qed.

(** ** Searching *)

Lemma char_before_cons (prev : option char) (c : char) (s : pystr) (i : nat) :
  char_before prev (c :: s) (S i) = char_before (Some c) s i.
Proof. destruct i; reflexivity. Qed.

(** [re.search] returns the match at the least position that has one. *)
Lemma re_search_from_first (r : regex) (prev : option char) (s : pystr)
    (i n : nat) :
  i <= length s ->
  match_at r (char_before prev s i) (drop i s) = Some n ->
  (forall j, j < i -> match_at r (char_before prev s j) (drop j s) = None) ->
  re_search_from r prev s = Some (take n (drop i s)).
Proof.
  revert prev i. induction s as [| c s IH]; intros prev i Hi Hm Hfirst.
  - cbn in Hi. assert (i = 0) as -> by lia. cbn in *. rewrite Hm. reflexivity.
  - destruct i as [| i].
    + cbn in Hm. cbn [re_search_from]. rewrite Hm. reflexivity.
    + cbn [re_search_from].
      pose proof (Hfirst 0 ltac:(lia)) as H0. cbn in H0. rewrite H0.
      rewrite char_before_cons in Hm. cbn [drop skipn] in *.
      apply IH; [cbn in Hi; lia | exact Hm |].
      intros j Hj. rewrite <- (char_before_cons prev). apply (Hfirst (S j)). lia.
Qed.

Lemma re_search_from_some (r : regex) (prev : option char) (s m : pystr) :
  re_search_from r prev s = Some m ->
  exists i n,
    i <= length s
    /\ match_at r (char_before prev s i) (drop i s) = Some n
    /\ m = take n (drop i s)
    /\ forall j, j < i -> match_at r (char_before prev s j) (drop j s) = None.
Proof.
  revert prev. induction s as [| c s IH]; intros prev H.
  - cbn [re_search_from] in H. destruct (match_at r prev []) as [n |] eqn:E;
      [| discriminate].
    exists 0, n. repeat split; [cbn; lia | exact E | injection H as <-; reflexivity | intros; lia].
  - cbn [re_search_from] in H.
    destruct (match_at r prev (c :: s)) as [n |] eqn:E.
    + exists 0, n. repeat split; [cbn; lia | exact E | injection H as <-; reflexivity | intros; lia].
    + destruct (IH _ H) as [i [n [Hi [Hm [Heq Hfirst]]]]].
      exists (S i), n. rewrite char_before_cons. cbn [drop skipn].
      repeat split; [cbn; lia | exact Hm | exact Heq |].
      intros [| j] Hj; [exact E |].
      rewrite char_before_cons. apply Hfirst. lia.
Qed.

Lemma re_search_from_none (r : regex) (prev : option char) (s : pystr) :
  (forall i, i <= length s ->
     match_at r (char_before prev s i) (drop i s) = None) ->
  re_search_from r prev s = None.
Proof.
  intros H. destruct (re_search_from r prev s) as [m |] eqn:E; [| reflexivity].
  destruct (re_search_from_some _ _ _ _ E) as [i [n [Hi [Hm _]]]].
  rewrite (H i Hi) in Hm. discriminate.
Qed.

(** ** Digit runs *)

Lemma leading_le (p : char -> bool) (s : pystr) : leading p s <= length s.
Proof.
  induction s as [| c s IH]; cbn; [lia |]. destruct (p c); cbn; lia.
Qed.

Lemma leading_take (p : char -> bool) (s : pystr) :
  forallb p (take (leading p s) s) = true.
Proof.
  induction s as [| c s IH]; cbn; [reflexivity |].
  destruct (p c) eqn:E; cbn; [rewrite E; exact IH | reflexivity].
Qed.

Lemma leading_stop (p : char -> bool) (s : pystr) :
  match s !! leading p s with
  | Some c => p c = false
  | None => leading p s = length s
  end.
Proof.
  induction s as [| c s IH]; cbn; [reflexivity |].
  destruct (p c) eqn:E; cbn; [| exact E].
  destruct (s !! leading p s); [exact IH | lia].
Qed.

(** [p+] on a class, when whatever follows is accepted: the longest run. *)
Lemma plus_cls_greedy (p : char -> bool) (fuel : nat) (prev : option char)
    (s : pystr) :
  length s < fuel ->
  plus (mt (Cls p)) fuel prev s (fun _ rest => Some rest) =
  match leading p s with
  | O => None
  | S _ => Some (drop (leading p s) s)
  end.
Proof.
  revert prev s. induction fuel as [| fuel IH]; intros prev s Hlen; [lia |].
  cbn [plus]. rewrite mt_cls. destruct s as [| x s]; [reflexivity |].
  cbn [leading]. destruct (p x); [| reflexivity].
  rewrite IH by (cbn in Hlen; lia).
  destruct (leading p s); reflexivity.
Qed.

Lemma match_at_re_digits (prev : option char) (s : pystr) :
  match_at re_digits prev s =
  match leading is_decimal s with
  | O => None
  | S n => Some (S n)
  end.
Proof.
  unfold match_at, re_digits. rewrite mt_plus, plus_cls_greedy by lia.
  pose proof (leading_le is_decimal s) as Hle.
  destruct (leading is_decimal s) as [| n] eqn:E; [reflexivity |].
  rewrite length_drop. f_equal. lia.
Qed.

(** ** Scanning *)

Lemma re_findall_go_elem (r : regex) (k : nat) (prev : option char)
    (s x : pystr) :
  In x (re_findall_go r k prev s) ->
  exists i n p',
    match_at r p' (drop i s) = Some (S n) /\ x = take (S n) (drop i s).
Proof.
  revert k prev. induction s as [| c s IH]; intros k prev H; [destruct H |].
  cbn [re_findall_go] in H.
  assert (Hrec : forall k' p', In x (re_findall_go r k' p' s) ->
            exists i n p'', match_at r p'' (drop i (c :: s)) = Some (S n)
                            /\ x = take (S n) (drop i (c :: s))).
  { intros k' p' Hin. destruct (IH _ _ Hin) as [i [n [p'' [H1 H2]]]].
    exists (S i), n, p''. split; assumption. }
  destruct k as [| k]; [| eapply Hrec, H].
  destruct (match_at r prev (c :: s)) as [[| n] |] eqn:E; try (eapply Hrec, H).
  destruct H as [<- | H]; [| eapply Hrec, H].
  exists 0, n, prev. split; [exact E | reflexivity].
Qed.

Lemma in_take_drop (c : char) (s : pystr) (i n : nat) :
  In c (take n (drop i s)) -> In c s.
Proof.
  intros H. apply list_elem_of_In. apply list_elem_of_In in H.
  apply (subseteq_drop i s), (subseteq_take n _), H.
Qed.

(** Every element of [re.findall(r'\d+', s)] is a non-empty run of
    decimal digits of [s]. *)
Lemma re_findall_digits_elem (s x : pystr) :
  In x (re_findall re_digits s) ->
  x <> [] /\ forallb is_decimal x = true /\ forall c, In c x -> In c s.
Proof.
  intros H. destruct (re_findall_go_elem _ _ _ _ _ H) as [i [n [p' [Hm ->]]]].
  rewrite match_at_re_digits in Hm.
  destruct (leading is_decimal (drop i s)) as [| n'] eqn:E; [discriminate |].
  injection Hm as <-. rewrite <- E. repeat split.
  - intros Hnil. apply (f_equal length) in Hnil.
    rewrite length_take in Hnil. pose proof (leading_le is_decimal (drop i s)).
    cbn in Hnil. lia.
  - apply leading_take.
  - intros c. apply in_take_drop.
Qed.

Lemma re_sub_go_in (r : regex) (k : nat) (prev : option char) (s : pystr)
    (c : char) :
  In c (re_sub_go r [] k prev s) -> In c s.
Proof.
  revert k prev. induction s as [| x s IH]; intros k prev H; [exact H |].
  cbn [re_sub_go] in H. destruct k as [| k]; [| right; eapply IH, H].
  destruct (match_at r prev (x :: s)) as [[| n] |].
  - destruct H as [-> | H]; [left; reflexivity | right; eapply IH, H].
  - right. eapply IH, H.
  - destruct H as [-> | H]; [left; reflexivity | right; eapply IH, H].
Qed.

(** ** The strategies *)

Lemma startswith_2_or_3_head (m : pystr) :
  startswith_2_or_3 m = starts_2_or_3 m.
Proof.
  unfold startswith_2_or_3, starts_2_or_3, is_2_or_3.
  change (py "2") with [50%N]. change (py "3") with [51%N].
  destruct m as [| c m]; [reflexivity |]. cbn [startswith].
  assert (Hnil : startswith m [] = true) by (destruct m; reflexivity).
  rewrite Hnil, !andb_true_r. unfold char_eqb.
  rewrite (N.eqb_sym 50 c), (N.eqb_sym 51 c). reflexivity.
Qed.

Lemma id_here_intro (m : pystr) :
  length m = 14 -> starts_2_or_3 m = true -> forallb is_decimal m = true ->
  id_here m = true.
Proof.
  destruct m as [| c m]; [discriminate |]. cbn [length starts_2_or_3 forallb id_here].
  intros Hlen H23 [_ Hdec]%andb_prop. rewrite H23.
  assert (length m = 13) as Hm by lia.
  rewrite <- Hm at 2. rewrite firstn_all, Hdec, Hm. reflexivity.
Qed.

Lemma id_here_take (s : pystr) :
  id_here s = true ->
  length (take 14 s) = 14 /\ starts_2_or_3 (take 14 s) = true
  /\ forallb is_decimal (take 14 s) = true.
Proof.
  intros H. pose proof (id_here_length s H). repeat split.
  - rewrite length_take. lia.
  - destruct s as [| c s]; [discriminate |]. cbn in *.
    apply andb_prop in H as [[H _]%andb_prop _]. exact H.
  - apply id_here_decimal, H.
Qed.

Lemma re_search_re_id_shape (s m : pystr) (prev : option char) :
  re_search_from re_id prev s = Some m -> id_from s m.
Proof.
  intros H. destruct (re_search_from_some _ _ _ _ H) as [i [n [_ [Hm [-> _]]]]].
  rewrite match_at_re_id in Hm.
  destruct (id_here (drop i s)) eqn:E; [| discriminate]. injection Hm as <-.
  destruct (id_here_take _ E) as [H1 [H2 H3]].
  repeat split; [exact H1 | exact H2 | exact H3 |].
  intros c. apply in_take_drop.
Qed.

Lemma strategy_A_shape (s m : pystr) :
  ProcessLogic.strategy_A s = Some m -> id_from s m.
Proof.
  unfold ProcessLogic.strategy_A, re_search. intros H.
  destruct (re_search_from_some _ _ _ _ H) as [i [n [_ [Hm [-> _]]]]].
  rewrite match_at_standalone in Hm.
  destruct (id_here (drop i s)) eqn:E; [| discriminate].
  destruct (_ && _ && _); [| discriminate]. injection Hm as <-.
  destruct (id_here_take _ E) as [H1 [H2 H3]].
  repeat split; [exact H1 | exact H2 | exact H3 |].
  intros c. apply in_take_drop.
Qed.

Lemma adjacent_sevens_some (l : list pystr) (m : pystr) :
  ProcessLogic.adjacent_sevens l = Some m ->
  exists a b,
    In a l /\ In b l /\ m = a ++ b /\ length a = 7 /\ length b = 7
    /\ starts_2_or_3 m = true.
Proof.
  induction l as [| a l IH]; [discriminate |].
  cbn [ProcessLogic.adjacent_sevens]. destruct l as [| b l]; [discriminate |].
  destruct ((length a =? 7) && (length b =? 7) && startswith_2_or_3 (a ++ b))
    eqn:E.
  - intros [= <-]. apply andb_prop in E as [[Ha Hb]%andb_prop H23].
    apply Nat.eqb_eq in Ha, Hb. rewrite startswith_2_or_3_head in H23.
    exists a, b. repeat split; try assumption;
      [left; reflexivity | right; left; reflexivity].
  - intros H. destruct (IH H) as [a' [b' [Ha [Hb Hrest]]]].
    exists a', b'. split; [right; exact Ha |]. split; [right; exact Hb |].
    exact Hrest.
Qed.

Lemma strategy_B_shape (s m : pystr) :
  ProcessLogic.strategy_B s = Some m -> id_from s m.
Proof.
  unfold ProcessLogic.strategy_B. intros H.
  destruct (adjacent_sevens_some _ _ H)
    as [a [b [Ha [Hb [-> [Hla [Hlb H23]]]]]]].
  destruct (re_findall_digits_elem _ _ Ha) as [_ [Hda Hina]].
  destruct (re_findall_digits_elem _ _ Hb) as [_ [Hdb Hinb]].
  repeat split.
  - rewrite length_app. lia.
  - exact H23.
  - rewrite forallb_app, Hda, Hdb. reflexivity.
  - intros c [Hc | Hc]%in_app_or; [apply Hina | apply Hinb]; exact Hc.
Qed.

Lemma embedded_id_some (l : list pystr) (m : pystr) :
  ProcessLogic.embedded_id l = Some m ->
  exists num_seq,
    In num_seq l /\ 14 < length num_seq /\ re_search re_id num_seq = Some m.
Proof.
  induction l as [| x l IH]; [discriminate |].
  cbn [ProcessLogic.embedded_id].
  assert (Hrec : ProcessLogic.embedded_id l = Some m ->
            exists num_seq, In num_seq (x :: l) /\ 14 < length num_seq
                            /\ re_search re_id num_seq = Some m).
  { intros H. destruct (IH H) as [y [Hy Hrest]].
    exists y. split; [right; exact Hy | exact Hrest]. }
  destruct (14 <? length x) eqn:Hlen; [| exact Hrec].
  destruct (re_search re_id x) as [m' |] eqn:E; [| exact Hrec].
  intros [= <-]. exists x. apply Nat.ltb_lt in Hlen.
  repeat split; [left; reflexivity | exact Hlen | exact E].
Qed.

Lemma strategy_C_shape (s m : pystr) :
  ProcessLogic.strategy_C s = Some m -> id_from s m.
Proof.
  unfold ProcessLogic.strategy_C. intros H.
  destruct (embedded_id_some _ _ H) as [x [Hx [_ Hs]]].
  destruct (re_findall_digits_elem _ _ Hx) as [_ [_ Hin]].
  destruct (re_search_re_id_shape _ _ _ Hs) as [H1 [H2 [H3 H4]]].
  repeat split; [exact H1 | exact H2 | exact H3 |].
  intros c Hc. apply Hin, H4, Hc.
Qed.

Lemma strip_dates_in (s : pystr) (c : char) :
  In c (ProcessLogic.strip_dates s) -> In c s.
Proof. apply re_sub_go_in. Qed.

(** The cascade, for a non-empty text. *)
Lemma extract_national_id_cascade (text : pystr) :
  text <> [] ->
  ProcessLogic.extract_national_id text =
  let processed_text := ProcessLogic.normalize_digits text in
  let cleaned_text := ProcessLogic.strip_dates processed_text in
  match ProcessLogic.strategy_A cleaned_text with
  | Some m => Some m
  | None =>
      match ProcessLogic.strategy_B cleaned_text with
      | Some m => Some m
      | None => ProcessLogic.strategy_C processed_text
      end
  end.
Proof. destruct text; [congruence | reflexivity]. Qed.

Lemma extract_national_id_from (text m : pystr) :
  ProcessLogic.extract_national_id text = Some m ->
  id_from (ProcessLogic.normalize_digits text) m.
Proof.
  destruct text as [| c0 text]; [discriminate |].
  rewrite extract_national_id_cascade by discriminate. cbv zeta.
  set (processed := ProcessLogic.normalize_digits (c0 :: text)).
  assert (Hsub : forall m', id_from (ProcessLogic.strip_dates processed) m' ->
            id_from processed m').
  { intros m' [H1 [H2 [H3 H4]]]. repeat split; try assumption.
    intros c Hc. apply strip_dates_in, H4, Hc. }
  destruct (ProcessLogic.strategy_A _) as [a |] eqn:EA.
  { intros [= <-]. apply Hsub, strategy_A_shape, EA. }
  destruct (ProcessLogic.strategy_B _) as [b |] eqn:EB.
  { intros [= <-]. apply Hsub, strategy_B_shape, EB. }
  apply strategy_C_shape.
Qed.

Lemma known_numeral_western (c : char) :
  known_numeral c = true -> is_decimal (western_of c) = true ->
  is_western (western_of c) = true.
Proof.
  unfold known_numeral. intros Hk Hd.
  destruct (is_arabic_indic c || is_extended_arabic_indic c) eqn:E.
  - apply western_of_mapped, E.
  - rewrite (western_of_unmapped c E) in *. rewrite Hd in Hk. cbn in Hk.
    rewrite <- orb_assoc, E, orb_false_r in Hk. exact Hk.
Qed.

(** C1, as stated, fails: the value returned need not consist of Western
    digits.  On a Western 2 followed by thirteen Devanagari ones the
    function returns the text itself. *)
Lemma extract_national_id_not_western :
  ProcessLogic.extract_national_id devanagari_id = Some devanagari_id
  /\ forallb is_western devanagari_id = false.
Proof. split; vm_compute; reflexivity. Qed.

(** C1, amended.  Whatever strategy A, B or C returns, and so whatever
    [extract_national_id] returns, is a string of exactly fourteen
    decimal digits in the sense of [\d] whose first character is the
    Western digit 2 or 3; when every decimal digit of the input is
    Western, Arabic-Indic or Extended Arabic-Indic, all fourteen are
    Western digits. *)
Theorem extract_national_id_shape :
  (forall s m : pystr,
      ProcessLogic.strategy_A s = Some m \/ ProcessLogic.strategy_B s = Some m
      \/ ProcessLogic.strategy_C s = Some m ->
      length m = 14 /\ starts_2_or_3 m = true /\ forallb is_decimal m = true)
  /\ (forall text m : pystr,
        ProcessLogic.extract_national_id text = Some m ->
        length m = 14 /\ starts_2_or_3 m = true /\ forallb is_decimal m = true
        /\ (forallb known_numeral text = true -> forallb is_western m = true)).
Proof.
  split.
  - intros s m H.
    assert (Hfrom : id_from s m).
    { destruct H as [H | [H | H]];
        [apply strategy_A_shape | apply strategy_B_shape | apply strategy_C_shape];
        exact H. }
    destruct Hfrom as [H1 [H2 [H3 _]]]. repeat split; assumption.
  - intros text m H.
    destruct (extract_national_id_from _ _ H) as [H1 [H2 [H3 H4]]].
    repeat split; try assumption.
    intros Hknown. apply forallb_forall. intros c Hc.
    rewrite forallb_forall in H3, Hknown.
    pose proof (H4 c Hc) as Hin. rewrite normalize_digits_map in Hin.
    apply in_map_iff in Hin as [x [<- Hx]].
    apply known_numeral_western; [apply Hknown, Hx | apply H3, Hc].
Qed.

Lemma extract_national_id_shape_witness :
  ProcessLogic.extract_national_id issued_text = Some issued_id
  /\ length issued_id = 14 /\ starts_2_or_3 issued_id = true
  /\ forallb is_decimal issued_id = true
  /\ (forallb known_numeral issued_text = true ->
      forallb is_western issued_id = true).
Proof.
  split; [vm_compute; reflexivity |].
  apply (proj2 extract_national_id_shape issued_text issued_id).
  vm_compute; reflexivity.
Defined.

(** C2, as stated, fails: a run of fourteen digits that starts with 2 and
    has no digit on either side is not returned when a letter touches
    it.  Position 1 of the text below is the first such run, and neither
    strategy A nor the function as a whole returns anything. *)
Lemma strategy_A_misses_letter_bounded_run :
  let cleaned :=
    ProcessLogic.strip_dates (ProcessLogic.normalize_digits letter_bounded_text) in
  standalone_at is_decimal cleaned 1 = true
  /\ standalone_at is_decimal cleaned 0 = false
  /\ ProcessLogic.strategy_A cleaned = None
  /\ ProcessLogic.extract_national_id letter_bounded_text = None.
Proof. repeat split; vm_compute; reflexivity. Qed.

Lemma standalone_at_bound (blocked : char -> bool) (s : pystr) (i : nat) :
  standalone_at blocked s i = true -> i <= length s.
Proof.
  unfold standalone_at. intros [[H _]%andb_prop _]%andb_prop.
  apply id_here_length in H. rewrite length_drop in H. lia.
Qed.

Lemma strategy_A_first (s : pystr) (i : nat) :
  standalone_at is_word s i = true ->
  (forall j, j < i -> standalone_at is_word s j = false) ->
  ProcessLogic.strategy_A s = Some (take 14 (drop i s)).
Proof.
  intros Hi Hfirst. unfold ProcessLogic.strategy_A, re_search.
  apply re_search_from_first.
  - eapply standalone_at_bound, Hi.
  - rewrite match_at_standalone_at, Hi. reflexivity.
  - intros j Hj. rewrite match_at_standalone_at, (Hfirst j Hj). reflexivity.
Qed.

Lemma strategy_A_some (s m : pystr) :
  ProcessLogic.strategy_A s = Some m ->
  exists i,
    standalone_at is_word s i = true
    /\ (forall j, j < i -> standalone_at is_word s j = false)
    /\ m = take 14 (drop i s).
Proof.
  unfold ProcessLogic.strategy_A, re_search. intros H.
  destruct (re_search_from_some _ _ _ _ H) as [i [n [_ [Hm [-> Hfirst]]]]].
  rewrite match_at_standalone_at in Hm.
  destruct (standalone_at is_word s i) eqn:E; [| discriminate].
  injection Hm as <-. exists i.
  split; [exact E |]. split; [| reflexivity].
  intros j Hj. specialize (Hfirst j Hj). rewrite match_at_standalone_at in Hfirst.
  destruct (standalone_at is_word s j); [discriminate | reflexivity].
Qed.

(** C2, amended.  Strategy A returns the first run of exactly fourteen
    decimal digits in the date-stripped text whose first digit is 2 or 3
    and that has no word character (letter, digit or underscore) next to
    it on either side; whenever such a run exists it is the result of
    [extract_national_id], and no later strategy runs. *)
Theorem strategy_A_first_standalone (text m : pystr) :
  text <> [] ->
  let cleaned :=
    ProcessLogic.strip_dates (ProcessLogic.normalize_digits text) in
  (ProcessLogic.strategy_A cleaned = Some m <->
   exists i,
     standalone_at is_word cleaned i = true
     /\ (forall j, j < i -> standalone_at is_word cleaned j = false)
     /\ m = take 14 (drop i cleaned))
  /\ (ProcessLogic.strategy_A cleaned = Some m ->
      ProcessLogic.extract_national_id text = Some m).
Proof.
  intros Hne cleaned. split; [split |].
  - apply strategy_A_some.
  - intros [i [Hi [Hfirst ->]]]. apply strategy_A_first; assumption.
  - intros H. rewrite extract_national_id_cascade by exact Hne. cbv zeta.
    fold cleaned. rewrite H. reflexivity.
Qed.

Lemma strategy_A_first_standalone_witness :
  issued_text <> []
  /\ ProcessLogic.extract_national_id issued_text = Some issued_id.
Proof.
  split; [discriminate |].
  apply (strategy_A_first_standalone issued_text issued_id); [discriminate |].
  vm_compute; reflexivity.
Defined.

(** ** The two copies of the engine *)

(** C10.  [extract_national_id] of process.py returns what
    [extract_national_id] of process_logic.py returns, and the two
    [normalize_digits] are the same function. *)
Theorem process_copies_agree (s : pystr) :
  snd (Process.extract_national_id s) = ProcessLogic.extract_national_id s
  /\ Process.normalize_digits s = ProcessLogic.normalize_digits s.
Proof.
  split; [| reflexivity].
  unfold Process.extract_national_id, ProcessLogic.extract_national_id.
  destruct s as [| c s]; [reflexivity |]. cbv zeta.
  unfold ProcessLogic.strategy_A, ProcessLogic.strategy_B,
    ProcessLogic.strategy_C, ProcessLogic.strip_dates.
  change (Process.normalize_digits (c :: s))
    with (ProcessLogic.normalize_digits (c :: s)).
  destruct (re_search re_standalone_id _); [reflexivity |].
  change Process.adjacent_sevens with ProcessLogic.adjacent_sevens.
  destruct (ProcessLogic.adjacent_sevens _); [reflexivity |].
  change Process.embedded_id with ProcessLogic.embedded_id.
  destruct (ProcessLogic.embedded_id _); reflexivity.
Qed.

(** ** Orientation correction and its temporary file *)

(** The floats of the model are the ones Python reads: [45] and [180]
    exactly, the binary64 numbers nearest to the literal [3.14159] and
    to pi. *)
Lemma float_constants :
  nearest_float 45 1 float_45 = true
  /\ nearest_float 180 1 float_180 = true
  /\ nearest_float 314159 100000 float_3_14159 = true
  /\ nearest_float 314159265358979323846 (10 ^ 20) float_pi = true.
Proof. repeat split; vm_compute; reflexivity. Qed.

(** C4.  On a file whose content is empty, the corrector of
    process_logic.py returns the path it was given and leaves the state,
    and so the list of probes, as it was; the corrector of process.py
    lacks the test and sends the empty content to the probe. *)
Theorem empty_content_probe :
  (forall rt client image_path st,
      ProcessLogic.detect_rotation_and_correct_image rt client image_path
        (write_file image_path [] st)
      = (image_path, write_file image_path [] st))
  /\ (forall rt client image_path st,
        probes (snd (Process.detect_rotation_and_correct_image rt client
                       image_path (write_file image_path [] st)))
        = [] :: probes st).
Proof.
  split; intros rt client image_path st.
  - unfold ProcessLogic.detect_rotation_and_correct_image.
    cbn [files write_file]. rewrite lookup_insert_eq. reflexivity.
  - unfold Process.detect_rotation_and_correct_image.
    cbn [files write_file]. rewrite lookup_insert_eq.
    destruct (text_detection client []) as [response |]; [| reflexivity].
    destruct (text_annotations response) as [| first ?]; [reflexivity |].
    destruct (bounding_poly first) as [| v0 [| v1 ?]]; try reflexivity.
    destruct (exceeds_45 _); [| reflexivity].
    destruct (pil_rotate _ _ _); [| reflexivity].
    destruct (pil_save _ _ _); reflexivity.
Qed.

(** Once the probe has made a copy turn the picture and the rotated
    picture has been saved, the corrector returns the corrected name. *)
Lemma rotation_saved (rt : runtime) (client : vision_client) (p : pystr)
    (st : state) (content img stored : bytes) :
  files st !! p = Some content -> content <> [] ->
  rotates (logic_angle rt) rt client content img ->
  pil_save rt (corrected_of p) img = Some stored ->
  ProcessLogic.detect_rotation_and_correct_image rt client p st
  = (corrected_of p,
     write_file (corrected_of p) stored (record_probe content st)).
Proof.
  intros Hp Hne (response & first & v0 & v1 & vs & more
                 & Hr & Ha & Hv & Hang & Hpil) Hsave.
  unfold ProcessLogic.detect_rotation_and_correct_image.
  rewrite Hp. destruct content as [| b content]; [contradiction |].
  unfold logic_angle in Hang, Hpil. unfold corrected_of in Hsave.
  rewrite Hr, Ha, Hv, Hang, Hpil, Hsave. reflexivity.
Qed.

Lemma rotation_saved_jpg (rt : runtime) (client : vision_client) (p : pystr)
    (st : state) (content img stored : bytes) :
  files st !! p = Some content ->
  rotates (numpy_angle rt) rt client content img ->
  pil_save rt (corrected_jpg_of p) img = Some stored ->
  Process.detect_rotation_and_correct_image rt client p st
  = (corrected_jpg_of p,
     write_file (corrected_jpg_of p) stored (record_probe content st)).
Proof.
  intros Hp (response & first & v0 & v1 & vs & more
             & Hr & Ha & Hv & Hang & Hpil) Hsave.
  unfold Process.detect_rotation_and_correct_image.
  unfold numpy_angle in Hang, Hpil. unfold corrected_jpg_of in Hsave.
  rewrite Hp, Hr, Ha, Hv, Hang, Hpil, Hsave. reflexivity.
Qed.

(** C3 fails on the code.  Whenever a picture the imaging library
    decodes has been rotated and stored under a corrected name other
    than its own, and the full OCR call answers the corrected copy with
    a service error, both copies of [detect_text_from_image] return
    nothing and leave the corrected file on disk. *)
Theorem corrected_file_left_behind :
  (forall rt client p st content img stored,
      files st !! p = Some content -> content <> [] ->
      rotates (logic_angle rt) rt client content img ->
      pil_save rt (corrected_of p) img = Some stored ->
      corrected_of p <> p ->
      service_error client stored ->
      let '(result, st') :=
        ProcessLogic.detect_text_from_image rt client p st in
      result = Returns None
      /\ files st' !! corrected_of p = Some stored)
  /\ (forall rt client p st content img stored,
        files st !! p = Some content ->
        rotates (numpy_angle rt) rt client content img ->
        pil_save rt (corrected_jpg_of p) img = Some stored ->
        corrected_jpg_of p <> p ->
        service_error client stored ->
        let '(result, st') :=
          Process.detect_text_from_image rt client p st in
        result = Returns None
        /\ files st' !! corrected_jpg_of p = Some stored).
Proof.
  split; intros rt client p st content img stored.
  - intros Hp Hne Hrot Hsave _ (response & Hdoc & Herr).
    unfold ProcessLogic.detect_text_from_image.
    rewrite (rotation_saved _ _ _ _ _ _ _ Hp Hne Hrot Hsave).
    cbn [files write_file]. rewrite lookup_insert_eq.
    destruct stored as [| b stored];
      [split; [reflexivity | apply lookup_insert_eq] |].
    rewrite Hdoc. destruct (error_message response); [contradiction |].
    split; [reflexivity | apply lookup_insert_eq].
  - intros Hp Hrot Hsave _ (response & Hdoc & Herr).
    unfold Process.detect_text_from_image.
    rewrite (rotation_saved_jpg _ _ _ _ _ _ _ Hp Hrot Hsave).
    cbn [files write_file]. rewrite lookup_insert_eq, Hdoc.
    destruct (error_message response); [contradiction |].
    split; [reflexivity | apply lookup_insert_eq].
Qed.

Lemma corrected_file_left_behind_witness :
  files card_on_disk !! card_path = Some card_image
  /\ corrected_of card_path = card_corrected_path
  /\ corrected_jpg_of card_path = card_corrected_path
  /\ (let '(result, st') :=
        ProcessLogic.detect_text_from_image quarter_turn failing_ocr
          card_path card_on_disk in
      result = Returns None
      /\ files st' !! card_corrected_path = Some card_image)
  /\ (let '(result, st') :=
        Process.detect_text_from_image quarter_turn failing_ocr
          card_path card_on_disk in
      result = Returns None
      /\ files st' !! card_corrected_path = Some card_image).
Proof.
  assert (Hp : files card_on_disk !! card_path = Some card_image)
    by (vm_compute; reflexivity).
  assert (Hc : corrected_of card_path = card_corrected_path)
    by (vm_compute; reflexivity).
  assert (Hj : corrected_jpg_of card_path = card_corrected_path)
    by (vm_compute; reflexivity).
  assert (Herr : service_error failing_ocr card_image).
  { exists {| error_message := py "quota exceeded"; text_annotations := [] |}.
    split; [reflexivity | discriminate]. }
  split; [exact Hp |]. split; [exact Hc |]. split; [exact Hj |]. split.
  - rewrite <- Hc.
    apply (proj1 corrected_file_left_behind quarter_turn failing_ocr
             card_path card_on_disk card_image card_image card_image Hp).
    + discriminate.
    + exists {| error_message := []; text_annotations := [sideways_region] |},
        sideways_region, {| vertex_x := 0; vertex_y := 0 |},
        {| vertex_x := 0; vertex_y := 10 |}, [], [].
      repeat split; vm_compute; reflexivity.
    + vm_compute; reflexivity.
    + vm_compute; discriminate.
    + exact Herr.
  - rewrite <- Hj.
    apply (proj2 corrected_file_left_behind quarter_turn failing_ocr
             card_path card_on_disk card_image card_image card_image Hp).
    + exists {| error_message := []; text_annotations := [sideways_region] |},
        sideways_region, {| vertex_x := 0; vertex_y := 0 |},
        {| vertex_x := 0; vertex_y := 10 |}, [], [].
      repeat split; vm_compute; reflexivity.
    + vm_compute; reflexivity.
    + vm_compute; discriminate.
    + exact Herr.
Defined.

(** ** The batch route *)

Lemma download_image_verdict (w : App.site) (url : App.cell)
    (output_path : pystr) (st st' : state) :
  fst (App.download_image w url output_path st)
  = fst (App.download_image w url output_path st').
Proof.
  unfold App.download_image. destruct url as [url |]; [| reflexivity].
  destruct (App.is_empty (strip url) || App.lower_is_null url); [reflexivity |].
  destruct (App.http_get w url) as [e | content_type body
                                    | content_type copied failure];
    [reflexivity | |];
    (destruct (negb (startswith content_type (py "image/"))); [reflexivity |]);
    destruct (App.save_error w output_path); reflexivity.
Qed.

Lemma detect_text_from_image_returns (rt : runtime) (client : vision_client)
    (image_path : pystr) (st : state) :
  answers client ->
  exists text st',
    ProcessLogic.detect_text_from_image rt client image_path st
    = (Returns text, st').
Proof.
  intros Hans. unfold ProcessLogic.detect_text_from_image.
  destruct (ProcessLogic.detect_rotation_and_correct_image _ _ _ _)
    as [corrected_path st1].
  destruct (files st1 !! corrected_path) as [[| b content] |]; eauto.
  destruct (document_text_detection client (b :: content)) as [response |] eqn:E;
    [| destruct (Hans _ E)].
  destruct (error_message response); eauto.
Qed.

Lemma process_row_returns (w : App.site) (client : vision_client)
    (index : nat) (row : App.excel_row) (st : state) :
  answers client ->
  exists v st',
    App.process_row w client index row st = (Returns v, st')
    /\ App.excel_row_id v = App.row_id row
    /\ App.excel_nationality_id v = App.row_nationality_id row
    /\ forall message,
         acquisition w index row = (false, message) ->
         App.extracted_id v = Some (py "Download Failed: " ++ message)
         /\ App.is_match v = false /\ App.image_path v = None.
Proof.
  intros Hans. unfold App.process_row, acquisition.
  fold (local_filename index). fold (local_filepath w index).
  rewrite (download_image_verdict w _ _ no_files st).
  destruct (App.download_image w (App.row_back_link row)
              (local_filepath w index) st) as [[success message] st1].
  cbn [fst]. destruct success.
  - destruct (detect_text_from_image_returns (App.rt w) client
                (local_filepath w index) st1 Hans) as [text [st2 ->]].
    eexists _, _. split; [reflexivity |]. split; [reflexivity |].
    split; [reflexivity |]. intros message' H. discriminate H.
  - eexists _, _. split; [reflexivity |]. split; [reflexivity |].
    split; [reflexivity |]. intros message' H. injection H as <-.
    repeat split.
Qed.

Lemma process_rows_returns (w : App.site) (client : vision_client)
    (rows : list App.excel_row) (index : nat) (st : state) :
  answers client ->
  exists results st',
    App.process_rows w client index rows st = (Returns results, st')
    /\ length results = length rows
    /\ forall i row,
         rows !! i = Some row ->
         exists v,
           results !! i = Some v
           /\ App.excel_row_id v = App.row_id row
           /\ App.excel_nationality_id v = App.row_nationality_id row
           /\ forall message,
                acquisition w (index + i) row = (false, message) ->
                App.extracted_id v = Some (py "Download Failed: " ++ message)
                /\ App.is_match v = false /\ App.image_path v = None.
Proof.
  intros Hans. revert index st.
  induction rows as [| row rows IH]; intros index st.
  - exists [], st. repeat split. intros i row H. discriminate.
  - cbn [App.process_rows].
    destruct (process_row_returns w client index row st Hans)
      as [v [st1 [-> Hv]]].
    destruct (IH (S index) st1) as [vs [st2 [-> [Hlen Hvs]]]].
    exists (v :: vs), st2. repeat split; [cbn; lia |].
    intros [| i] row' Hrow.
    + injection Hrow as <-. exists v. rewrite Nat.add_0_r.
      split; [reflexivity | exact Hv].
    + destruct (Hvs i row' Hrow) as [v' Hv']. exists v'.
      replace (index + S i) with (S index + i) by lia. exact Hv'.
Qed.

(** C8, as stated, fails: a sheet of eleven records yields ten results,
    because the route keeps the first ten rows of the sheet. *)
Lemma batch_stops_after_ten_rows :
  length eleven_rows = 11
  /\ match fst (App.process_from_excel_links eleven_rows_site no_files) with
     | Returns (Some results) => length results = 10
     | _ => False
     end.
Proof. split; vm_compute; reflexivity. Qed.

(** C8, amended.  For every ordered list of N input records (the sheet
    being readable with its columns, the OCR client constructed and its
    full-text call not raising), the route produces exactly min(N, 10)
    results, the i-th one for the i-th of the first ten records, whatever
    records fail; on image-acquisition failure the result carries the
    failure marker as extracted id and [is_match = false], and the loop
    goes on with the next record. *)
Theorem batch_results (w : App.site) (client : vision_client)
    (rows : list App.excel_row) (st : state) :
  App.excel w = App.ExcelTable rows ->
  App.vision w = Some client ->
  answers client ->
  exists results st',
    App.process_from_excel_links w st = (Returns (Some results), st')
    /\ length results = Nat.min (length rows) 10
    /\ forall i row,
         i < 10 ->
         rows !! i = Some row ->
         exists v,
           results !! i = Some v
           /\ App.excel_row_id v = App.row_id row
           /\ App.excel_nationality_id v = App.row_nationality_id row
           /\ forall message,
                acquisition w i row = (false, message) ->
                App.extracted_id v = Some (py "Download Failed: " ++ message)
                /\ App.is_match v = false /\ App.image_path v = None.
Proof.
  intros Hexcel Hvision Hans. unfold App.process_from_excel_links.
  rewrite Hexcel, Hvision.
  destruct (process_rows_returns w client (take 10 rows) 0 st Hans)
    as [results [st' [-> [Hlen Hrows]]]].
  exists results, st'. split; [reflexivity |]. split.
  - rewrite Hlen, length_take. lia.
  - intros i row Hi Hrow. apply (Hrows i row).
    rewrite lookup_take_lt by exact Hi. exact Hrow.
Qed.

Lemma batch_results_witness :
  App.excel eleven_rows_site = App.ExcelTable eleven_rows
  /\ App.vision eleven_rows_site = Some failing_ocr
  /\ answers failing_ocr
  /\ exists results st',
       App.process_from_excel_links eleven_rows_site no_files
       = (Returns (Some results), st')
       /\ length results = Nat.min (length eleven_rows) 10
       /\ forall i row,
            i < 10 ->
            eleven_rows !! i = Some row ->
            exists v,
              results !! i = Some v
              /\ App.excel_row_id v = App.row_id row
              /\ App.excel_nationality_id v = App.row_nationality_id row
              /\ forall message,
                   acquisition eleven_rows_site i row = (false, message) ->
                   App.extracted_id v = Some (py "Download Failed: " ++ message)
                   /\ App.is_match v = false /\ App.image_path v = None.
Proof.
  assert (Hans : answers failing_ocr) by (intros content; discriminate).
  split; [reflexivity |]. split; [reflexivity |]. split; [exact Hans |].
  apply (batch_results eleven_rows_site failing_ocr eleven_rows no_files);
    [reflexivity | reflexivity | exact Hans].
Defined.

(** ** Strategy C and the maximal digit runs *)

Lemma re_findall_digits_prev (k : nat) (prev prev' : option char) (s : pystr) :
  re_findall_go re_digits k prev s = re_findall_go re_digits k prev' s.
Proof.
  revert k prev prev'. induction s as [| c s IH]; intros k prev prev';
    [reflexivity |].
  cbn [re_findall_go]. destruct k as [| k]; [| apply IH].
  rewrite !match_at_re_digits. reflexivity.
Qed.

Lemma re_findall_digits_skip (k : nat) (prev : option char) (s : pystr) :
  k <= length s ->
  re_findall_go re_digits k prev s = re_findall re_digits (drop k s).
Proof.
  revert prev s. induction k as [| k IH]; intros prev s Hk.
  - apply re_findall_digits_prev.
  - destruct s as [| c s]; [cbn in Hk; lia |].
    cbn [re_findall_go drop skipn]. apply IH. cbn in Hk. lia.
Qed.

Lemma re_findall_digits_cons (c : char) (s : pystr) :
  re_findall re_digits (c :: s) =
  if is_decimal c
  then (c :: take (leading is_decimal s) s)
         :: re_findall re_digits (drop (leading is_decimal s) s)
  else re_findall re_digits s.
Proof.
  unfold re_findall at 1. cbn [re_findall_go].
  rewrite match_at_re_digits. cbn [leading].
  destruct (is_decimal c).
  - cbn [take firstn]. f_equal.
    apply re_findall_digits_skip, leading_le.
  - apply re_findall_digits_prev.
Qed.

Lemma after_app_nonempty (p p' : option char) (a b : pystr) :
  b <> [] -> after p (a ++ b) = after p' b.
Proof.
  intros Hb. unfold after. rewrite fold_left_app.
  destruct b as [| c b]; [destruct Hb; reflexivity | reflexivity].
Qed.

Lemma clear_decimal_leading (t : pystr) :
  clear_of is_decimal (head t) = true -> leading is_decimal t = 0.
Proof.
  destruct t as [| c t]; [reflexivity |]. cbn [head clear_of leading].
  destruct (is_decimal c); cbn [negb]; [intros H; discriminate H | reflexivity].
Qed.

Lemma leading_app (p : char -> bool) (a b : pystr) :
  forallb p a = true -> leading p b = 0 -> leading p (a ++ b) = length a.
Proof.
  intros Ha Hb. induction a as [| c a IH]; [exact Hb |].
  cbn in *. apply andb_prop in Ha as [Hc Ha]. rewrite Hc, IH by exact Ha.
  reflexivity.
Qed.

Lemma leading_head_clear (s : pystr) :
  clear_of is_decimal (head (drop (leading is_decimal s) s)) = true.
Proof.
  rewrite head_drop. pose proof (leading_stop is_decimal s) as H.
  destruct (s !! leading is_decimal s); cbn [clear_of]; [rewrite H |];
    reflexivity.
Qed.

(** A place in the list of runs is a place in the text. *)
Lemma re_findall_digits_split (n : nat) :
  forall s l1 x l2,
    length s <= n ->
    re_findall re_digits s = l1 ++ x :: l2 ->
    exists pre post,
      s = pre ++ x ++ post
      /\ maximal_digit_run pre x post
      /\ re_findall re_digits pre = l1
      /\ re_findall re_digits post = l2.
Proof.
  induction n as [| n IH]; intros s l1 x l2 Hlen Hruns.
  { destruct s; [destruct l1; discriminate | cbn in Hlen; lia]. }
  destruct s as [| c s]; [destruct l1; discriminate |].
  rewrite re_findall_digits_cons in Hruns.
  destruct (is_decimal c) eqn:Hc.
  - set (k := leading is_decimal s) in *.
    assert (Hk : k <= length s) by apply leading_le.
    assert (Hrun : forallb is_decimal (c :: take k s) = true).
    { cbn. rewrite Hc. apply leading_take. }
    destruct l1 as [| y l1]; injection Hruns as Hy Hrest.
    + exists [], (drop k s). subst x l2.
      split; [cbn; rewrite take_drop; reflexivity |].
      split; [| split; reflexivity].
      split; [discriminate |]. split; [exact Hrun |].
      split; [reflexivity | apply leading_head_clear].
    + destruct (IH (drop k s) l1 x l2) as [pre0 [post [Hs [Hmax [H1 H2]]]]];
        [rewrite length_drop; cbn in Hlen; lia | exact Hrest |].
      destruct Hmax as [Hx [Hdx [Hpre Hpost]]].
      assert (Hpre0 : pre0 <> []).
      { intros ->. pose proof (leading_head_clear s) as Hcl. fold k in Hcl.
        rewrite Hs in Hcl. destruct x as [| d x]; [congruence |].
        cbn in Hcl, Hdx. apply andb_prop in Hdx as [Hd _].
        rewrite Hd in Hcl. discriminate. }
      assert (Hhead : leading is_decimal pre0 = 0).
      { apply clear_decimal_leading. pose proof (leading_head_clear s) as Hcl.
        fold k in Hcl. rewrite Hs in Hcl.
        destruct pre0; [congruence | exact Hcl]. }
      exists ((c :: take k s) ++ pre0), post. subst y.
      split; [| split; [| split; [| exact H2]]].
      * rewrite <- app_assoc, <- Hs. cbn. rewrite take_drop. reflexivity.
      * split; [exact Hx |]. split; [exact Hdx |]. split; [| exact Hpost].
        rewrite (after_app_nonempty None None) by exact Hpre0. exact Hpre.
      * cbn [app]. rewrite re_findall_digits_cons, Hc.
        assert (Hl : leading is_decimal (take k s ++ pre0) = k).
        { rewrite leading_app; [apply length_take_le, Hk | | exact Hhead].
          apply leading_take. }
        rewrite Hl.
        rewrite take_app_length' by (symmetry; apply length_take_le, Hk).
        rewrite drop_app_length' by (symmetry; apply length_take_le, Hk).
        rewrite H1. reflexivity.
  - destruct (IH s l1 x l2) as [pre [post [Hs [Hmax [H1 H2]]]]];
      [cbn in Hlen; lia | exact Hruns |].
    exists (c :: pre), post. split; [cbn; rewrite Hs; reflexivity |].
    split; [| split; [| exact H2]].
    + destruct Hmax as [Hx [Hdx [Hpre Hpost]]].
      split; [exact Hx |]. split; [exact Hdx |]. split; [| exact Hpost].
      destruct pre as [| d pre]; [cbn; rewrite Hc; reflexivity |].
      change (c :: d :: pre) with ([c] ++ d :: pre).
      rewrite (after_app_nonempty None None) by discriminate. exact Hpre.
    + rewrite re_findall_digits_cons, Hc. exact H1.
Qed.

Lemma embedded_id_split (l : list pystr) (m : pystr) :
  ProcessLogic.embedded_id l = Some m ->
  exists l1 x l2,
    l = l1 ++ x :: l2
    /\ ProcessLogic.embedded_id l1 = None
    /\ 14 < length x
    /\ re_search re_id x = Some m.
Proof.
  induction l as [| y l IH]; [discriminate |].
  cbn [ProcessLogic.embedded_id].
  destruct (14 <? length y) eqn:Hlen.
  - destruct (re_search re_id y) as [m' |] eqn:E.
    + intros [= <-]. exists [], y, l. apply Nat.ltb_lt in Hlen.
      repeat split; [exact Hlen | exact E].
    + intros H. destruct (IH H) as [l1 [x [l2 [-> [H1 H2]]]]].
      exists (y :: l1), x, l2. split; [reflexivity |].
      split; [| exact H2]. cbn [ProcessLogic.embedded_id].
      rewrite Hlen, E. exact H1.
  - intros H. destruct (IH H) as [l1 [x [l2 [-> [H1 H2]]]]].
    exists (y :: l1), x, l2. split; [reflexivity |].
    split; [| exact H2]. cbn [ProcessLogic.embedded_id].
    rewrite Hlen. exact H1.
Qed.

Lemma re_search_re_id_first (x m : pystr) :
  re_search re_id x = Some m ->
  exists i, first_id_at x i /\ m = take 14 (drop i x).
Proof.
  unfold re_search. intros H.
  destruct (re_search_from_some _ _ _ _ H) as [i [n [_ [Hm [-> Hfirst]]]]].
  rewrite match_at_re_id in Hm.
  destruct (id_here (drop i x)) eqn:E; [| discriminate]. injection Hm as <-.
  exists i. split; [| reflexivity]. split; [exact E |].
  intros j Hj. specialize (Hfirst j Hj). rewrite match_at_re_id in Hfirst.
  destruct (id_here (drop j x)); [discriminate | reflexivity].
Qed.

Lemma strategy_C_some (s m : pystr) :
  ProcessLogic.strategy_C s = Some m ->
  exists pre run post i,
    s = pre ++ run ++ post
    /\ maximal_digit_run pre run post
    /\ ProcessLogic.strategy_C pre = None
    /\ 14 < length run
    /\ first_id_at run i
    /\ m = take 14 (drop i run).
Proof.
  unfold ProcessLogic.strategy_C. intros H.
  destruct (embedded_id_split _ _ H) as [l1 [x [l2 [Hl [Hnone [Hlen Hs]]]]]].
  destruct (re_findall_digits_split (length s) s l1 x l2 (le_n _) Hl)
    as [pre [post [Hsplit [Hmax [Hpre _]]]]].
  destruct (re_search_re_id_first _ _ Hs) as [i [Hi Hm]].
  exists pre, x, post, i. rewrite Hpre. repeat split; try assumption;
    apply Hmax || apply Hi.
Qed.

Lemma leading_before_end (pre : pystr) :
  pre <> [] -> clear_of is_decimal (after None pre) = true ->
  leading is_decimal pre < length pre.
Proof.
  induction pre as [| c pre IH]; intros Hne Hclear; [congruence |].
  cbn [leading length]. destruct (is_decimal c) eqn:Hc; [| lia].
  destruct pre as [| d pre].
  - cbn in Hclear. rewrite Hc in Hclear. discriminate.
  - change (c :: d :: pre) with ([c] ++ d :: pre) in Hclear.
    rewrite (after_app_nonempty None None) in Hclear by discriminate.
    specialize (IH ltac:(discriminate) Hclear). lia.
Qed.

Lemma leading_app_lt (p : char -> bool) (a b : pystr) :
  leading p a < length a -> leading p (a ++ b) = leading p a.
Proof.
  induction a as [| c a IH]; cbn [leading length app]; [lia |].
  destruct (p c); [| reflexivity]. intros H. rewrite IH by lia. reflexivity.
Qed.

(** A maximal run of the text is a place in the list of runs. *)
Lemma re_findall_digits_app (n : nat) :
  forall pre run post,
    length pre <= n ->
    maximal_digit_run pre run post ->
    re_findall re_digits (pre ++ run ++ post)
    = re_findall re_digits pre ++ run :: re_findall re_digits post.
Proof.
  induction n as [| n IH]; intros pre run post Hlen Hmax;
    destruct Hmax as [Hne [Hdec [Hpre Hpost]]].
  all: destruct pre as [| c pre]; [| try (cbn in Hlen; lia)].
  1, 2: destruct run as [| d run]; [congruence |];
    cbn [app forallb] in *; apply andb_prop in Hdec as [Hd Hrun];
    rewrite re_findall_digits_cons, Hd;
    rewrite (leading_app _ _ _ Hrun (clear_decimal_leading _ Hpost));
    rewrite take_app_length', drop_app_length' by reflexivity; reflexivity.
  cbn [app]. rewrite !re_findall_digits_cons.
  destruct (is_decimal c) eqn:Hc.
  - assert (Hpre' : pre <> []).
    { intros ->. cbn in Hpre. rewrite Hc in Hpre. discriminate. }
    assert (Hclear : clear_of is_decimal (after None pre) = true).
    { change (c :: pre) with ([c] ++ pre) in Hpre.
      rewrite (after_app_nonempty None None) in Hpre by exact Hpre'.
      exact Hpre. }
    pose proof (leading_before_end pre Hpre' Hclear) as Hlt.
    rewrite (leading_app_lt _ _ _ Hlt).
    set (k := leading is_decimal pre) in *.
    rewrite take_app_le, drop_app_le by lia.
    cbn [app]. f_equal. apply IH.
    + rewrite length_drop. cbn in Hlen. lia.
    + split; [exact Hne |]. split; [exact Hdec |]. split; [| exact Hpost].
      rewrite <- (take_drop k pre) in Hclear.
      rewrite (after_app_nonempty None None) in Hclear; [exact Hclear |].
      intros Hnil. apply (f_equal length) in Hnil.
      rewrite length_drop in Hnil. cbn in Hnil. lia.
  - apply IH; [cbn in Hlen; lia |].
    split; [exact Hne |]. split; [exact Hdec |]. split; [| exact Hpost].
    destruct pre as [| d pre]; [reflexivity |].
    change (c :: d :: pre) with ([c] ++ d :: pre) in Hpre.
    rewrite (after_app_nonempty None None) in Hpre by discriminate. exact Hpre.
Qed.

Lemma embedded_id_app (l1 l2 : list pystr) (x m : pystr) :
  ProcessLogic.embedded_id l1 = None -> 14 < length x ->
  re_search re_id x = Some m ->
  ProcessLogic.embedded_id (l1 ++ x :: l2) = Some m.
Proof.
  intros Hnone Hlen Hs. apply Nat.ltb_lt in Hlen.
  induction l1 as [| y l1 IH]; cbn [app ProcessLogic.embedded_id] in *.
  - rewrite Hlen, Hs. reflexivity.
  - destruct (14 <? length y); [| apply IH, Hnone].
    destruct (re_search re_id y); [discriminate | apply IH, Hnone].
Qed.

Lemma first_id_at_search (x : pystr) (i : nat) :
  first_id_at x i -> re_search re_id x = Some (take 14 (drop i x)).
Proof.
  intros [Hi Hfirst]. unfold re_search. apply re_search_from_first.
  - apply id_here_length in Hi. rewrite length_drop in Hi. lia.
  - rewrite match_at_re_id, Hi. reflexivity.
  - intros j Hj. rewrite match_at_re_id, (Hfirst j Hj). reflexivity.
Qed.

Lemma strategy_C_first (pre run post : pystr) (i : nat) :
  maximal_digit_run pre run post ->
  ProcessLogic.strategy_C pre = None ->
  14 < length run ->
  first_id_at run i ->
  ProcessLogic.strategy_C (pre ++ run ++ post) = Some (take 14 (drop i run)).
Proof.
  intros Hmax Hnone Hlen Hi. unfold ProcessLogic.strategy_C in *.
  rewrite (re_findall_digits_app (length pre)) by (exact Hmax || lia).
  apply embedded_id_app; [exact Hnone | exact Hlen |].
  apply first_id_at_search, Hi.
Qed.

(** C6.  Strategy C runs on the numeral-normalized text, not on the
    date-stripped one; it returns an identity number exactly when some
    maximal digit run of that text is longer than fourteen digits and
    holds one, and then it returns the first one of the first such run;
    when no maximal digit run is longer than fourteen digits, it returns
    nothing. *)
Theorem strategy_C_long_runs (text : pystr) :
  (text <> [] ->
   let processed := ProcessLogic.normalize_digits text in
   ProcessLogic.strategy_A (ProcessLogic.strip_dates processed) = None ->
   ProcessLogic.strategy_B (ProcessLogic.strip_dates processed) = None ->
   ProcessLogic.extract_national_id text = ProcessLogic.strategy_C processed)
  /\ (forall s m : pystr,
        ProcessLogic.strategy_C s = Some m <->
        exists pre run post i,
          s = pre ++ run ++ post
          /\ maximal_digit_run pre run post
          /\ ProcessLogic.strategy_C pre = None
          /\ 14 < length run
          /\ first_id_at run i
          /\ m = take 14 (drop i run))
  /\ (forall s : pystr,
        (forall pre run post,
            s = pre ++ run ++ post -> maximal_digit_run pre run post ->
            length run <= 14) ->
        ProcessLogic.strategy_C s = None).
Proof.
  split; [| split].
  - intros Hne processed HA HB.
    rewrite extract_national_id_cascade by exact Hne. cbv zeta.
    fold processed. rewrite HA, HB. reflexivity.
  - intros s m. split; [apply strategy_C_some |].
    intros [pre [run [post [i [-> [Hmax [Hnone [Hlen [Hi ->]]]]]]]]].
    apply strategy_C_first; assumption.
  - intros s Hshort.
    destruct (ProcessLogic.strategy_C s) as [m |] eqn:E; [| reflexivity].
    destruct (strategy_C_some _ _ E) as [pre [run [post [i [Hs [Hmax [_ [Hlen _]]]]]]]].
    specialize (Hshort pre run post Hs Hmax). lia.
Qed.

Lemma strategy_C_long_runs_witness :
  long_run_text <> []
  /\ ProcessLogic.strategy_A
       (ProcessLogic.strip_dates (ProcessLogic.normalize_digits long_run_text))
     = None
  /\ ProcessLogic.strategy_B
       (ProcessLogic.strip_dates (ProcessLogic.normalize_digits long_run_text))
     = None
  /\ ProcessLogic.extract_national_id long_run_text = Some long_run_id.
Proof.
  assert (HA : ProcessLogic.strategy_A
                 (ProcessLogic.strip_dates
                    (ProcessLogic.normalize_digits long_run_text)) = None)
    by (vm_compute; reflexivity).
  assert (HB : ProcessLogic.strategy_B
                 (ProcessLogic.strip_dates
                    (ProcessLogic.normalize_digits long_run_text)) = None)
    by (vm_compute; reflexivity).
  split; [discriminate |]. split; [exact HA |]. split; [exact HB |].
  rewrite (proj1 (strategy_C_long_runs long_run_text) ltac:(discriminate) HA HB).
  vm_compute; reflexivity.
Defined.

(** ** The name heuristic *)

(** [p+] on a class, when the match must reach the end of the input. *)
Lemma plus_cls_full (p : char -> bool) (fuel : nat) (prev : option char)
    (s : pystr) :
  length s < fuel ->
  plus (mt (Cls p)) fuel prev s
       (fun _ rest => match rest with [] => Some [] | _ => None end) =
  match s with
  | [] => None
  | _ => if forallb p s then Some [] else None
  end.
Proof.
  revert prev s. induction fuel as [| fuel IH]; intros prev s Hlen; [lia |].
  cbn [plus]. rewrite mt_cls. destruct s as [| x s]; [reflexivity |].
  cbn [forallb]. destruct (p x); [| reflexivity].
  rewrite IH by (cbn in Hlen; lia).
  destruct s as [| y s]; [reflexivity |]. cbn [andb].
  destruct (forallb p (y :: s)); reflexivity.
Qed.

Lemma re_fullmatch_arabic_line (s : pystr) :
  re_fullmatch Test2Photos.re_arabic_line s =
  match s with
  | [] => false
  | _ => forallb Test2Photos.is_arabic_or_space s
  end.
Proof.
  unfold re_fullmatch, Test2Photos.re_arabic_line.
  rewrite mt_plus, plus_cls_full by lia.
  destruct s as [| c s]; [reflexivity |].
  destruct (forallb _ _); reflexivity.
Qed.

(** The class of the pattern is the Arabic block with the whitespace. *)
Lemma is_arabic_or_space_block (c : char) :
  Test2Photos.is_arabic_or_space c = in_arabic_block c || is_space c.
Proof.
  unfold Test2Photos.is_arabic_or_space, in_arabic_block. do 2 f_equal.
  destruct (N.leb_spec c 1791), (N.ltb_spec c 1792); (reflexivity || lia).
Qed.

Lemma forallb_same (p q : char -> bool) (s : pystr) :
  (forall c, p c = q c) -> forallb p s = forallb q s.
Proof.
  intros H. induction s as [| c s IH]; [reflexivity |].
  cbn [forallb]. rewrite H, IH. reflexivity.
Qed.

Lemma is_valid_name_acceptable (candidate : pystr) :
  Test2Photos.is_valid_name candidate = acceptable_name candidate.
Proof.
  unfold Test2Photos.is_valid_name, acceptable_name.
  rewrite re_fullmatch_arabic_line.
  rewrite (forallb_same _ _ candidate is_arabic_or_space_block).
  destruct candidate as [| c candidate]; reflexivity.
Qed.

Lemma find_header_none (lines : list pystr) (i : nat) :
  forallb lacks_header lines = true -> Test2Photos.find_header i lines = None.
Proof.
  revert i. induction lines as [| line lines IH]; intros i H; [reflexivity |].
  cbn [forallb Test2Photos.find_header] in *.
  apply andb_prop in H as [Hline H]. unfold lacks_header in Hline.
  destruct (contains line _); [discriminate | apply IH, H].
Qed.

Lemma find_header_first (before following : list pystr) (header_line : pystr)
    (i : nat) :
  forallb lacks_header before = true ->
  contains header_line Test2Photos.header_phrase = true ->
  Test2Photos.find_header i (before ++ header_line :: following)
  = Some (i + length before).
Proof.
  intros Hbefore Hline. revert i.
  induction before as [| line before IH]; intros i;
    cbn [app forallb Test2Photos.find_header length] in *.
  - rewrite Hline. f_equal. lia.
  - apply andb_prop in Hbefore as [Hl Hbefore]. unfold lacks_header in Hl.
    destruct (contains line _); [discriminate |].
    rewrite IH by exact Hbefore. f_equal. lia.
Qed.

Lemma first_valid_after_find (before following : list pystr)
    (header_line : pystr) :
  Test2Photos.first_valid_after (before ++ header_line :: following)
    (length before) [1; 2]
  = List.find acceptable_name (List.map strip (take 2 following)).
Proof.
  cbn [Test2Photos.first_valid_after].
  assert (Hnth : forall k,
            nth_error (before ++ header_line :: following) (length before + S k)
            = nth_error following k).
  { intros k. rewrite nth_error_app2 by lia.
    replace (length before + S k - length before) with (S k) by lia.
    reflexivity. }
  rewrite !Hnth.
  destruct following as [| a [| b following]];
    cbn [nth_error take firstn List.map find];
    rewrite ?is_valid_name_acceptable.
  - reflexivity.
  - destruct (acceptable_name (strip a)); reflexivity.
  - destruct (acceptable_name (strip a)); [reflexivity |].
    rewrite ?is_valid_name_acceptable.
    destruct (acceptable_name (strip b)); reflexivity.
Qed.

Lemma first_valid_after_acceptable (lines : list pystr) (h : nat)
    (offsets : list nat) (m : pystr) :
  Test2Photos.first_valid_after lines h offsets = Some m ->
  acceptable_name m = true.
Proof.
  induction offsets as [| i offsets IH]; [discriminate |].
  cbn [Test2Photos.first_valid_after].
  destruct (nth_error lines (h + i)) as [line |]; [| exact IH].
  destruct (Test2Photos.is_valid_name (strip line)) eqn:E; [| exact IH].
  intros [= <-]. rewrite <- is_valid_name_acceptable. exact E.
Qed.

(** C9.  [extract_full_name] returns nothing when no line contains the
    header phrase; otherwise it looks at the one or two lines after the
    first header line, stripped, and returns the first that has two to
    four whitespace-separated tokens, only Arabic-block characters and
    whitespace, and no digit; whatever it returns contains no digit. *)
Theorem extract_full_name_spec (text : pystr) :
  (forallb lacks_header (split_on 10%N text) = true ->
   Test2Photos.extract_full_name text = None)
  /\ (forall before header_line following,
        split_on 10%N text = before ++ header_line :: following ->
        forallb lacks_header before = true ->
        contains header_line Test2Photos.header_phrase = true ->
        Test2Photos.extract_full_name text
        = List.find acceptable_name (List.map strip (take 2 following)))
  /\ (forall m,
        Test2Photos.extract_full_name text = Some m ->
        acceptable_name m = true /\ existsb is_digit m = false).
Proof.
  split; [| split].
  - intros H. unfold Test2Photos.extract_full_name.
    destruct text as [| c text]; [reflexivity |].
    cbv zeta. rewrite (find_header_none _ _ H). reflexivity.
  - intros before header_line following Hsplit Hbefore Hline.
    unfold Test2Photos.extract_full_name.
    destruct text as [| c text].
    + cbn in Hsplit. destruct before as [| l before].
      * injection Hsplit as <- _. vm_compute in Hline. discriminate.
      * injection Hsplit as _ Hnil. destruct before; discriminate.
    + cbv zeta. rewrite Hsplit.
      rewrite (find_header_first _ _ _ 0 Hbefore Hline). cbn [Nat.add].
      apply first_valid_after_find.
  - intros m H. unfold Test2Photos.extract_full_name in H.
    destruct text as [| c text]; [discriminate |]. cbv zeta in H.
    destruct (Test2Photos.find_header 0 _) as [h |]; [| discriminate].
    pose proof (first_valid_after_acceptable _ _ _ _ H) as Hacc.
    split; [exact Hacc |]. unfold acceptable_name in Hacc.
    apply andb_prop in Hacc as [_ Hd]. apply negb_true_iff, Hd.
Qed.

Lemma extract_full_name_spec_witness :
  split_on 10%N card_text = [] ++ Test2Photos.header_phrase :: [sample_name]
  /\ forallb lacks_header [] = true
  /\ contains Test2Photos.header_phrase Test2Photos.header_phrase = true
  /\ Test2Photos.extract_full_name card_text = Some sample_name
  /\ Test2Photos.extract_full_name card_text_with_digit = None
  /\ Test2Photos.extract_full_name latin_card_text = None.
Proof.
  assert (H1 : split_on 10%N card_text
               = [] ++ Test2Photos.header_phrase :: [sample_name])
    by (vm_compute; reflexivity).
  assert (H3 : contains Test2Photos.header_phrase Test2Photos.header_phrase = true)
    by (vm_compute; reflexivity).
  split; [exact H1 |]. split; [reflexivity |]. split; [exact H3 |]. split.
  - rewrite (proj1 (proj2 (extract_full_name_spec card_text))
               [] Test2Photos.header_phrase [sample_name] H1 eq_refl H3).
    vm_compute; reflexivity.
  - split; vm_compute; reflexivity.
Defined.

(** ** The date pattern *)

Lemma is_decimal_not_slash (c : char) :
  is_decimal c = true -> char_eqb c 47%N = false.
Proof.
  intros H. unfold char_eqb. destruct (N.eqb_spec c 47) as [-> |]; [| reflexivity].
  vm_compute in H. discriminate.
Qed.

Lemma field_len_last (t : pystr) (r : nat) :
  field_len t = Some r ->
  exists d, t !! (r - 1) = Some d /\ is_decimal d = true.
Proof.
  unfold field_len. destruct t as [| a [| b t]]; [discriminate | |].
  - destruct (is_decimal a) eqn:Ha; [| discriminate].
    intros [= <-]. exists a. split; [reflexivity | exact Ha].
  - destruct (is_decimal a) eqn:Ha; [| discriminate].
    destruct (is_decimal b) eqn:Hb.
    + assert (Some 2 = Some r -> exists d, (a :: b :: t) !! (r - 1) = Some d
                                          /\ is_decimal d = true).
      { intros [= <-]. exists b. split; [reflexivity | exact Hb]. }
      destruct t as [| c t]; [assumption |].
      destruct (is_decimal c); [discriminate | assumption].
    + intros [= <-]. exists a. split; [reflexivity | exact Ha].
Qed.

Lemma field_len_bound (t : pystr) (r : nat) :
  field_len t = Some r -> 1 <= r <= 2 /\ r <= length t.
Proof.
  unfold field_len. destruct t as [| a [| b t]]; [discriminate | |].
  - destruct (is_decimal a); [| discriminate]. intros [= <-]. cbn. lia.
  - destruct (is_decimal a); [| discriminate].
    destruct (is_decimal b); [| intros [= <-]; cbn; lia].
    destruct t as [| c t]; [intros [= <-]; cbn; lia |].
    destruct (is_decimal c); [discriminate | intros [= <-]; cbn; lia].
Qed.

(** [\d{1,2}] before a continuation that cannot go on in front of a
    digit takes all the digits there are, if they are one or two. *)
Lemma rep_field (prev : option char) (s : pystr) (k : cont) :
  fails_before_digit k ->
  rep (mt (Cls is_decimal)) 1 2 prev s k =
  match field_len s with
  | Some r => k (s !! (r - 1)) (drop r s)
  | None => None
  end.
Proof.
  intros Hk. cbn [rep Nat.pred]. rewrite mt_cls. unfold field_len.
  destruct s as [| a s]; [reflexivity |].
  destruct (is_decimal a) eqn:Ha; [| reflexivity].
  rewrite mt_cls. destruct s as [| b s].
  - cbn [lookup list_lookup drop skipn Nat.sub]. destruct (k (Some a) []); reflexivity.
  - destruct (is_decimal b) eqn:Hb.
    + assert (Hback : k (Some a) (b :: s) = None).
      { apply Hk; [apply is_decimal_word, Ha | exact Hb]. }
      rewrite Hback.
      destruct s as [| c s].
      * cbn. destruct (k (Some b) []); reflexivity.
      * destruct (is_decimal c) eqn:Hc.
        -- rewrite (Hk (Some b) c s (is_decimal_word b Hb) Hc). reflexivity.
        -- cbn. destruct (k (Some b) (c :: s)); reflexivity.
    + cbn. destruct (k (Some a) (b :: s)); reflexivity.
Qed.

Lemma boundary_fails_before_digit :
  fails_before_digit (fun p s => mt Bnd p s (fun _ rest => Some rest)).
Proof.
  intros p c s Hp Hc. rewrite mt_bnd. unfold at_boundary.
  cbn [head word_opt]. rewrite Hp, (is_decimal_word c Hc). reflexivity.
Qed.

Lemma boundary_after_word (d : char) (u : pystr) :
  is_word d = true ->
  mt Bnd (Some d) u (fun _ rest => Some rest) =
  if clear_of is_word (head u) then Some u else None.
Proof.
  intros Hd. rewrite mt_bnd. unfold at_boundary. cbn [word_opt]. rewrite Hd.
  destruct (head u) as [c |]; cbn [word_opt clear_of xorb negb]; [| reflexivity].
  destruct (is_word c); reflexivity.
Qed.

Lemma mt_re_date_tail (m : char) (t : pystr) :
  is_word m = true ->
  mt re_date_tail (Some m) t (fun _ rest => Some rest) =
  match day_len t with
  | Some r2 => Some (drop (S r2) t)
  | None => if clear_of is_word (head t) then Some t else None
  end.
Proof.
  intros Hm. unfold re_date_tail. rewrite mt_seq, mt_opt, mt_seq, mt_chr.
  rewrite (boundary_after_word m t Hm). unfold day_len.
  destruct t as [| sl u]; [reflexivity |].
  destruct (char_eqb sl 47); [| reflexivity].
  rewrite mt_rep, rep_field by apply boundary_fails_before_digit.
  destruct (field_len u) as [r2 |] eqn:Hr2; [| reflexivity].
  destruct (field_len_last u r2 Hr2) as [d [-> Hd]].
  rewrite (boundary_after_word d _ (is_decimal_word d Hd)).
  destruct (clear_of is_word (head (drop r2 u))); reflexivity.
Qed.

Lemma re_date_tail_fails_before_digit :
  fails_before_digit (fun p s => mt re_date_tail p s (fun _ rest => Some rest)).
Proof.
  intros p c s Hp Hc. unfold re_date_tail.
  rewrite mt_seq, mt_opt, mt_seq, mt_chr, (is_decimal_not_slash c Hc).
  apply boundary_fails_before_digit; assumption.
Qed.

Lemma day_len_bound (t : pystr) (r : nat) :
  day_len t = Some r -> 1 <= r <= 2 /\ S r <= length t.
Proof.
  unfold day_len. destruct t as [| sl u]; [discriminate |].
  destruct (char_eqb sl 47); [| discriminate].
  destruct (field_len u) as [r2 |] eqn:E; [| discriminate].
  destruct (clear_of is_word _); [| discriminate]. intros [= <-].
  apply field_len_bound in E. cbn. lia.
Qed.

Lemma date_len_bound (prev : option char) (s : pystr) (n : nat) :
  date_len prev s = Some n -> 6 <= n <= 10 /\ n <= length s.
Proof.
  unfold date_len. destruct s as [| y1 [| y2 [| y3 [| y4 [| sl t]]]]];
    try discriminate.
  destruct (_ && _); [| discriminate].
  destruct (field_len t) as [r1 |] eqn:E1; [| discriminate].
  pose proof (field_len_bound _ _ E1) as [H1 H1'].
  destruct (day_len (drop r1 t)) as [r2 |] eqn:E2.
  - intros [= <-]. pose proof (day_len_bound _ _ E2) as [H2 H2'].
    rewrite length_drop in H2'. cbn [length]. lia.
  - destruct (clear_of is_word _); [| discriminate]. intros [= <-].
    cbn [length]. lia.
Qed.

(** The matcher on the date pattern computes [date_len]. *)
Lemma match_at_re_date (prev : option char) (s : pystr) :
  match_at re_date prev s = date_len prev s.
Proof.
  assert (Hmt : mt re_date prev s (fun _ rest => Some rest)
                = match date_len prev s with
                  | Some n => Some (drop n s)
                  | None => None
                  end).
  { unfold re_date. fold re_date_tail. rewrite mt_seq, mt_bnd.
    unfold date_len.
    destruct s as [| y1 [| y2 [| y3 [| y4 [| sl t]]]]];
      try (destruct (at_boundary prev _); [| reflexivity];
           rewrite mt_seq, mt_rep, rep_cls_exact;
           destruct (_ && _); reflexivity).
    destruct (at_boundary prev _); [| reflexivity]. cbn [andb].
    rewrite mt_seq, mt_rep, rep_cls_exact.
    cbn [length Nat.leb take firstn forallb drop skipn andb].
    replace (4 <=? S (S (S (S (S (length t)))))) with true by reflexivity.
    cbn [andb].
    destruct (is_decimal y1); [| reflexivity]. cbn [andb].
    destruct (is_decimal y2); [| reflexivity]. cbn [andb].
    destruct (is_decimal y3); [| reflexivity]. cbn [andb].
    destruct (is_decimal y4); [| reflexivity]. cbn [andb].
    rewrite mt_seq, mt_chr. destruct (char_eqb sl 47); [| reflexivity].
    rewrite mt_seq, mt_rep, rep_field by apply re_date_tail_fails_before_digit.
    destruct (field_len t) as [r1 |] eqn:Hr1; [| reflexivity].
    destruct (field_len_last t r1 Hr1) as [m [-> Hm]].
    rewrite (mt_re_date_tail m _ (is_decimal_word m Hm)).
    destruct (day_len (drop r1 t)) as [r2 |].
    - f_equal. rewrite drop_drop.
      replace (6 + r1 + r2) with (5 + (r1 + S r2)) by lia. reflexivity.
    - destruct (clear_of is_word _); reflexivity. }
  unfold match_at. rewrite Hmt.
  destruct (date_len prev s) as [n |] eqn:E; [| reflexivity].
  apply date_len_bound in E. rewrite length_drop. f_equal. lia.
Qed.

(** ** Date tokens and the longest one at the cursor *)

Lemma is_decimal_slash : is_decimal 47%N = false.
Proof. vm_compute. reflexivity. Qed.

Lemma is_word_slash : is_word 47%N = false.
Proof. vm_compute. reflexivity. Qed.

Lemma not_word_not_decimal (c : char) : is_word c = false -> is_decimal c = false.
Proof.
  intros H. destruct (is_decimal c) eqn:E; [| reflexivity].
  rewrite (is_decimal_word c E) in H. discriminate.
Qed.

Lemma slash_eq (c : char) : char_eqb c 47%N = true -> c = 47%N.
Proof. apply N.eqb_eq. Qed.

Lemma clear_word_head (t : pystr) :
  clear_of is_word (head t) = true ->
  t = [] \/ exists x t', t = x :: t' /\ is_word x = false.
Proof.
  destruct t as [| x t]; [left; reflexivity |]. cbn [head clear_of].
  intros H. right. exists x, t. split; [reflexivity |].
  apply negb_true_iff, H.
Qed.

Lemma field_len_inv (t : pystr) (r : nat) :
  field_len t = Some r ->
  (r = 1 /\ exists a t', t = a :: t' /\ is_decimal a = true
                        /\ clear_of is_decimal (head t') = true)
  \/ (r = 2 /\ exists a b t', t = a :: b :: t' /\ is_decimal a = true
                             /\ is_decimal b = true
                             /\ clear_of is_decimal (head t') = true).
Proof.
  unfold field_len. destruct t as [| a [| b t]]; [discriminate | |].
  - destruct (is_decimal a) eqn:Ha; [| discriminate]. intros [= <-].
    left. split; [reflexivity |]. exists a, []. repeat split. exact Ha.
  - destruct (is_decimal a) eqn:Ha; [| discriminate].
    destruct (is_decimal b) eqn:Hb.
    + assert (Hshape : clear_of is_decimal (head t) = true -> Some 2 = Some r ->
                (r = 1 /\ exists a0 t', a :: b :: t = a0 :: t' /\ is_decimal a0 = true
                          /\ clear_of is_decimal (head t') = true)
                \/ (r = 2 /\ exists a0 b0 t', a :: b :: t = a0 :: b0 :: t'
                        /\ is_decimal a0 = true /\ is_decimal b0 = true
                        /\ clear_of is_decimal (head t') = true)).
      { intros Hc [= <-]. right. split; [reflexivity |].
        exists a, b, t. repeat split; assumption. }
      destruct t as [| c t]; [apply Hshape; reflexivity |].
      destruct (is_decimal c) eqn:Hc; [discriminate |].
      apply Hshape. cbn [head clear_of]. rewrite Hc. reflexivity.
    + intros [= <-]. left. split; [reflexivity |]. exists a, (b :: t).
      repeat split; [exact Ha |]. cbn [head clear_of]. rewrite Hb. reflexivity.
Qed.

Lemma field_len_one (a : char) (t : pystr) :
  is_decimal a = true -> clear_of is_decimal (head t) = true ->
  field_len (a :: t) = Some 1.
Proof.
  intros Ha Ht. unfold field_len. rewrite Ha.
  destruct t as [| b t]; [reflexivity |]. cbn [head clear_of] in Ht.
  apply negb_true_iff in Ht. rewrite Ht. reflexivity.
Qed.

Lemma field_len_two (a b : char) (t : pystr) :
  is_decimal a = true -> is_decimal b = true ->
  clear_of is_decimal (head t) = true ->
  field_len (a :: b :: t) = Some 2.
Proof.
  intros Ha Hb Ht. unfold field_len. rewrite Ha, Hb.
  destruct t as [| c t]; [reflexivity |]. cbn [head clear_of] in Ht.
  apply negb_true_iff in Ht. rewrite Ht. reflexivity.
Qed.

Lemma clear_word_decimal (o : option char) :
  clear_of is_word o = true -> clear_of is_decimal o = true.
Proof.
  destruct o as [c |]; [| reflexivity]. cbn [clear_of].
  intros H. apply negb_true_iff in H.
  rewrite (not_word_not_decimal c H). reflexivity.
Qed.

(** ** Date tokens: inversion by cases *)

Lemma slash_not_decimal (c : char) : char_eqb c 47%N = true -> is_decimal c = false.
Proof. intros ->%slash_eq. apply is_decimal_slash. Qed.

Lemma slash_not_word (c : char) : char_eqb c 47%N = true -> is_word c = false.
Proof. intros ->%slash_eq. apply is_word_slash. Qed.

Ltac split_andb :=
  repeat match goal with
         | H : _ && _ = true |- _ => apply andb_prop in H as [? ?]
         end.

Ltac saturate :=
  repeat match goal with
         | H : is_decimal ?c = true |- _ =>
             lazymatch goal with
             | _ : is_word c = true |- _ => fail
             | _ => pose proof (is_decimal_word c H);
                    pose proof (is_decimal_not_slash c H)
             end
         | H : char_eqb ?c 47%N = true |- _ =>
             lazymatch goal with
             | _ : is_word c = false |- _ => fail
             | _ => pose proof (slash_not_word c H)
             end
         | H : is_word ?c = false |- _ =>
             lazymatch goal with
             | _ : is_decimal c = false |- _ => fail
             | _ => pose proof (not_word_not_decimal c H)
             end
         end.

Ltac class_rw :=
  repeat match goal with
         | H : is_decimal ?c = _ |- context [is_decimal ?c] => rewrite H
         | H : is_word ?c = _ |- context [is_word ?c] => rewrite H
         | H : char_eqb ?c 47%N = _ |- context [char_eqb ?c 47%N] => rewrite H
         end.

Ltac open_tail :=
  repeat match goal with
         | |- context [match ?l with [] => _ | _ :: _ => _ end] =>
             is_var l; destruct l
         end.


Lemma day_len_inv (t : pystr) (r : nat) :
  day_len t = Some r ->
  exists sl u, t = sl :: u /\ char_eqb sl 47%N = true /\ field_len u = Some r
               /\ clear_of is_word (head (drop r u)) = true.
Proof.
  unfold day_len. destruct t as [| sl u]; [discriminate |].
  destruct (char_eqb sl 47) eqn:Hsl; [| discriminate].
  destruct (field_len u) as [r2 |] eqn:E; [| discriminate].
  destruct (clear_of is_word _) eqn:Hc; [| discriminate]. intros [= <-].
  exists sl, u. repeat split; assumption.
Qed.

Ltac crunch_none :=
  cbn [lookup list_lookup drop skipn Nat.sub app];
  unfold date_len; open_tail; try reflexivity;
  unfold at_boundary; cbn [head word_opt]; saturate; class_rw;
  cbn [xorb andb negb]; try reflexivity.

Ltac offsets j :=
  destruct j as [| j];
  [ first [exfalso; lia | crunch_none]
  | first [exfalso; lia | offsets j] ].

Lemma date_len_inside (prev : option char) (s : pystr) (n j : nat) :
  date_len prev s = Some n -> 0 < j < n ->
  date_len (s !! (j - 1)) (drop j s) = None.
Proof.
  intros H Hj. unfold date_len in H.
  destruct s as [| y1 [| y2 [| y3 [| y4 [| sl t]]]]]; try discriminate.
  destruct (_ && _) eqn:Hguard; [| discriminate]. split_andb.
  destruct (field_len t) as [r1 |] eqn:E1; [| discriminate].
  apply field_len_inv in E1
    as [[-> (m1 & t' & -> & Hm1 & Ht')] | [-> (m1 & m2 & t' & -> & Hm1 & Hm2 & Ht')]];
    cbn [drop skipn] in H; rewrite ?drop_0 in H.
  all: destruct (day_len t') as [r2 |] eqn:E2;
    [ apply day_len_inv in E2 as (sl2 & u & -> & Hsl2 & E3 & Hu);
      apply field_len_inv in E3
        as [[-> (d1 & u' & -> & Hd1 & Hu')]
           | [-> (d1 & d2 & u' & -> & Hd1 & Hd2 & Hu')]];
      cbn [drop skipn] in Hu; rewrite ?drop_0 in Hu;
      apply clear_word_head in Hu as [-> | (x & u'' & -> & Hx)]
    | destruct (clear_of is_word (head t')) eqn:Hc; [| discriminate];
      apply clear_word_head in Hc as [-> | (x & u'' & -> & Hx)] ].
  all: injection H as <-.
  all: offsets j.
Qed.


Lemma at_boundary_cons (prev : option char) (c : char) (s : pystr) :
  at_boundary prev (c :: s) = xorb (word_opt prev) (is_word c).
Proof. reflexivity. Qed.

Lemma boundary_after_word_clear (d : char) (rest : pystr) :
  is_word d = true ->
  at_boundary (Some d) rest = clear_of is_word (head rest).
Proof.
  intros Hd. unfold at_boundary. cbn [word_opt]. rewrite Hd.
  destruct (head rest); reflexivity.
Qed.

Lemma day_len_intro (sl : char) (u : pystr) (r : nat) :
  char_eqb sl 47%N = true -> field_len u = Some r ->
  clear_of is_word (head (drop r u)) = true ->
  day_len (sl :: u) = Some r.
Proof. intros Hsl Hu Hc. unfold day_len. rewrite Hsl, Hu, Hc. reflexivity. Qed.

(** The longest token at the cursor is a token. *)
Lemma date_len_token (prev : option char) (s : pystr) (n : nat) :
  date_len prev s = Some n -> token_here prev s n = true.
Proof.
  intros H. unfold date_len in H.
  destruct s as [| y1 [| y2 [| y3 [| y4 [| sl t]]]]]; try discriminate.
  destruct (_ && _) eqn:Hguard; [| discriminate]. split_andb.
  destruct (field_len t) as [r1 |] eqn:E1; [| discriminate].
  apply field_len_inv in E1
    as [[-> (m1 & t' & -> & Hm1 & Ht')] | [-> (m1 & m2 & t' & -> & Hm1 & Hm2 & Ht')]];
    cbn [drop skipn] in H; rewrite ?drop_0 in H.
  all: destruct (day_len t') as [r2 |] eqn:E2;
    [ apply day_len_inv in E2 as (sl2 & u & -> & Hsl2 & E3 & Hu);
      apply field_len_inv in E3
        as [[-> (d1 & u' & -> & Hd1 & Hu')]
           | [-> (d1 & d2 & u' & -> & Hd1 & Hd2 & Hu')]];
      cbn [drop skipn] in Hu; rewrite ?drop_0 in Hu
    | destruct (clear_of is_word (head t')) eqn:Hc; [| discriminate] ].
  all: injection H as <-.
  all: unfold token_here;
    cbn [length Nat.leb plus take firstn drop skipn];
    rewrite ?take_0, ?drop_0;
    cbn [date_text month_day after fold_left];
    saturate; class_rw; cbn [andb orb].
  all: match goal with
       | H : at_boundary _ _ = true |- _ => rewrite H
       end; cbn [andb].
  all: rewrite boundary_after_word_clear by assumption; assumption.
Qed.


Lemma token_here_parts (prev : option char) (s : pystr) (n : nat) :
  token_here prev s n = true ->
  n <= length s /\ date_text (take n s) = true /\ at_boundary prev s = true
  /\ at_boundary (after prev (take n s)) (drop n s) = true.
Proof.
  unfold token_here. intros H. split_andb.
  repeat split; try assumption. apply Nat.leb_le. assumption.
Qed.

Ltac solve_side :=
  first [ assumption | cbn [head clear_of]; class_rw; reflexivity ].

Ltac solve_day :=
  first [ assumption
        | apply field_len_two; solve_side
        | apply field_len_one; solve_side
        | cbn [drop skipn]; rewrite ?drop_0; assumption ].

(** Every token at the cursor is covered by the longest one. *)
Lemma token_date_len (prev : option char) (s : pystr) (n : nat) :
  token_here prev s n = true ->
  exists n', date_len prev s = Some n' /\ n <= n'.
Proof.
  intros H. apply token_here_parts in H as (Hn & Ht & Hb & He).
  rewrite <- (take_drop n s) in Hb |- *.
  assert (Hlen : length (take n s) = n) by (apply length_take_le, Hn).
  revert Ht Hb He Hlen. generalize (drop n s) as rest.
  generalize (take n s) as t. clear Hn s. intros t rest Ht Hb He Hlen.
  destruct t as [| y1 [| y2 [| y3 [| y4 [| sl [| c1 [| c2 [| c3 [| c4 [| c5
    [| c6 t]]]]]]]]]]];
    cbn [date_text month_day] in Ht; try discriminate.
  all: split_andb.
  all: try match goal with
           | H : _ || _ = true |- _ => apply orb_prop in H as [H | H]; split_andb
           end.
  all: try discriminate.
  all: cbn [after fold_left] in He;
    rewrite boundary_after_word_clear in He by (apply is_decimal_word; assumption).
  all: pose proof (clear_word_decimal _ He) as Hd.
  all: cbn [length] in Hlen; subst n.
  all: unfold date_len; cbn [app]; cbn [app] in Hb; rewrite Hb;
    saturate; class_rw; cbn [andb].
  all: first [ rewrite field_len_two by solve_side
             | rewrite field_len_one by solve_side ].
  all: cbn [drop skipn]; rewrite ?drop_0.
  all: try match goal with
           | |- context [day_len (?sl :: ?u)] =>
               first [ rewrite (day_len_intro sl u 2) by solve_day
                     | rewrite (day_len_intro sl u 1) by solve_day ]
           end.
  all: try (eexists; split; [reflexivity | cbn; lia]).
  all: destruct (day_len rest);
    [| rewrite He]; eexists; (split; [reflexivity | cbn; lia]).
Qed.

Lemma date_text_length (t : pystr) :
  date_text t = true -> 6 <= length t <= 10.
Proof.
  destruct t as [| y1 [| y2 [| y3 [| y4 [| sl [| c1 [| c2 [| c3 [| c4 [| c5
    [| c6 t]]]]]]]]]]];
    cbn [date_text month_day length]; intros H; split_andb;
    try discriminate; lia.
Qed.

Lemma token_here_length (prev : option char) (s : pystr) (n : nat) :
  token_here prev s n = true -> 6 <= n <= 10.
Proof.
  intros H. apply token_here_parts in H as (Hn & Ht & _).
  apply date_text_length in Ht. rewrite length_take_le in Ht by exact Hn.
  exact Ht.
Qed.

(** ** Stripping the dates *)

Lemma in_date_token_spec (s : pystr) (i : nat) :
  in_date_token s i = true <->
  exists p n, p <= i /\ i < p + n /\ date_token_at s p n = true.
Proof.
  unfold in_date_token. split.
  - intros H. apply existsb_exists in H as (p & Hp & H).
    apply existsb_exists in H as (n & _ & H).
    apply andb_prop in H as [Ht Hi]. apply Nat.ltb_lt in Hi.
    apply in_seq in Hp. exists p, n. repeat split; [lia | exact Hi | exact Ht].
  - intros (p & n & Hp & Hi & Ht).
    apply existsb_exists. exists p. split; [apply in_seq; lia |].
    apply existsb_exists. exists n. split.
    + apply in_seq. pose proof (token_here_length _ _ _ Ht). lia.
    + rewrite Ht. apply Nat.ltb_lt in Hi. rewrite Hi. reflexivity.
Qed.

Lemma date_len_at_token (s : pystr) (p n : nat) :
  date_len_at s p = Some n -> date_token_at s p n = true.
Proof. apply date_len_token. Qed.

Lemma token_date_len_at (s : pystr) (p n : nat) :
  date_token_at s p n = true ->
  exists n', date_len_at s p = Some n' /\ n <= n'.
Proof. apply token_date_len. Qed.

(** No date token starts inside another one. *)
Lemma date_len_at_inside (s : pystr) (a n p : nat) :
  date_len_at s a = Some n -> a < p < a + n -> date_len_at s p = None.
Proof.
  intros H Hp. unfold date_len_at in *.
  pose proof (date_len_inside _ _ n (p - a) H ltac:(lia)) as Hin.
  rewrite drop_drop, lookup_drop in Hin.
  replace (a + (p - a)) with p in Hin by lia.
  replace (a + (p - a - 1)) with (p - 1) in Hin by lia.
  destruct p as [| p]; [lia |]. cbn [char_before].
  replace (S p - 1) with p in Hin by lia. exact Hin.
Qed.

Lemma scan_inv_skip (s : pystr) (p k : nat) :
  scan_inv s p (S k) ->
  in_date_token s p = true /\ scan_inv s (S p) k.
Proof.
  intros [Hend Hcur]. destruct (Hcur ltac:(lia)) as (a & n & Ha & Ht & Han).
  split.
  - apply in_date_token_spec. exists a, n. repeat split; [lia | lia | exact Ht].
  - split.
    + intros a' n' Ha' Ht'. destruct (Nat.eq_dec a' p) as [-> |].
      * exfalso. apply token_date_len_at in Ht as (n0 & H0 & Hn0).
        apply token_date_len_at in Ht' as (n1 & H1 & _).
        rewrite (date_len_at_inside s a n0 p H0 ltac:(lia)) in H1. discriminate.
      * specialize (Hend a' n' ltac:(lia) Ht'). lia.
    + intros Hk. exists a, n. repeat split; [lia | exact Ht | lia].
Qed.

Lemma scan_inv_match (s : pystr) (p n : nat) :
  scan_inv s p 0 -> date_len_at s p = Some (S n) ->
  in_date_token s p = true /\ scan_inv s (S p) n.
Proof.
  intros [Hend _] H. pose proof (date_len_at_token _ _ _ H) as Ht. split.
  - apply in_date_token_spec. exists p, (S n). repeat split; [lia | lia | exact Ht].
  - split.
    + intros a' n' Ha' Ht'. destruct (Nat.eq_dec a' p) as [-> |].
      * apply token_date_len_at in Ht' as (n1 & H1 & Hn1).
        rewrite H in H1. injection H1 as <-. lia.
      * specialize (Hend a' n' ltac:(lia) Ht'). lia.
    + intros Hn. exists p, (S n). repeat split; [lia | exact Ht | lia].
Qed.

Lemma scan_inv_keep (s : pystr) (p : nat) :
  scan_inv s p 0 -> date_len_at s p = None ->
  in_date_token s p = false /\ scan_inv s (S p) 0.
Proof.
  intros [Hend _] H.
  assert (Hnone : forall n, date_token_at s p n = true -> False).
  { intros n Ht. apply token_date_len_at in Ht as (n' & H' & _).
    rewrite H in H'. discriminate. }
  split.
  - destruct (in_date_token s p) eqn:E; [| reflexivity]. exfalso.
    apply in_date_token_spec in E as (a & n & Ha & Hn & Ht).
    destruct (Nat.eq_dec a p) as [-> |]; [apply (Hnone n Ht) |].
    specialize (Hend a n ltac:(lia) Ht). lia.
  - split; [| lia].
    intros a n Ha Ht. destruct (Nat.eq_dec a p) as [-> |];
      [destruct (Hnone n Ht) |].
    specialize (Hend a n ltac:(lia) Ht). lia.
Qed.

Lemma re_sub_date_scan (s : pystr) (m : nat) :
  forall p k,
    p + m = length s ->
    scan_inv s p k ->
    re_sub_go re_date [] k (char_before None s p) (drop p s)
    = keep_from (fun i => negb (in_date_token s i)) p (drop p s).
Proof.
  induction m as [| m IH]; intros p k Hlen Hinv.
  - rewrite drop_ge by lia. reflexivity.
  - destruct (s !! p) as [c |] eqn:Hc;
      [| apply lookup_ge_None in Hc; lia].
    rewrite (drop_S _ _ _ Hc). cbn [re_sub_go keep_from].
    assert (Hprev : Some c = char_before None s (S p))
      by (cbn [char_before]; congruence).
    rewrite <- (drop_S _ _ _ Hc), match_at_re_date. fold (date_len_at s p).
    rewrite Hprev.
    destruct k as [| k].
    + destruct (date_len_at s p) as [[| n] |] eqn:E.
      * apply date_len_bound in E. lia.
      * destruct (scan_inv_match s p n Hinv E) as [-> Hinv'].
        cbn [app negb]. apply IH; [lia | exact Hinv'].
      * destruct (scan_inv_keep s p Hinv E) as [-> Hinv']. cbn [negb].
        f_equal. apply IH; [lia | exact Hinv'].
    + destruct (scan_inv_skip s p k Hinv) as [-> Hinv']. cbn [negb].
      apply IH; [lia | exact Hinv'].
Qed.

Lemma strip_dates_keep (s : pystr) :
  ProcessLogic.strip_dates s
  = keep_from (fun i => negb (in_date_token s i)) 0 s.
Proof.
  unfold ProcessLogic.strip_dates, re_sub.
  apply (re_sub_date_scan s (length s) 0 0); [reflexivity |].
  split; [intros a n Ha; lia | lia].
Qed.

(** C5.  The text on which strategies A and B run is the normalized text
    without the characters that lie inside a whole-token date (four
    decimal digits, a slash, one or two digits and optionally a slash and
    one or two digits, with a word boundary on both sides), all other
    characters being kept in order; on the input
    "Issued 2019/05/12 ID 29901011234567" the function returns
    "29901011234567". *)
Theorem strip_dates_removes_date_tokens :
  (forall s : pystr,
      ProcessLogic.strip_dates s
      = keep_from (fun i => negb (in_date_token s i)) 0 s)
  /\ (forall (c : char) (text : pystr),
        ProcessLogic.extract_national_id (c :: text) =
        let cleaned :=
          ProcessLogic.strip_dates (ProcessLogic.normalize_digits (c :: text)) in
        match ProcessLogic.strategy_A cleaned with
        | Some m => Some m
        | None =>
            match ProcessLogic.strategy_B cleaned with
            | Some m => Some m
            | None =>
                ProcessLogic.strategy_C (ProcessLogic.normalize_digits (c :: text))
            end
        end)
  /\ ProcessLogic.strip_dates (ProcessLogic.normalize_digits issued_text)
     = py "Issued  ID 29901011234567"
  /\ ProcessLogic.extract_national_id issued_text = Some issued_id.
Proof.
  split; [apply strip_dates_keep |].
  split; [reflexivity |].
  split; vm_compute; reflexivity.
Qed.
(** * Further properties of the code *)

(** ** The normalizer *)

Lemma mapped_is_decimal (c : char) :
  is_arabic_indic c || is_extended_arabic_indic c = true -> is_decimal c = true.
Proof.
  unfold is_decimal, in_ranges, decimal_ranges. cbn [existsb fst snd].
  unfold is_arabic_indic, is_extended_arabic_indic.
  intros [H | H]%orb_prop; rewrite H; rewrite ?orb_true_r; reflexivity.
Qed.

Lemma western_of_decimal (c : char) :
  is_decimal (western_of c) = is_decimal c.
Proof.
  destruct (is_arabic_indic c || is_extended_arabic_indic c) eqn:E.
  - rewrite (mapped_is_decimal c E).
    apply is_western_decimal, western_of_mapped, E.
  - rewrite (western_of_unmapped c E). reflexivity.
Qed.

Lemma western_of_not_mapped (c : char) :
  is_arabic_indic (western_of c) || is_extended_arabic_indic (western_of c)
  = false.
Proof.
  destruct (is_arabic_indic c || is_extended_arabic_indic c) eqn:E.
  - pose proof (western_of_mapped c E) as H. unfold is_western in H.
    apply andb_prop in H as [H1 H2]. apply N.leb_le in H1, H2.
    unfold is_arabic_indic, is_extended_arabic_indic.
    destruct (N.leb_spec 1632 (western_of c)); [lia |].
    destruct (N.leb_spec 1776 (western_of c)); [lia |]. reflexivity.
  - rewrite (western_of_unmapped c E). exact E.
Qed.

Lemma western_of_newline (c : char) :
  char_eqb (western_of c) 10%N = char_eqb c 10%N.
Proof.
  destruct (is_arabic_indic c || is_extended_arabic_indic c) eqn:E.
  - pose proof (western_of_mapped c E) as H. unfold is_western in H.
    apply andb_prop in H as [H1 _]. apply N.leb_le in H1.
    unfold char_eqb.
    destruct (N.eqb_spec (western_of c) 10); [lia |].
    destruct (N.eqb_spec c 10) as [-> |]; [discriminate E | reflexivity].
  - rewrite (western_of_unmapped c E). reflexivity.
Qed.

Lemma split_on_map_western (s : pystr) :
  split_on 10%N (List.map western_of s)
  = List.map (List.map western_of) (split_on 10%N s).
Proof.
  induction s as [| c s IH]; [reflexivity |].
  cbn [List.map split_on]. rewrite western_of_newline, IH.
  destruct (char_eqb c 10); [reflexivity |].
  destruct (split_on 10%N s); reflexivity.
Qed.

(** X1.  After normalization no glyph of the two mapped numeral systems
    is left, the text has the same length, a character is a decimal
    digit exactly where it was one before, and the lines of the
    normalized text are the normalized lines of the text. *)
Theorem normalize_digits_structure (s : pystr) :
  forallb (fun c => negb (is_arabic_indic c || is_extended_arabic_indic c))
          (ProcessLogic.normalize_digits s) = true
  /\ length (ProcessLogic.normalize_digits s) = length s
  /\ List.map is_decimal (ProcessLogic.normalize_digits s)
     = List.map is_decimal s
  /\ split_on 10%N (ProcessLogic.normalize_digits s)
     = List.map ProcessLogic.normalize_digits (split_on 10%N s).
Proof.
  rewrite normalize_digits_map. repeat split.
  - apply forallb_forall. intros c [x [<- _]]%in_map_iff.
    rewrite western_of_not_mapped. reflexivity.
  - apply length_map.
  - rewrite List.map_map. apply List.map_ext. intros c. apply western_of_decimal.
  - rewrite split_on_map_western. apply List.map_ext. intros l.
    symmetry. apply normalize_digits_map.
Qed.

(** ** The extractor of the engine *)

Lemma normalize_digits_nil (s : pystr) :
  ProcessLogic.normalize_digits s = [] -> s = [].
Proof.
  rewrite normalize_digits_map. destruct s; [reflexivity | discriminate].
Qed.

Lemma normalize_digits_twice (s : pystr) :
  ProcessLogic.normalize_digits (ProcessLogic.normalize_digits s)
  = ProcessLogic.normalize_digits s.
Proof.
  rewrite !normalize_digits_map, List.map_map.
  apply List.map_ext. intros c. apply western_of_fixed.
Qed.

Lemma extract_national_id_normalized (text : pystr) :
  ProcessLogic.extract_national_id (ProcessLogic.normalize_digits text)
  = ProcessLogic.extract_national_id text.
Proof.
  destruct text as [| c text]; [reflexivity |].
  rewrite (extract_national_id_cascade (c :: text)) by discriminate.
  rewrite extract_national_id_cascade.
  - cbv zeta. rewrite normalize_digits_twice. reflexivity.
  - intros H. apply normalize_digits_nil in H. discriminate.
Qed.

(** X2.  The result depends on the text through its normalized form
    only: two texts that differ in the numeral system of their digits
    give the same answer. *)
Theorem extract_national_id_spelling (text text' : pystr) :
  ProcessLogic.normalize_digits text = ProcessLogic.normalize_digits text' ->
  ProcessLogic.extract_national_id text
  = ProcessLogic.extract_national_id text'.
Proof.
  intros H. rewrite <- (extract_national_id_normalized text), H.
  apply extract_national_id_normalized.
Qed.

Lemma extract_national_id_spelling_witness :
  ProcessLogic.normalize_digits arabic_indic_id
  = ProcessLogic.normalize_digits issued_id
  /\ ProcessLogic.extract_national_id arabic_indic_id
     = ProcessLogic.extract_national_id issued_id.
Proof.
  assert (H : ProcessLogic.normalize_digits arabic_indic_id
              = ProcessLogic.normalize_digits issued_id)
    by (vm_compute; reflexivity).
  split; [exact H |].
  apply (extract_national_id_spelling arabic_indic_id issued_id H).
Defined.

Lemma date_text_slash (t : pystr) : date_text t = true -> In 47%N t.
Proof.
  destruct t as [| y1 [| y2 [| y3 [| y4 [| sl rest]]]]];
    cbn [date_text]; try discriminate.
  intros H. apply andb_prop in H as [H _]. apply andb_prop in H as [_ H].
  apply slash_eq in H. subst sl. cbn. tauto.
Qed.

Lemma keep_from_all (keep : nat -> bool) (i : nat) (s : pystr) :
  (forall j, keep j = true) -> keep_from keep i s = s.
Proof.
  intros H. revert i. induction s as [| c s IH]; intros i; [reflexivity |].
  cbn [keep_from]. rewrite H, IH. reflexivity.
Qed.

(** A text without a slash has no date to strip. *)
Lemma strip_dates_no_slash (s : pystr) :
  ~ In 47%N s -> ProcessLogic.strip_dates s = s.
Proof.
  intros Hs. rewrite strip_dates_keep. apply keep_from_all. intros j.
  destruct (in_date_token s j) eqn:E; [| reflexivity]. exfalso.
  apply in_date_token_spec in E as (p & n & _ & _ & Ht).
  apply token_here_parts in Ht as (_ & Ht & _).
  apply Hs, (in_take_drop _ _ p n), date_text_slash, Ht.
Qed.

Lemma bare_id_extracted (m : pystr) :
  length m = 14 -> forallb is_decimal m = true ->
  starts_2_or_3 (ProcessLogic.normalize_digits m) = true ->
  ProcessLogic.extract_national_id m = Some (ProcessLogic.normalize_digits m).
Proof.
  intros Hlen Hdec H23.
  assert (Hne : m <> []) by (destruct m; [discriminate | discriminate]).
  rewrite extract_national_id_cascade by exact Hne. cbv zeta.
  set (p := ProcessLogic.normalize_digits m) in *.
  assert (Hp : forallb is_decimal p = true).
  { unfold p. rewrite normalize_digits_map. rewrite forallb_forall in Hdec.
    apply forallb_forall. intros c [x [<- Hx]]%in_map_iff.
    rewrite western_of_decimal. apply Hdec, Hx. }
  assert (Hplen : length p = 14).
  { unfold p. rewrite normalize_digits_map, length_map. exact Hlen. }
  assert (Hstrip : ProcessLogic.strip_dates p = p).
  { apply strip_dates_no_slash. intros Hin. rewrite forallb_forall in Hp.
    specialize (Hp _ Hin). rewrite is_decimal_slash in Hp. discriminate. }
  rewrite Hstrip.
  assert (HA : ProcessLogic.strategy_A p = Some (take 14 (drop 0 p))).
  { apply strategy_A_first; [| intros j Hj; lia].
    unfold standalone_at. rewrite drop_0. cbn [char_before clear_of].
    rewrite (id_here_intro p Hplen H23 Hp).
    rewrite (lookup_ge_None_2 p (0 + 14)) by lia. reflexivity. }
  rewrite HA, drop_0, firstn_all2 by lia. reflexivity.
Qed.

(** X3.  Fourteen digits on their own, the first of which normalizes to
    2 or 3, are returned in their normalized form; when they are written
    in the three known numeral systems the result is made of Western
    digits. *)
Theorem extract_national_id_bare (m : pystr) :
  length m = 14 -> forallb is_decimal m = true ->
  starts_2_or_3 (ProcessLogic.normalize_digits m) = true ->
  ProcessLogic.extract_national_id m = Some (ProcessLogic.normalize_digits m)
  /\ (forallb known_numeral m = true ->
      forallb is_western (ProcessLogic.normalize_digits m) = true).
Proof.
  intros Hlen Hdec H23. split; [apply bare_id_extracted; assumption |].
  intros Hk. rewrite normalize_digits_map. apply forallb_forall.
  rewrite forallb_forall in Hk, Hdec.
  intros c [x [<- Hx]]%in_map_iff. apply known_numeral_western.
  - apply Hk, Hx.
  - rewrite western_of_decimal. apply Hdec, Hx.
Qed.

Lemma extract_national_id_bare_witness :
  length arabic_indic_id = 14
  /\ forallb is_decimal arabic_indic_id = true
  /\ starts_2_or_3 (ProcessLogic.normalize_digits arabic_indic_id) = true
  /\ ProcessLogic.extract_national_id arabic_indic_id = Some issued_id.
Proof.
  assert (H1 : length arabic_indic_id = 14) by reflexivity.
  assert (H2 : forallb is_decimal arabic_indic_id = true)
    by (vm_compute; reflexivity).
  assert (H3 : starts_2_or_3 (ProcessLogic.normalize_digits arabic_indic_id)
               = true) by (vm_compute; reflexivity).
  split; [exact H1 |]. split; [exact H2 |]. split; [exact H3 |].
  rewrite (proj1 (extract_national_id_bare arabic_indic_id H1 H2 H3)).
  vm_compute; reflexivity.
Defined.

(** X4.  The extractor accepts its own output: what it returns, given
    back to it, is returned again. *)
Theorem extract_national_id_idempotent (text m : pystr) :
  ProcessLogic.extract_national_id text = Some m ->
  ProcessLogic.extract_national_id m = Some m.
Proof.
  intros H. destruct (extract_national_id_from _ _ H) as (Hlen & H23 & Hdec & Hin).
  assert (Hm : ProcessLogic.normalize_digits m = m).
  { rewrite normalize_digits_map. rewrite <- (map_id m) at 2.
    apply map_ext_in. intros c Hc. specialize (Hin c Hc).
    rewrite normalize_digits_map in Hin. apply in_map_iff in Hin as [x [<- _]].
    apply western_of_fixed. }
  rewrite <- Hm at 2. apply bare_id_extracted; [exact Hlen | exact Hdec |].
  rewrite Hm. exact H23.
Qed.

Lemma extract_national_id_idempotent_witness :
  ProcessLogic.extract_national_id issued_text = Some issued_id
  /\ ProcessLogic.extract_national_id issued_id = Some issued_id.
Proof.
  assert (H : ProcessLogic.extract_national_id issued_text = Some issued_id)
    by (vm_compute; reflexivity).
  split; [exact H |].
  apply (extract_national_id_idempotent issued_text issued_id H).
Defined.

(** ** Strategy B *)

Lemma adjacent_sevens_split (l : list pystr) (m : pystr) :
  ProcessLogic.adjacent_sevens l = Some m ->
  exists l1 a b l2,
    l = l1 ++ a :: b :: l2
    /\ ProcessLogic.adjacent_sevens (l1 ++ [a]) = None
    /\ length a = 7 /\ length b = 7
    /\ starts_2_or_3 (a ++ b) = true /\ m = a ++ b.
Proof.
  induction l as [| x l IH]; [discriminate |].
  cbn [ProcessLogic.adjacent_sevens]. destruct l as [| y l]; [discriminate |].
  destruct ((length x =? 7) && (length y =? 7) && startswith_2_or_3 (x ++ y))
    eqn:E.
  - intros [= <-]. apply andb_prop in E as [[Hx Hy]%andb_prop H23].
    apply Nat.eqb_eq in Hx, Hy. rewrite startswith_2_or_3_head in H23.
    exists [], x, y, l. repeat split; assumption.
  - intros H. destruct (IH H) as (l1 & a & b & l2 & Hl & Hnone & Hrest).
    exists (x :: l1), a, b, l2. split; [cbn; rewrite Hl; reflexivity |].
    split; [| exact Hrest].
    destruct l1 as [| z l1]; cbn [app] in *; injection Hl as <- Hl;
      cbn [ProcessLogic.adjacent_sevens]; rewrite E; exact Hnone.
Qed.


Lemma re_findall_digits_nil (s : pystr) :
  re_findall re_digits s = [] <-> forallb not_decimal s = true.
Proof.
  induction s as [| c s IH]; [split; reflexivity |].
  rewrite re_findall_digits_cons. cbn [forallb]. unfold not_decimal at 1.
  destruct (is_decimal c); cbn [negb andb]; [split; discriminate | exact IH].
Qed.

Lemma strategy_B_some (s m : pystr) :
  ProcessLogic.strategy_B s = Some m ->
  exists pre a mid b post,
    s = pre ++ a ++ mid ++ b ++ post
    /\ maximal_digit_run pre a (mid ++ b ++ post)
    /\ maximal_digit_run (pre ++ a ++ mid) b post
    /\ mid <> [] /\ forallb not_decimal mid = true
    /\ ProcessLogic.strategy_B (pre ++ a) = None
    /\ length a = 7 /\ length b = 7
    /\ starts_2_or_3 (a ++ b) = true /\ m = a ++ b.
Proof.
  unfold ProcessLogic.strategy_B. intros H.
  destruct (adjacent_sevens_split _ _ H)
    as (l1 & a & b & l2 & Hl & Hnone & Ha & Hb & H23 & ->).
  destruct (re_findall_digits_split (length s) s l1 a (b :: l2) (le_n _) Hl)
    as (pre & post0 & -> & Hmaxa & Hpre & Hpost0).
  destruct (re_findall_digits_split (length post0) post0 [] b l2 (le_n _) Hpost0)
    as (mid & post & -> & Hmaxb & Hmid & _).
  apply re_findall_digits_nil in Hmid.
  assert (Hne : mid <> []).
  { intros ->. destruct Hmaxa as (_ & _ & _ & Hc).
    destruct Hmaxb as (Hbne & Hbd & _). destruct b as [| d b]; [congruence |].
    cbn in Hc, Hbd. apply andb_prop in Hbd as [Hd _]. rewrite Hd in Hc.
    discriminate. }
  exists pre, a, mid, b, post. repeat split; try assumption;
    try apply Hmaxa; try apply Hmaxb.
  - rewrite !app_assoc, (after_app_nonempty None None) by exact Hne.
    apply Hmaxb.
  - rewrite <- (app_nil_r a).
    rewrite (re_findall_digits_app (length pre)), Hpre; [exact Hnone | lia |].
    destruct Hmaxa as (H1 & H2 & H3 & _). repeat split; assumption.
Qed.




(** ** What the extractor returns is in the text *)

Lemma re_sub_go_sublist (r : regex) (k : nat) (prev : option char) (s : pystr) :
  re_sub_go r [] k prev s `sublist_of` s.
Proof.
  revert k prev. induction s as [| c s IH]; intros k prev; [constructor |].
  cbn [re_sub_go]. destruct k as [| k]; [| apply sublist_cons, IH].
  destruct (match_at r prev (c :: s)) as [[| n] |]; cbn [app].
  - apply sublist_skip, IH.
  - apply sublist_cons, IH.
  - apply sublist_skip, IH.
Qed.

Lemma take_drop_sublist (s : pystr) (i n : nat) :
  take n (drop i s) `sublist_of` s.
Proof.
  transitivity (drop i s); [apply sublist_take | apply sublist_drop].
Qed.

Lemma extract_national_id_sublist (text m : pystr) :
  ProcessLogic.extract_national_id text = Some m ->
  m `sublist_of` ProcessLogic.normalize_digits text.
Proof.
  destruct text as [| c0 text]; [discriminate |].
  rewrite extract_national_id_cascade by discriminate. cbv zeta.
  set (p := ProcessLogic.normalize_digits (c0 :: text)).
  assert (Hstrip : ProcessLogic.strip_dates p `sublist_of` p)
    by apply re_sub_go_sublist.
  destruct (ProcessLogic.strategy_A _) as [a |] eqn:EA.
  { intros [= <-]. apply strategy_A_some in EA as (i & _ & _ & ->).
    etransitivity; [apply take_drop_sublist | exact Hstrip]. }
  destruct (ProcessLogic.strategy_B _) as [b |] eqn:EB.
  { intros [= <-]. etransitivity; [| exact Hstrip].
    apply strategy_B_some in EB
      as (pre & a & mid & b' & post & -> & _ & _ & _ & _ & _ & _ & _ & _ & ->).
    apply sublist_inserts_l, sublist_app; [reflexivity |].
    apply sublist_inserts_l, sublist_inserts_r. reflexivity. }
  intros H. apply strategy_C_some in H as (pre & run & post & i & -> & _ & _ & _ & _ & ->).
  apply sublist_inserts_l, sublist_inserts_r, take_drop_sublist.
Qed.

Lemma filter_sublist_length (p : char -> bool) (a b : pystr) :
  a `sublist_of` b -> length (List.filter p a) <= length (List.filter p b).
Proof.
  induction 1 as [| x l1 l2 _ IH | x l1 l2 _ IH]; cbn [List.filter].
  - lia.
  - destruct (p x); cbn [length]; lia.
  - destruct (p x); cbn [length]; lia.
Qed.

Lemma filter_all (p : char -> bool) (s : pystr) :
  forallb p s = true -> List.filter p s = s.
Proof.
  induction s as [| c s IH]; [reflexivity |]. cbn [forallb List.filter].
  intros [Hc Hs]%andb_prop. rewrite Hc, IH by exact Hs. reflexivity.
Qed.

Lemma filter_decimal_western (s : pystr) :
  length (List.filter is_decimal (List.map western_of s))
  = length (List.filter is_decimal s).
Proof.
  induction s as [| c s IH]; [reflexivity |]. cbn [List.map List.filter].
  rewrite western_of_decimal. destruct (is_decimal c); cbn [length]; lia.
Qed.

(** X6.  The value returned is made of characters of the normalized
    text, in the order in which they stand there; so a text with fewer
    than fourteen decimal digits yields nothing. *)
Theorem extract_national_id_in_text (text : pystr) :
  (forall m, ProcessLogic.extract_national_id text = Some m ->
             m `sublist_of` ProcessLogic.normalize_digits text)
  /\ (length (List.filter is_decimal text) < 14 ->
      ProcessLogic.extract_national_id text = None).
Proof.
  split; [apply extract_national_id_sublist |].
  intros Hfew. destruct (ProcessLogic.extract_national_id text) as [m |] eqn:E;
    [| reflexivity].
  exfalso. pose proof (extract_national_id_sublist _ _ E) as Hsub.
  destruct (extract_national_id_from _ _ E) as (Hlen & _ & Hdec & _).
  apply (filter_sublist_length is_decimal) in Hsub.
  rewrite (filter_all _ _ Hdec), normalize_digits_map, filter_decimal_western
    in Hsub.
  rewrite Hlen in Hsub. apply Nat.lt_nge in Hfew. apply Hfew, Hsub.
Qed.

Lemma extract_national_id_in_text_witness :
  length (List.filter is_decimal (py "born 1999/01, card 2990101")) < 14
  /\ ProcessLogic.extract_national_id (py "born 1999/01, card 2990101") = None.
Proof.
  assert (H : length (List.filter is_decimal (py "born 1999/01, card 2990101"))
              < 14) by (vm_compute; lia).
  split; [exact H |].
  apply (proj2 (extract_national_id_in_text _) H).
Defined.

(** ** The line-by-line extractor of test2photos.py *)

Lemma arabic_to_western_map_table :
  Test2Photos.arabic_to_western_map = ProcessLogic.translation_table.
Proof.
  unfold Test2Photos.arabic_to_western_map, ProcessLogic.translation_table.
  f_equal.
Qed.

Lemma translate_western (line : pystr) :
  Test2Photos.translate Test2Photos.arabic_to_western_map line
  = List.map western_of line.
Proof.
  unfold Test2Photos.translate. rewrite arabic_to_western_map_table.
  apply List.map_ext. intros c. apply translate_char_western.
Qed.

(** Joining the digit runs of a text gives its decimal digits. *)
Lemma concat_findall_digits (n : nat) :
  forall s, length s <= n ->
    List.concat (re_findall re_digits s) = List.filter is_decimal s.
Proof.
  induction n as [| n IH]; intros s Hlen.
  { destruct s; [reflexivity | cbn in Hlen; lia]. }
  destruct s as [| c s]; [reflexivity |].
  rewrite re_findall_digits_cons. cbn [List.filter].
  destruct (is_decimal c); [| apply IH; cbn in Hlen; lia].
  cbn [List.concat app]. f_equal.
  rewrite IH by (rewrite length_drop; cbn in Hlen; lia).
  set (k := leading is_decimal s).
  assert (Hs : List.filter is_decimal s
               = take k s ++ List.filter is_decimal (drop k s)).
  { rewrite <- (take_drop k s) at 1.
    rewrite List.filter_app. f_equal. apply filter_all, leading_take. }
  rewrite Hs. reflexivity.
Qed.

Lemma first_id_line_digits (line : pystr) :
  List.concat (re_findall re_digits
                 (Test2Photos.translate Test2Photos.arabic_to_western_map line))
  = line_digits line.
Proof.
  rewrite translate_western. apply (concat_findall_digits _ _ (le_n _)).
Qed.

Lemma first_id_line_unfold (line : pystr) (rest : list pystr) :
  Test2Photos.first_id_line (line :: rest) =
  if id_line line then Some (line_digits line)
  else Test2Photos.first_id_line rest.
Proof.
  cbn [Test2Photos.first_id_line]. cbv zeta.
  rewrite first_id_line_digits, startswith_2_or_3_head. reflexivity.
Qed.

Lemma first_id_line_some (lines : list pystr) (m : pystr) :
  Test2Photos.first_id_line lines = Some m <->
  exists before line following,
    lines = before ++ line :: following
    /\ forallb (fun l => negb (id_line l)) before = true
    /\ id_line line = true
    /\ m = line_digits line.
Proof.
  induction lines as [| l lines IH].
  - split; [discriminate |]. intros (before & ? & ? & H & _).
    destruct before; discriminate.
  - rewrite first_id_line_unfold. destruct (id_line l) eqn:E.
    + split.
      * intros [= <-]. exists [], l, lines. repeat split. exact E.
      * intros (before & line & following & Hl & Hb & Hline & ->).
        destruct before as [| l' before]; injection Hl as <- Hl;
          [reflexivity |].
        cbn in Hb. rewrite E in Hb. discriminate.
    + rewrite IH. split.
      * intros (before & line & following & -> & Hb & Hline & ->).
        exists (l :: before), line, following. repeat split; try assumption.
        cbn. rewrite E. exact Hb.
      * intros (before & line & following & Hl & Hb & Hline & ->).
        destruct before as [| l' before]; injection Hl as <- Hl.
        -- rewrite E in Hline. discriminate.
        -- exists before, line, following. cbn in Hb. rewrite E in Hb.
           repeat split; assumption.
Qed.

(** The line behind a result of the line-by-line extractor. *)
Lemma extract_national_id_lines (text m : pystr) :
  Test2Photos.extract_national_id text = Some m ->
  exists line,
    In line (split_on 10%N text) /\ id_line line = true
    /\ m = line_digits line.
Proof.
  unfold Test2Photos.extract_national_id. destruct text as [| c text];
    [discriminate |].
  intros (before & line & following & Hsplit & _ & Hline & Hm)%first_id_line_some.
  exists line. split; [rewrite Hsplit; apply in_elt |].
  split; [exact Hline | exact Hm].
Qed.

(** X7.  The line-by-line extractor returns [m] exactly when [m] is made
    of all the decimal digits, normalized, of the first line that has
    exactly fourteen of them starting with 2 or 3, wherever in the line
    they stand. *)
Theorem line_extractor_first_id_line (text m : pystr) :
  Test2Photos.extract_national_id text = Some m <->
  exists before line following,
    split_on 10%N text = before ++ line :: following
    /\ forallb (fun l => negb (id_line l)) before = true
    /\ id_line line = true
    /\ m = line_digits line.
Proof.
  unfold Test2Photos.extract_national_id. destruct text as [| c text].
  - split; [discriminate |].
    intros (before & line & following & Hl & _ & Hline & _). cbn in Hl.
    destruct before as [| l before]; injection Hl as <- Hl;
      [discriminate Hline | destruct before; discriminate].
  - apply first_id_line_some.
Qed.

Lemma line_extractor_first_id_line_witness :
  Test2Photos.extract_national_id split_id_text = Some issued_id
  /\ exists before line following,
       split_on 10%N split_id_text = before ++ line :: following
       /\ forallb (fun l => negb (id_line l)) before = true
       /\ id_line line = true
       /\ issued_id = line_digits line.
Proof.
  assert (H : Test2Photos.extract_national_id split_id_text = Some issued_id)
    by (vm_compute; reflexivity).
  split; [exact H |].
  apply (proj1 (line_extractor_first_id_line split_id_text issued_id) H).
Defined.

Lemma split_on_in (sep : char) (s l : pystr) (c : char) :
  In l (split_on sep s) -> In c l -> In c s.
Proof.
  revert l. induction s as [| x s IH]; intros l Hl Hc.
  - destruct Hl as [<- | []]. destruct Hc.
  - cbn [split_on] in Hl. destruct (char_eqb x sep).
    + destruct Hl as [<- | Hl]; [destruct Hc | right; eapply IH; eassumption].
    + destruct (split_on sep s) as [| l0 ls] eqn:E.
      * destruct Hl as [<- | []]. destruct Hc as [<- | []]. left. reflexivity.
      * destruct Hl as [<- | Hl].
        -- destruct Hc as [<- | Hc]; [left; reflexivity |].
           right. apply (IH l0); [left; reflexivity | exact Hc].
        -- right. apply (IH l); [right; exact Hl | exact Hc].
Qed.

(** X8.  What the line-by-line extractor returns is a string of exactly
    fourteen decimal digits starting with a Western 2 or 3, all Western
    when the digits of the text are of the three known numeral systems. *)
Theorem line_extractor_shape (text m : pystr) :
  Test2Photos.extract_national_id text = Some m ->
  length m = 14 /\ starts_2_or_3 m = true /\ forallb is_decimal m = true
  /\ (forallb known_numeral text = true -> forallb is_western m = true).
Proof.
  intros H. apply extract_national_id_lines in H
    as (line & Hin & Hline & ->).
  unfold id_line in Hline. apply andb_prop in Hline as [Hlen H23].
  apply Nat.eqb_eq in Hlen. repeat split; try assumption.
  - unfold line_digits. apply forallb_forall. intros c Hc.
    apply filter_In in Hc. apply Hc.
  - intros Hk. unfold line_digits. apply forallb_forall. intros c Hc.
    apply filter_In in Hc as [Hc Hd]. apply in_map_iff in Hc as [x [<- Hx]].
    apply known_numeral_western; [| exact Hd].
    rewrite forallb_forall in Hk. apply Hk.
    apply (split_on_in 10%N text line); [exact Hin | exact Hx].
Qed.

Lemma line_extractor_shape_witness :
  Test2Photos.extract_national_id split_id_text = Some issued_id
  /\ length issued_id = 14 /\ starts_2_or_3 issued_id = true
  /\ forallb is_decimal issued_id = true
  /\ (forallb known_numeral split_id_text = true ->
      forallb is_western issued_id = true).
Proof.
  assert (H : Test2Photos.extract_national_id split_id_text = Some issued_id)
    by (vm_compute; reflexivity).
  split; [exact H |]. apply (line_extractor_shape split_id_text issued_id H).
Defined.

(** ** Orientation correction *)

Lemma pystr_eqb_eq (a b : pystr) : pystr_eqb a b = true <-> a = b.
Proof.
  revert b. induction a as [| x a IH]; intros [| y b]; cbn [pystr_eqb];
    try (split; [discriminate | discriminate]); [split; reflexivity |].
  rewrite andb_true_iff, IH. unfold char_eqb. rewrite N.eqb_eq.
  split; [intros [-> ->]; reflexivity | intros [= -> ->]; split; reflexivity].
Qed.

Lemma pystr_eqb_refl (a : pystr) : pystr_eqb a a = true.
Proof. apply pystr_eqb_eq. reflexivity. Qed.

Lemma pystr_eqb_neq (a b : pystr) : a <> b -> pystr_eqb a b = false.
Proof.
  intros H. destruct (pystr_eqb a b) eqn:E; [| reflexivity].
  apply pystr_eqb_eq in E. contradiction.
Qed.

(** Replacing a substring that does not occur changes nothing. *)
Lemma replace_absent (s old new : pystr) :
  contains s old = false -> replace s old new = s.
Proof.
  unfold replace. induction s as [| c s IH]; [reflexivity |].
  cbn [contains replace_go]. intros [H1 H2]%orb_false_elim.
  rewrite H1, IH by exact H2. reflexivity.
Qed.

(** The ways [detect_rotation_and_correct_image] of process_logic.py can
    end. *)
Lemma rotation_cases (rt : runtime) (client : vision_client) (p : pystr)
    (st : state) :
  ProcessLogic.detect_rotation_and_correct_image rt client p st = (p, st)
  \/ (exists content,
        files st !! p = Some content /\ content <> []
        /\ ProcessLogic.detect_rotation_and_correct_image rt client p st
           = (p, record_probe content st))
  \/ (exists content img stored,
        files st !! p = Some content /\ content <> []
        /\ rotates (logic_angle rt) rt client content img
        /\ pil_save rt (corrected_of p) img = Some stored
        /\ ProcessLogic.detect_rotation_and_correct_image rt client p st
           = (corrected_of p,
              write_file (corrected_of p) stored (record_probe content st))).
Proof.
  destruct (files st !! p) as [[| b content] |] eqn:Hp;
    [left | | left];
    try (unfold ProcessLogic.detect_rotation_and_correct_image;
         rewrite Hp; reflexivity).
  right.
  assert (Hquiet :
    ProcessLogic.detect_rotation_and_correct_image rt client p st
    = (p, record_probe (b :: content) st) ->
    (exists c, Some (b :: content) = Some c /\ c <> []
       /\ ProcessLogic.detect_rotation_and_correct_image rt client p st
          = (p, record_probe c st))
    \/ (exists c img stored, Some (b :: content) = Some c /\ c <> []
          /\ rotates (logic_angle rt) rt client c img
          /\ pil_save rt (corrected_of p) img = Some stored
          /\ ProcessLogic.detect_rotation_and_correct_image rt client p st
             = (corrected_of p,
                write_file (corrected_of p) stored (record_probe c st)))).
  { intros E. left. exists (b :: content).
    split; [reflexivity |]. split; [discriminate | exact E]. }
  unfold ProcessLogic.detect_rotation_and_correct_image in *. rewrite Hp in *.
  destruct (text_detection client (b :: content)) as [response |] eqn:Hr;
    [| apply Hquiet; reflexivity].
  destruct (text_annotations response) as [| first more] eqn:Ha;
    [apply Hquiet; reflexivity |].
  destruct (bounding_poly first) as [| v0 [| v1 vs]] eqn:Hv;
    [apply Hquiet; reflexivity | apply Hquiet; reflexivity |].
  destruct (exceeds_45 _) eqn:Hangle; [| apply Hquiet; reflexivity].
  destruct (pil_rotate rt _ _) as [img |] eqn:Hpil; [| apply Hquiet; reflexivity].
  destruct (pil_save rt _ img) as [stored |] eqn:Hsave;
    [| apply Hquiet; reflexivity].
  right. exists (b :: content), img, stored.
  split; [reflexivity |]. split; [discriminate |].
  split; [| split; [exact Hsave | reflexivity]].
  exists response, first, v0, v1, vs, more. repeat split; assumption.
Qed.

(** The same for the copy in process.py, which has no test for empty
    content. *)
Lemma rotation_cases_jpg (rt : runtime) (client : vision_client) (p : pystr)
    (st : state) :
  Process.detect_rotation_and_correct_image rt client p st = (p, st)
  \/ (exists content,
        files st !! p = Some content
        /\ Process.detect_rotation_and_correct_image rt client p st
           = (p, record_probe content st))
  \/ (exists content img stored,
        files st !! p = Some content
        /\ rotates (numpy_angle rt) rt client content img
        /\ pil_save rt (corrected_jpg_of p) img = Some stored
        /\ Process.detect_rotation_and_correct_image rt client p st
           = (corrected_jpg_of p,
              write_file (corrected_jpg_of p) stored
                (record_probe content st))).
Proof.
  destruct (files st !! p) as [content |] eqn:Hp;
    [| left; unfold Process.detect_rotation_and_correct_image;
       rewrite Hp; reflexivity].
  right.
  assert (Hquiet :
    Process.detect_rotation_and_correct_image rt client p st
    = (p, record_probe content st) ->
    (exists c, Some content = Some c
       /\ Process.detect_rotation_and_correct_image rt client p st
          = (p, record_probe c st))
    \/ (exists c img stored, Some content = Some c
          /\ rotates (numpy_angle rt) rt client c img
          /\ pil_save rt (corrected_jpg_of p) img = Some stored
          /\ Process.detect_rotation_and_correct_image rt client p st
             = (corrected_jpg_of p,
                write_file (corrected_jpg_of p) stored (record_probe c st)))).
  { intros E. left. exists content. split; [reflexivity | exact E]. }
  unfold Process.detect_rotation_and_correct_image in *. rewrite Hp in *.
  destruct (text_detection client content) as [response |] eqn:Hr;
    [| apply Hquiet; reflexivity].
  destruct (text_annotations response) as [| first more] eqn:Ha;
    [apply Hquiet; reflexivity |].
  destruct (bounding_poly first) as [| v0 [| v1 vs]] eqn:Hv;
    [apply Hquiet; reflexivity | apply Hquiet; reflexivity |].
  destruct (exceeds_45 _) eqn:Hangle; [| apply Hquiet; reflexivity].
  destruct (pil_rotate rt _ _) as [img |] eqn:Hpil; [| apply Hquiet; reflexivity].
  destruct (pil_save rt _ img) as [stored |] eqn:Hsave;
    [| apply Hquiet; reflexivity].
  right. exists content, img, stored.
  split; [reflexivity |]. split; [| split; [exact Hsave | reflexivity]].
  exists response, first, v0, v1, vs, more. repeat split; assumption.
Qed.

(** X9.  Orientation correction is best effort in both copies: it
    returns the path it was given and leaves every file as it was, or it
    returns the corrected name and has stored that one file.  It does
    the second only when the probe gave a first text region for which
    the angle it computes, [(180 / 3.14159) * atan2] in process_logic.py
    and [arctan2 * 180 / np.pi] in process.py, is beyond 45 in absolute
    value, the picture was decoded and rotated, and the save succeeded.
    It calls the probe at most once, on the content of the image.  The
    two formulas do not turn the same pictures: where [atan2] is the
    float nearest to pi/4 the first gives a value above 45 and the
    second does not. *)
Theorem rotation_outcome (rt : runtime) (client : vision_client) (p : pystr)
    (st : state) :
  (let '(r, st') :=
     ProcessLogic.detect_rotation_and_correct_image rt client p st in
   (r = p /\ files st' = files st
    \/ exists content img stored,
         files st !! p = Some content
         /\ rotates (logic_angle rt) rt client content img
         /\ pil_save rt (corrected_of p) img = Some stored
         /\ r = corrected_of p
         /\ files st' = <[corrected_of p := stored]> (files st))
   /\ (probes st' = probes st
       \/ exists content,
            files st !! p = Some content /\ probes st' = content :: probes st))
  /\ (let '(r, st') :=
        Process.detect_rotation_and_correct_image rt client p st in
      (r = p /\ files st' = files st
       \/ exists content img stored,
            files st !! p = Some content
            /\ rotates (numpy_angle rt) rt client content img
            /\ pil_save rt (corrected_jpg_of p) img = Some stored
            /\ r = corrected_jpg_of p
            /\ files st' = <[corrected_jpg_of p := stored]> (files st))
      /\ (probes st' = probes st
          \/ exists content,
               files st !! p = Some content
               /\ probes st' = content :: probes st))
  /\ nearest_float 78539816339744830961 (10 ^ 20) quarter_pi = true
  /\ exceeds_45 (ProcessLogic.degrees quarter_pi) = true
  /\ exceeds_45 (Process.degrees quarter_pi) = false.
Proof.
  split; [| split; [| repeat split; vm_compute; reflexivity]].
  - destruct (rotation_cases rt client p st)
      as [-> | [(c & Hc & _ & ->)
               | (c & img & stored & Hc & _ & Ht & Hs & ->)]].
    + split; left; split; reflexivity.
    + split; [left; split; reflexivity
             | right; exists c; split; [exact Hc | reflexivity]].
    + split; [right; exists c, img, stored; repeat split; assumption
             | right; exists c; split; [exact Hc | reflexivity]].
  - destruct (rotation_cases_jpg rt client p st)
      as [-> | [(c & Hc & ->) | (c & img & stored & Hc & Ht & Hs & ->)]].
    + split; left; split; reflexivity.
    + split; [left; split; reflexivity
             | right; exists c; split; [exact Hc | reflexivity]].
    + split; [right; exists c, img, stored; repeat split; assumption
             | right; exists c; split; [exact Hc | reflexivity]].
Qed.

Lemma detect_text_from_image_steps (rt : runtime) (client : vision_client)
    (p : pystr) (st : state) :
  ProcessLogic.detect_text_from_image rt client p st =
  read_and_detect client
    (fst (ProcessLogic.detect_rotation_and_correct_image rt client p st)) p
    (snd (ProcessLogic.detect_rotation_and_correct_image rt client p st)).
Proof.
  unfold ProcessLogic.detect_text_from_image, read_and_detect.
  destruct (ProcessLogic.detect_rotation_and_correct_image rt client p st)
    as [cp st1].
  cbn [fst snd]. destruct (files st1 !! cp) as [[| b content] |]; reflexivity.
Qed.

Lemma read_and_detect_same_path (client : vision_client) (p : pystr)
    (st1 : state) :
  files (snd (read_and_detect client p p st1)) = files st1.
Proof.
  unfold read_and_detect.
  destruct (files st1 !! p) as [[| b content] |]; try reflexivity.
  destruct (document_text_detection client _) as [response |]; [| reflexivity].
  destruct (error_message response); [| reflexivity].
  cbn [snd]. unfold ProcessLogic.cleanup. rewrite pystr_eqb_refl. reflexivity.
Qed.

(** X10.  When the call returns a text, the path of a corrected copy is
    not the path of the image and no file of that name existed, the
    files are afterwards exactly what they were: the corrected copy has
    been written, read and removed. *)
Theorem successful_read_restores_files (rt : runtime) (client : vision_client)
    (p text : pystr) (st : state) :
  fst (ProcessLogic.detect_text_from_image rt client p st)
  = Returns (Some text) ->
  corrected_of p <> p ->
  files st !! corrected_of p = None ->
  files (snd (ProcessLogic.detect_text_from_image rt client p st)) = files st.
Proof.
  rewrite detect_text_from_image_steps. intros Hret Hne Hfree.
  destruct (rotation_cases rt client p st)
    as [E | [(c & _ & _ & E) | (c & img & stored & _ & _ & _ & _ & E)]];
    rewrite E in *; cbn [fst snd] in *.
  - apply read_and_detect_same_path.
  - rewrite read_and_detect_same_path. reflexivity.
  - unfold read_and_detect in *. cbn [files write_file record_probe] in *.
    rewrite lookup_insert_eq in *.
    destruct stored as [| b stored]; [discriminate |].
    destruct (document_text_detection client _) as [response |];
      [| discriminate].
    destruct (error_message response); [| discriminate].
    cbn [snd]. unfold ProcessLogic.cleanup.
    rewrite (pystr_eqb_neq _ _ Hne). cbn [negb files write_file record_probe].
    rewrite lookup_insert_eq. cbn [files remove_file write_file record_probe].
    apply delete_insert_id, Hfree.
Qed.

Lemma successful_read_restores_files_witness :
  fst (ProcessLogic.detect_text_from_image quarter_turn sideways_reading_ocr
         card_path card_on_disk) = Returns (Some issued_text)
  /\ corrected_of card_path <> card_path
  /\ files card_on_disk !! corrected_of card_path = None
  /\ files (snd (ProcessLogic.detect_text_from_image quarter_turn
                   sideways_reading_ocr card_path card_on_disk))
     = files card_on_disk.
Proof.
  assert (H1 : fst (ProcessLogic.detect_text_from_image quarter_turn
                      sideways_reading_ocr card_path card_on_disk)
               = Returns (Some issued_text)) by (vm_compute; reflexivity).
  assert (H2 : corrected_of card_path <> card_path)
    by (vm_compute; discriminate).
  assert (H3 : files card_on_disk !! corrected_of card_path = None)
    by (vm_compute; reflexivity).
  split; [exact H1 |]. split; [exact H2 |]. split; [exact H3 |].
  apply (successful_read_restores_files _ _ _ _ _ H1 H2 H3).
Defined.

(** X11.  process_logic.py: when the name of an image that the copy
    turns contains neither [.jpg] nor [.png], the corrected name is the
    name of the image; if the imaging library can save under that name
    (as it can for [card.jpeg]), the rotated picture is written over the
    original, and it is still there when [detect_text_from_image] has
    ended, whatever the OCR service answered. *)
Theorem rotation_overwrites_unrenamed (rt : runtime) (client : vision_client)
    (p : pystr) (st : state) (content img stored : bytes) :
  files st !! p = Some content -> content <> [] ->
  rotates (logic_angle rt) rt client content img ->
  contains p (py ".jpg") = false -> contains p (py ".png") = false ->
  pil_save rt p img = Some stored ->
  files (snd (ProcessLogic.detect_text_from_image rt client p st)) !! p
  = Some stored.
Proof.
  intros Hp Hne Ht Hj Hg Hsave.
  assert (Hc : corrected_of p = p).
  { unfold corrected_of. rewrite (replace_absent _ _ _ Hj).
    apply replace_absent, Hg. }
  rewrite <- Hc in Hsave.
  rewrite detect_text_from_image_steps,
    (rotation_saved _ _ _ _ _ _ _ Hp Hne Ht Hsave), Hc.
  cbn [fst snd]. rewrite read_and_detect_same_path.
  cbn [files write_file]. apply lookup_insert_eq.
Qed.

Lemma rotation_overwrites_unrenamed_witness :
  files jpeg_on_disk !! jpeg_path = Some card_image
  /\ files (snd (ProcessLogic.detect_text_from_image marking_turn
                   sideways_reading_ocr jpeg_path jpeg_on_disk)) !! jpeg_path
     = Some (x52 :: card_image).
Proof.
  assert (Hp : files jpeg_on_disk !! jpeg_path = Some card_image)
    by (vm_compute; reflexivity).
  split; [exact Hp |].
  apply (rotation_overwrites_unrenamed marking_turn sideways_reading_ocr
           jpeg_path jpeg_on_disk card_image (x52 :: card_image)
           (x52 :: card_image) Hp).
  - discriminate.
  - exists {| error_message := []; text_annotations := [sideways_region] |},
      sideways_region, {| vertex_x := 0; vertex_y := 0 |},
      {| vertex_x := 0; vertex_y := 10 |}, [], [].
    repeat split; vm_compute; reflexivity.
  - vm_compute; reflexivity.
  - vm_compute; reflexivity.
  - reflexivity.
Defined.

(** X12.  process.py renames [.jpg] only: when the name of an image that
    the copy turns does not contain [.jpg], as the name of a PNG does
    not, and the imaging library can save under that name, the rotated
    picture replaces the original, and stays there when
    [detect_text_from_image] has ended. *)
Theorem rotation_overwrites_without_jpg (rt : runtime)
    (client : vision_client) (p : pystr) (st : state)
    (content img stored : bytes) :
  files st !! p = Some content ->
  rotates (numpy_angle rt) rt client content img ->
  contains p (py ".jpg") = false ->
  pil_save rt p img = Some stored ->
  files (snd (Process.detect_text_from_image rt client p st)) !! p
  = Some stored.
Proof.
  intros Hp Ht Hj Hsave.
  assert (Hc : corrected_jpg_of p = p) by apply replace_absent, Hj.
  rewrite <- Hc in Hsave.
  unfold Process.detect_text_from_image.
  rewrite (rotation_saved_jpg _ _ _ _ _ _ _ Hp Ht Hsave), Hc.
  cbn [files write_file]. rewrite lookup_insert_eq.
  destruct (document_text_detection client stored) as [response |];
    [| cbn [snd files write_file]; apply lookup_insert_eq].
  destruct (error_message response);
    [| cbn [snd files write_file]; apply lookup_insert_eq].
  cbn [snd]. unfold Process.cleanup. rewrite pystr_eqb_refl.
  cbn [negb files write_file]. apply lookup_insert_eq.
Qed.

Lemma rotation_overwrites_without_jpg_witness :
  files png_on_disk !! png_path = Some card_image
  /\ files (snd (Process.detect_text_from_image marking_turn
                   sideways_reading_ocr png_path png_on_disk)) !! png_path
     = Some (x52 :: card_image).
Proof.
  assert (Hp : files png_on_disk !! png_path = Some card_image)
    by (vm_compute; reflexivity).
  split; [exact Hp |].
  apply (rotation_overwrites_without_jpg marking_turn sideways_reading_ocr
           png_path png_on_disk card_image (x52 :: card_image)
           (x52 :: card_image) Hp).
  - exists {| error_message := []; text_annotations := [sideways_region] |},
      sideways_region, {| vertex_x := 0; vertex_y := 0 |},
      {| vertex_x := 0; vertex_y := 10 |}, [], [].
    repeat split; vm_compute; reflexivity.
  - vm_compute; reflexivity.
  - reflexivity.
Defined.

(** ** The batch *)

(** The ways [download_image] can end. *)
Lemma download_image_cases (w : App.site) (url : App.cell)
    (output_path : pystr) (st : state) :
  let '((success, message), st') :=
    App.download_image w url output_path st in
  if success
  then exists u content_type body,
         url = App.CellStr u
         /\ strip u <> [] /\ App.lower_is_null u = false
         /\ App.http_get w u = App.HttpOk content_type body
         /\ startswith content_type (py "image/") = true
         /\ App.save_error w output_path = None
         /\ message = py "Success"
         /\ st' = write_file output_path body st
  else st' = st \/ exists copied, st' = write_file output_path copied st.
Proof.
  unfold App.download_image. destruct url as [u |]; [| left; reflexivity].
  destruct (App.is_empty (strip u)) eqn:He; [left; reflexivity |].
  destruct (App.lower_is_null u) eqn:Hn; [left; reflexivity |]. cbn [orb].
  destruct (App.http_get w u) as [e | content_type body
                                  | content_type copied failure] eqn:Hg;
    [left; reflexivity | |].
  - destruct (startswith content_type (py "image/")) eqn:Hs;
      [| left; reflexivity].
    cbn [negb].
    destruct (App.save_error w output_path) eqn:Hw; [left; reflexivity |].
    exists u, content_type, body. repeat split; try assumption.
    intros E. rewrite E in He. discriminate.
  - destruct (startswith content_type (py "image/")) eqn:Hs;
      [| left; reflexivity].
    cbn [negb].
    destruct (App.save_error w output_path) eqn:Hw; [left; reflexivity |].
    right. exists copied. reflexivity.
Qed.

Lemma download_image_frame (w : App.site) (url : App.cell)
    (output_path q : pystr) (st : state) :
  q <> output_path ->
  files (snd (App.download_image w url output_path st)) !! q = files st !! q.
Proof.
  intros Hq. pose proof (download_image_cases w url output_path st) as H.
  destruct (App.download_image w url output_path st) as [[[|] message] st'];
    cbn [snd].
  - destruct H as (u & ct & body & _ & _ & _ & _ & _ & _ & _ & ->).
    cbn [files write_file]. apply lookup_insert_ne. congruence.
  - destruct H as [-> | [copied ->]]; [reflexivity |].
    cbn [files write_file]. apply lookup_insert_ne. congruence.
Qed.

(** X13.  [download_image] reports success only for a link that is a
    string, neither blank nor [null] in any case, whose request
    succeeded with a content type starting with [image/] and whose file
    could be written, and it has then written the body to the output
    path; whatever it reports, no other file has changed and the OCR
    service has not been called. *)
Theorem download_image_outcome (w : App.site) (url : App.cell)
    (output_path : pystr) (st : state) :
  let '((success, message), st') :=
    App.download_image w url output_path st in
  (success = true ->
   exists u content_type body,
     url = App.CellStr u
     /\ strip u <> [] /\ App.lower_is_null u = false
     /\ App.http_get w u = App.HttpOk content_type body
     /\ startswith content_type (py "image/") = true
     /\ App.save_error w output_path = None
     /\ message = py "Success"
     /\ files st' = <[output_path := body]> (files st))
  /\ (forall q, q <> output_path -> files st' !! q = files st !! q)
  /\ probes st' = probes st.
Proof.
  pose proof (download_image_cases w url output_path st) as H.
  pose proof (fun q => download_image_frame w url output_path q st) as Hf.
  destruct (App.download_image w url output_path st) as [[[|] message] st'];
    cbn [snd] in Hf.
  - destruct H as (u & ct & body & H1 & H2 & H3 & H4 & H5 & H6 & H7 & ->).
    split; [| split; [exact Hf | reflexivity]].
    intros _. exists u, ct, body. repeat split; assumption.
  - split; [discriminate |]. split; [exact Hf |].
    destruct H as [-> | [copied ->]]; reflexivity.
Qed.

Lemma read_and_detect_frame (client : vision_client) (cp p q : pystr)
    (st1 : state) :
  q <> cp ->
  files (snd (read_and_detect client cp p st1)) !! q = files st1 !! q.
Proof.
  intros Hq. unfold read_and_detect.
  destruct (files st1 !! cp) as [[| b content] |] eqn:Hcp; try reflexivity.
  destruct (document_text_detection client _) as [response |]; [| reflexivity].
  destruct (error_message response); [| reflexivity].
  cbn [snd]. unfold ProcessLogic.cleanup.
  destruct (negb (pystr_eqb cp p)); [| reflexivity].
  rewrite Hcp. cbn [files remove_file]. apply lookup_delete_ne. congruence.
Qed.

(** [detect_text_from_image] touches no file but the corrected copy. *)
Lemma detect_text_from_image_frame (rt : runtime) (client : vision_client)
    (p q : pystr) (st : state) :
  q <> corrected_of p ->
  files (snd (ProcessLogic.detect_text_from_image rt client p st)) !! q
  = files st !! q.
Proof.
  intros Hq. rewrite detect_text_from_image_steps.
  destruct (rotation_cases rt client p st)
    as [E | [(c & _ & _ & E) | (c & img & stored & _ & _ & _ & _ & E)]];
    rewrite E; cbn [fst snd].
  - rewrite read_and_detect_same_path. reflexivity.
  - rewrite read_and_detect_same_path. reflexivity.
  - rewrite (read_and_detect_frame _ _ _ _ _ Hq).
    cbn [files write_file record_probe]. apply lookup_insert_ne. congruence.
Qed.

Lemma process_row_frame (w : App.site) (client : vision_client) (index : nat)
    (row : App.excel_row) (q : pystr) (st : state) :
  q <> local_filepath w index ->
  q <> corrected_of (local_filepath w index) ->
  files (snd (App.process_row w client index row st)) !! q = files st !! q.
Proof.
  intros H1 H2. unfold App.process_row.
  fold (local_filename index). fold (local_filepath w index).
  pose proof (download_image_frame w (App.row_back_link row)
                (local_filepath w index) q st H1) as Hd.
  destruct (App.download_image w (App.row_back_link row)
              (local_filepath w index) st) as [[[|] message] st1];
    cbn [snd] in Hd; [| exact Hd].
  pose proof (detect_text_from_image_frame (App.rt w) client
                (local_filepath w index) q st1 H2) as Ht.
  destruct (ProcessLogic.detect_text_from_image (App.rt w) client
              (local_filepath w index) st1) as [[text |] st2];
    cbn [snd] in *; congruence.
Qed.

Lemma process_rows_frame (w : App.site) (client : vision_client) (q : pystr)
    (rows : list App.excel_row) :
  forall (index : nat) (st : state),
    (forall i, index <= i < index + length rows ->
       q <> local_filepath w i /\ q <> corrected_of (local_filepath w i)) ->
    files (snd (App.process_rows w client index rows st)) !! q = files st !! q.
Proof.
  induction rows as [| row rows IH]; intros index st Hq; [reflexivity |].
  cbn [App.process_rows length] in *.
  destruct (Hq index ltac:(lia)) as [H1 H2].
  pose proof (process_row_frame w client index row q st H1 H2) as Hr.
  destruct (App.process_row w client index row st) as [[v |] st1];
    cbn [snd] in Hr; [| exact Hr].
  specialize (IH (S index) st1 ltac:(intros i Hi; apply Hq; lia)).
  destruct (App.process_rows w client (S index) rows st1) as [[vs |] st2];
    cbn [snd] in *; congruence.
Qed.

(** X14.  The route touches no file but the downloads of its ten rows
    and their corrected copies: every other path holds after the request
    what it held before, whatever the sheet, the links and the OCR
    service do, also when the request ends in an exception. *)
Theorem route_touches_row_files_only (w : App.site) (st : state) (q : pystr) :
  (forall i, i < 10 ->
     q <> local_filepath w i /\ q <> corrected_of (local_filepath w i)) ->
  files (snd (App.process_from_excel_links w st)) !! q = files st !! q.
Proof.
  intros Hq. unfold App.process_from_excel_links.
  destruct (App.excel w) as [| | | rows]; try reflexivity.
  destruct (App.vision w) as [client |]; [| reflexivity].
  pose proof (process_rows_frame w client q (firstn 10 rows) 0 st) as Hf.
  destruct (App.process_rows w client 0 (firstn 10 rows) st) as [[vs |] st1];
    cbn [snd] in *; apply Hf; intros i Hi; apply Hq;
    rewrite length_take in Hi; lia.
Qed.

Lemma route_touches_row_files_only_witness :
  files (snd (App.process_from_excel_links (serving_site sideways_reading_ocr)
                card_on_disk)) !! card_path
  = files card_on_disk !! card_path.
Proof.
  apply (route_touches_row_files_only (serving_site sideways_reading_ocr)
           card_on_disk card_path).
  intros i Hi.
  do 10 (destruct i as [| i]; [split; vm_compute; discriminate |]).
  lia.
Defined.

Lemma same_id_true (extracted : option pystr) (expected : pystr) :
  App.same_id extracted expected = true -> extracted = Some expected.
Proof.
  destruct extracted as [s |]; [| discriminate]. cbn [App.same_id].
  intros ->%pystr_eqb_eq. reflexivity.
Qed.

Lemma process_row_match (w : App.site) (client : vision_client) (index : nat)
    (row : App.excel_row) (st : state) :
  match fst (App.process_row w client index row st) with
  | Raises => True
  | Returns v =>
      App.excel_nationality_id v = App.row_nationality_id row
      /\ (App.is_match v = true ->
          App.extracted_id v = Some (App.row_nationality_id row)
          /\ App.image_path v = Some (local_filename index)
          /\ exists message st1 original,
               App.download_image w (App.row_back_link row)
                 (local_filepath w index) st = ((true, message), st1)
               /\ fst (ProcessLogic.detect_text_from_image (App.rt w) client
                         (local_filepath w index) st1) = Returns original
               /\ read_as original (App.row_nationality_id row))
  end.
Proof.
  unfold App.process_row.
  fold (local_filename index). fold (local_filepath w index).
  destruct (App.download_image w (App.row_back_link row)
              (local_filepath w index) st) as [[[|] message] st1].
  - destruct (ProcessLogic.detect_text_from_image (App.rt w) client
                (local_filepath w index) st1) as [[original |] st2] eqn:Ht;
      [| exact I].
    cbn [fst App.is_match App.extracted_id App.excel_nationality_id
         App.image_path].
    split; [reflexivity |]. intros Hm%same_id_true.
    split; [exact Hm |]. split; [reflexivity |].
    exists message, st1, original. split; [reflexivity |].
    split; [rewrite Ht; reflexivity |]. unfold read_as.
    destruct original as [[| c t] |].
    + injection Hm as Hm. symmetry. exact Hm.
    + exact Hm.
    + injection Hm as Hm. symmetry. exact Hm.
  - cbn [fst App.is_match App.excel_nationality_id].
    split; [reflexivity | discriminate].
Qed.

(** The entry at position [k] of the results is the one made for the row
    at position [k], in the state the rows before it have left. *)
Lemma process_rows_at (w : App.site) (client : vision_client)
    (rows : list App.excel_row) :
  forall (index : nat) (st : state) (vs : list App.verification) (k : nat)
         (v : App.verification),
    fst (App.process_rows w client index rows st) = Returns vs ->
    vs !! k = Some v ->
    exists row,
      rows !! k = Some row
      /\ fst (App.process_row w client (index + k) row
                (snd (App.process_rows w client index (take k rows) st)))
         = Returns v.
Proof.
  induction rows as [| row rows IH]; intros index st vs k v.
  - cbn. intros [= <-]. rewrite lookup_nil. discriminate.
  - cbn [App.process_rows].
    destruct (App.process_row w client index row st) as [[v0 |] st1] eqn:Hrow;
      [| discriminate].
    destruct (App.process_rows w client (S index) rows st1)
      as [[vs0 |] st2] eqn:Hrows; [| discriminate].
    cbn [fst]. intros [= <-]. destruct k as [| k].
    + cbn. intros [= <-]. exists row. split; [reflexivity |].
      rewrite Nat.add_0_r, Hrow. reflexivity.
    + cbn [lookup list_lookup]. intros Hv.
      destruct (IH (S index) st1 vs0 k v
                  ltac:(rewrite Hrows; reflexivity) Hv) as (r & Hr & Hk).
      exists r. split; [exact Hr |].
      cbn [take firstn App.process_rows]. rewrite Hrow.
      rewrite Nat.add_succ_r.
      destruct (App.process_rows w client (S index) (take k rows) st1)
        as [[vs1 |] st3]; exact Hk.
Qed.

(** X15.  A reported match is exact and comes from the image of its own
    row: an entry of the results with [is_match] set stands at the
    position of a row of the first ten, carries as extracted id the very
    string of that row's [nationality_id] cell and names the image
    stored for that position; the link of the row was downloaded to
    that file in the state left by the rows before it, and the text then
    read off that file is not empty and yields the cell as identity
    number, or is missing while the cell itself reads
    [Extraction Failed], the marker the route puts in its place. *)
Theorem reported_match_is_exact (w : App.site) (st : state)
    (results : list App.verification) (k : nat) (v : App.verification) :
  fst (App.process_from_excel_links w st) = Returns (Some results) ->
  results !! k = Some v ->
  App.is_match v = true ->
  exists rows client row message st1 original,
    App.excel w = App.ExcelTable rows /\ App.vision w = Some client
    /\ k < 10 /\ rows !! k = Some row
    /\ App.excel_nationality_id v = App.row_nationality_id row
    /\ App.extracted_id v = Some (App.row_nationality_id row)
    /\ App.image_path v = Some (local_filename k)
    /\ App.download_image w (App.row_back_link row) (local_filepath w k)
         (snd (App.process_rows w client 0 (take k rows) st))
       = ((true, message), st1)
    /\ fst (ProcessLogic.detect_text_from_image (App.rt w) client
              (local_filepath w k) st1) = Returns original
    /\ read_as original (App.row_nationality_id row).
Proof.
  unfold App.process_from_excel_links.
  destruct (App.excel w) as [| | | rows] eqn:Hexcel; try discriminate.
  destruct (App.vision w) as [client |] eqn:Hvision; [| discriminate].
  destruct (App.process_rows w client 0 (firstn 10 rows) st)
    as [[vs |] st0] eqn:Hrows; [| discriminate].
  cbn [fst]. intros [= <-] Hk Hm.
  destruct (process_rows_at w client (firstn 10 rows) 0 st vs k v
              ltac:(rewrite Hrows; reflexivity) Hk) as (row & Hrow & Hv).
  assert (Hlt : k < 10).
  { apply lookup_lt_Some in Hrow. rewrite length_take in Hrow. lia. }
  rewrite lookup_take_lt in Hrow by exact Hlt.
  rewrite take_take, Nat.min_l in Hv by lia. cbn [Nat.add] in Hv.
  pose proof (process_row_match w client k row
                (snd (App.process_rows w client 0 (take k rows) st))) as H.
  rewrite Hv in H. destruct H as [Hid H].
  destruct (H Hm) as (He & Hp & message & st1 & original & Hd & Ht & Hread).
  exists rows, client, row, message, st1, original.
  repeat split; assumption.
Qed.

Lemma reported_match_is_exact_witness :
  fst (App.process_from_excel_links (serving_site reading_ocr) no_files)
  = Returns (Some [matched_record])
  /\ exists rows client row message st1 original,
       App.excel (serving_site reading_ocr) = App.ExcelTable rows
       /\ App.vision (serving_site reading_ocr) = Some client
       /\ 0 < 10 /\ rows !! 0 = Some row
       /\ App.excel_nationality_id matched_record = App.row_nationality_id row
       /\ App.extracted_id matched_record = Some (App.row_nationality_id row)
       /\ App.image_path matched_record = Some (local_filename 0)
       /\ App.download_image (serving_site reading_ocr) (App.row_back_link row)
            (local_filepath (serving_site reading_ocr) 0)
            (snd (App.process_rows (serving_site reading_ocr) client 0
                    (take 0 rows) no_files))
          = ((true, message), st1)
       /\ fst (ProcessLogic.detect_text_from_image
                 (App.rt (serving_site reading_ocr)) client
                 (local_filepath (serving_site reading_ocr) 0) st1)
          = Returns original
       /\ read_as original (App.row_nationality_id row).
Proof.
  assert (H : fst (App.process_from_excel_links (serving_site reading_ocr)
                     no_files) = Returns (Some [matched_record]))
    by (vm_compute; reflexivity).
  split; [exact H |].
  exact (reported_match_is_exact (serving_site reading_ocr) no_files
           [matched_record] 0 matched_record H eq_refl eq_refl).
Defined.

(** A row that raises in every state ends the loop. *)
Lemma process_rows_raises_at (w : App.site) (client : vision_client)
    (row : App.excel_row) (rows2 rows1 : list App.excel_row) :
  forall (index : nat) (st : state),
    (forall st', fst (App.process_row w client (index + length rows1) row st')
                 = Raises) ->
    fst (App.process_rows w client index (rows1 ++ row :: rows2) st) = Raises.
Proof.
  induction rows1 as [| r rows1 IH]; intros index st Hrow.
  - cbn [app App.process_rows length] in *. rewrite Nat.add_0_r in Hrow.
    specialize (Hrow st).
    destruct (App.process_row w client index row st) as [[v |] st1];
      [discriminate | reflexivity].
  - cbn [app App.process_rows length] in *.
    destruct (App.process_row w client index r st) as [[v |] st1];
      [| reflexivity].
    specialize (IH (S index) st1
                  ltac:(intros st'; specialize (Hrow st');
                        rewrite Nat.add_succ_r in Hrow; exact Hrow)).
    destruct (App.process_rows w client (S index) (rows1 ++ row :: rows2) st1)
      as [[vs |] st2]; [discriminate | reflexivity].
Qed.

(** X16.  The loop composes: processing a sheet is processing its first
    rows, then the remaining ones from the state reached and with the
    positions shifted, the results of both appended; an exception in
    either part is the outcome of the whole, with the state at the
    point where it was raised. *)
Theorem process_rows_app (w : App.site) (client : vision_client)
    (rows1 rows2 : list App.excel_row) (index : nat) (st : state) :
  App.process_rows w client index (rows1 ++ rows2) st
  = match App.process_rows w client index rows1 st with
    | (Raises, st1) => (Raises, st1)
    | (Returns vs1, st1) =>
        match App.process_rows w client (index + length rows1) rows2 st1 with
        | (Raises, st2) => (Raises, st2)
        | (Returns vs2, st2) => (Returns (vs1 ++ vs2), st2)
        end
    end.
Proof.
  revert index st. induction rows1 as [| row rows1 IH]; intros index st.
  - cbn [app App.process_rows length]. rewrite Nat.add_0_r.
    destruct (App.process_rows w client index rows2 st) as [[vs |] st1];
      reflexivity.
  - cbn [app App.process_rows length].
    destruct (App.process_row w client index row st) as [[v |] st1];
      [| reflexivity].
    rewrite IH, Nat.add_succ_r.
    destruct (App.process_rows w client (S index) rows1 st1) as [[vs1 |] st2];
      [| reflexivity].
    cbn [Nat.add].
    destruct (App.process_rows w client (S (index + length rows1)) rows2 st2)
      as [[vs2 |] st3]; reflexivity.
Qed.

Lemma process_row_outage (w : App.site) (client : vision_client) (i : nat)
    (row : App.excel_row) (st : state) :
  unreachable client -> serves_card w i row ->
  fst (App.process_row w client i row st) = Raises.
Proof.
  intros Hun (u & content_type & b & body & Hlink & Hu & Hnull & Hget & Hct & Hsave).
  unfold App.process_row.
  fold (local_filename i). fold (local_filepath w i).
  unfold App.download_image. rewrite Hlink, Hnull, Hget, Hct, Hsave.
  destruct (strip u) as [| c t]; [contradiction |].
  cbn [App.is_empty orb negb].
  unfold ProcessLogic.detect_text_from_image,
    ProcessLogic.detect_rotation_and_correct_image.
  cbn [files write_file]. rewrite lookup_insert_eq.
  rewrite (proj1 (Hun _)).
  cbn [files write_file record_probe]. rewrite lookup_insert_eq.
  rewrite (proj2 (Hun _)). reflexivity.
Qed.

(** X17.  One outage ends the request: when none of the calls to the OCR
    service returns and one of the first ten rows has a link that is
    fetched as a non-empty image, the route raises, and no result is
    rendered for any row, not even for the rows before it. *)
Theorem ocr_outage_aborts_batch (w : App.site) (client : vision_client)
    (rows : list App.excel_row) (st : state) (i : nat) (row : App.excel_row) :
  App.excel w = App.ExcelTable rows ->
  App.vision w = Some client ->
  unreachable client ->
  i < 10 ->
  rows !! i = Some row ->
  serves_card w i row ->
  fst (App.process_from_excel_links w st) = Raises.
Proof.
  intros Hexcel Hvision Hun Hi Hrow Hcard.
  unfold App.process_from_excel_links. rewrite Hexcel, Hvision.
  assert (Hl : take 10 rows !! i = Some row)
    by (rewrite lookup_take_lt by exact Hi; exact Hrow).
  rewrite <- (take_drop_middle _ _ _ Hl).
  pose proof (process_rows_raises_at w client row (drop (S i) (take 10 rows))
                (take i (take 10 rows)) 0 st) as H.
  assert (Hlen : 0 + length (take i (take 10 rows)) = i).
  { apply lookup_lt_Some in Hl. rewrite length_take. lia. }
  rewrite Hlen in H.
  specialize (H (fun st' => process_row_outage w client i row st' Hun Hcard)).
  destruct (App.process_rows w client 0
              (take i (take 10 rows) ++ row :: drop (S i) (take 10 rows)) st)
    as [[vs |] st1]; [discriminate | reflexivity].
Qed.

Lemma ocr_outage_aborts_batch_witness :
  fst (App.process_from_excel_links (serving_site unreachable_ocr) no_files)
  = Raises.
Proof.
  apply (ocr_outage_aborts_batch (serving_site unreachable_ocr)
           unreachable_ocr [linked_row] no_files 0 linked_row).
  - reflexivity.
  - reflexivity.
  - intros content. split; reflexivity.
  - lia.
  - reflexivity.
  - exists (py "http://example.org/card"), (py "image/jpeg"), x89,
      (List.tl card_image).
    repeat split; try (vm_compute; reflexivity). vm_compute. discriminate.
Defined.
